(** * Terminal-Emulator: the PTY session engine of [terminal_emulator.cpp]

    A shallow embedding of class [TerminalEmulator] (the first translation
    unit of [src/terminal_emulator.cpp]) and of [main].

    - The object's data members, the function-local [static std::string
      escape_sequence] of [processInput] and the static [instance_] pointer
      are the fields of one record, [State]; the record also carries the
      [trace] of everything the process has asked of the operating system.
    - Member functions are computations in a small state monad [M].
    - What the operating system answers is not decided by the program.  The
      answers of [kill] and of the [write] loop of [safeWrite] come from two
      oracles that see the whole trace so far; the answers at start-up come
      from a [Startup] record; the wake-ups of [poll], the signals that
      interrupt it and the results of [read] come from a list of
      [Wakeup]s.  A signal handler touches none of the session data, so a
      signal delivered elsewhere than in [poll] differs in the order of the
      trace only; [waitpid] is taken to return.
    - [size_t] arithmetic on [history_index_] is written with its 64-bit
      wrap-around.  [char] values are [ascii] characters: every constant the
      code compares a [char] with is below 128, so the signedness of [char]
      plays no role. *)

From Stdlib Require Import ZArith List String Ascii Bool Lia.
Import ListNotations.

Local Open Scope string_scope.
Local Open Scope Z_scope.

(** ** Characters and strings *)

Definition CTRL_C : ascii := "003"%char.
Definition CTRL_D : ascii := "004"%char.
Definition CTRL_Z : ascii := "026"%char.
Definition DEL : ascii := "127"%char.
Definition ESC : ascii := "027"%char.
Definition LBRACKET : ascii := "["%char.
Definition CR : ascii := "013"%char.
Definition LF : ascii := "010"%char.
Definition BS : ascii := "008"%char.

(** [std::string::size]. *)
Definition size (s : string) : Z := Z.of_nat (String.length s).

(** [std::string::empty]. *)
Definition empty (s : string) : bool :=
  match s with
  | EmptyString => true
  | String _ _ => false
  end.

(** [s += c]. *)
Definition push_back (s : string) (c : ascii) : string :=
  s ++ String c EmptyString.

(** [s.pop_back()], called by the code on non-empty strings only. *)
Fixpoint pop_back (s : string) : string :=
  match s with
  | EmptyString => EmptyString
  | String c rest =>
      match rest with
      | EmptyString => EmptyString
      | String _ _ => String c (pop_back rest)
      end
  end.

(** [s[i]]: the code indexes below [size] only; at [size] the standard
    gives the terminating NUL. *)
Definition at_index (s : string) (i : nat) : ascii :=
  match String.get i s with
  | Some c => c
  | None => "000"%char
  end.

(** The literals of the source. *)
Definition str_ESC : string := String ESC EmptyString.
Definition str_newline : string := String LF EmptyString.
Definition str_backspace : string := String BS EmptyString.
Definition str_erase : string := String BS (String " " (String BS EmptyString)).
Definition str_clear_line : string :=
  String CR (String ESC (String "[" (String "K" EmptyString))).
Definition str_prompt : string := "$ ".
Definition str_exit : string := "exit".

(** ** [size_t] *)

Definition size_t_wrap (z : Z) : Z := z mod 2 ^ 64.

(** ** Signals, terminal settings, file descriptors *)

Inductive Signal : Set := SIGINT | SIGTERM | SIGKILL | SIGTSTP | SIGWINCH.

Definition Signal_eqb (a b : Signal) : bool :=
  match a, b with
  | SIGINT, SIGINT | SIGTERM, SIGTERM | SIGKILL, SIGKILL
  | SIGTSTP, SIGTSTP | SIGWINCH, SIGWINCH => true
  | _, _ => false
  end.

Definition STDIN_FILENO : Z := 0.
Definition STDOUT_FILENO : Z := 1.

(** The flag masks and [c_cc] slots of [<termios.h>] are the platform's, not
    the repository's: the model takes them as an interface. *)
Class TermiosConsts : Type := {
  ECHO : Z;
  ICANON : Z;
  ISIG : Z;
  IXON : Z;
  ICRNL : Z;
  VMIN : Z;
  VTIME : Z
}.

(** The values of Linux on x86-64, for concrete runs. *)
Definition linux_termios : TermiosConsts :=
  {| ECHO := 8; ICANON := 2; ISIG := 1; IXON := 1024; ICRNL := 256;
     VMIN := 6; VTIME := 5 |}.

Record termios : Type := {
  c_iflag : Z;
  c_oflag : Z;
  c_cflag : Z;
  c_lflag : Z;
  c_cc : Z -> Z
}.

Record winsize : Type := {
  ws_row : Z;
  ws_col : Z;
  ws_xpixel : Z;
  ws_ypixel : Z
}.

(** ** The trace of requests to the operating system *)

Inductive Event : Type :=
| EvWrite (fd : Z) (buf : string)
    (* safeWrite asked to deliver the bytes of buf, in order, to fd *)
| EvCerr (msg : string)
    (* a diagnostic on std::cerr; the strerror(errno) suffix is left out *)
| EvKill (pid : Z) (sig : Signal) (ret : Z)
| EvWaitpid (pid : Z)
| EvClose (fd : Z)
| EvTcgetattr (fd : Z) (ok : bool)
| EvTcsetattr (fd : Z) (t : termios) (ok : bool)
| EvSigaction (sig : Signal)
| EvGetWinsize (fd : Z) (ok : bool)
| EvSetWinsize (fd : Z) (ws : winsize)
| EvForkpty (ws : winsize) (ret : Z)
| EvExeclp (file : string) (ok : bool).

(** The [safeWrite] requests of a trace, in order. *)
Fixpoint writes (tr : list Event) : list (Z * string) :=
  match tr with
  | [] => []
  | EvWrite fd buf :: rest => (fd, buf) :: writes rest
  | _ :: rest => writes rest
  end.

(** The signals sent by a trace, in order. *)
Fixpoint kills (tr : list Event) : list (Z * Signal) :=
  match tr with
  | [] => []
  | EvKill pid sig _ :: rest => (pid, sig) :: kills rest
  | _ :: rest => kills rest
  end.

(** The terminal settings a trace applied to standard input, in order. *)
Fixpoint settings_applied (tr : list Event) : list termios :=
  match tr with
  | [] => []
  | EvTcsetattr _ t _ :: rest => t :: settings_applied rest
  | _ :: rest => settings_applied rest
  end.

(** ** The state *)

Record State : Type := {
  original_termios_ : termios;
  master_fd_ : Z;
  child_pid_ : Z;
  is_running_ : bool;
  input_buffer_ : string;
  history_ : list string;
  history_index_ : Z;
  escape_sequence : string;   (* static local of processInput *)
  instance_ : bool;           (* instance_ != nullptr *)
  trace : list Event
}.

Definition set_original_termios_ (v : termios) (s : State) : State :=
  {| original_termios_ := v; master_fd_ := master_fd_ s;
     child_pid_ := child_pid_ s; is_running_ := is_running_ s;
     input_buffer_ := input_buffer_ s; history_ := history_ s;
     history_index_ := history_index_ s;
     escape_sequence := escape_sequence s; instance_ := instance_ s;
     trace := trace s |}.

Definition set_master_fd_ (v : Z) (s : State) : State :=
  {| original_termios_ := original_termios_ s; master_fd_ := v;
     child_pid_ := child_pid_ s; is_running_ := is_running_ s;
     input_buffer_ := input_buffer_ s; history_ := history_ s;
     history_index_ := history_index_ s;
     escape_sequence := escape_sequence s; instance_ := instance_ s;
     trace := trace s |}.

Definition set_child_pid_ (v : Z) (s : State) : State :=
  {| original_termios_ := original_termios_ s; master_fd_ := master_fd_ s;
     child_pid_ := v; is_running_ := is_running_ s;
     input_buffer_ := input_buffer_ s; history_ := history_ s;
     history_index_ := history_index_ s;
     escape_sequence := escape_sequence s; instance_ := instance_ s;
     trace := trace s |}.

Definition set_is_running_ (v : bool) (s : State) : State :=
  {| original_termios_ := original_termios_ s; master_fd_ := master_fd_ s;
     child_pid_ := child_pid_ s; is_running_ := v;
     input_buffer_ := input_buffer_ s; history_ := history_ s;
     history_index_ := history_index_ s;
     escape_sequence := escape_sequence s; instance_ := instance_ s;
     trace := trace s |}.

Definition set_input_buffer_ (v : string) (s : State) : State :=
  {| original_termios_ := original_termios_ s; master_fd_ := master_fd_ s;
     child_pid_ := child_pid_ s; is_running_ := is_running_ s;
     input_buffer_ := v; history_ := history_ s;
     history_index_ := history_index_ s;
     escape_sequence := escape_sequence s; instance_ := instance_ s;
     trace := trace s |}.

Definition set_history_ (v : list string) (s : State) : State :=
  {| original_termios_ := original_termios_ s; master_fd_ := master_fd_ s;
     child_pid_ := child_pid_ s; is_running_ := is_running_ s;
     input_buffer_ := input_buffer_ s; history_ := v;
     history_index_ := history_index_ s;
     escape_sequence := escape_sequence s; instance_ := instance_ s;
     trace := trace s |}.

Definition set_history_index_ (v : Z) (s : State) : State :=
  {| original_termios_ := original_termios_ s; master_fd_ := master_fd_ s;
     child_pid_ := child_pid_ s; is_running_ := is_running_ s;
     input_buffer_ := input_buffer_ s; history_ := history_ s;
     history_index_ := v;
     escape_sequence := escape_sequence s; instance_ := instance_ s;
     trace := trace s |}.

Definition set_escape_sequence (v : string) (s : State) : State :=
  {| original_termios_ := original_termios_ s; master_fd_ := master_fd_ s;
     child_pid_ := child_pid_ s; is_running_ := is_running_ s;
     input_buffer_ := input_buffer_ s; history_ := history_ s;
     history_index_ := history_index_ s;
     escape_sequence := v; instance_ := instance_ s;
     trace := trace s |}.

Definition set_instance_ (v : bool) (s : State) : State :=
  {| original_termios_ := original_termios_ s; master_fd_ := master_fd_ s;
     child_pid_ := child_pid_ s; is_running_ := is_running_ s;
     input_buffer_ := input_buffer_ s; history_ := history_ s;
     history_index_ := history_index_ s;
     escape_sequence := escape_sequence s; instance_ := v;
     trace := trace s |}.

Definition set_trace (v : list Event) (s : State) : State :=
  {| original_termios_ := original_termios_ s; master_fd_ := master_fd_ s;
     child_pid_ := child_pid_ s; is_running_ := is_running_ s;
     input_buffer_ := input_buffer_ s; history_ := history_ s;
     history_index_ := history_index_ s;
     escape_sequence := escape_sequence s; instance_ := instance_ s;
     trace := v |}.

(** [history_.size()]. *)
Definition history_size (s : State) : Z := Z.of_nat (List.length (history_ s)).

(** ** The state monad *)

Definition M (A : Type) : Type := State -> A * State.

Definition ret {A : Type} (a : A) : M A := fun s => (a, s).

Definition bind {A B : Type} (m : M A) (k : A -> M B) : M B :=
  fun s => let (a, s') := m s in k a s'.

Definition get {A : Type} (proj : State -> A) : M A := fun s => (proj s, s).

Definition modify (f : State -> State) : M unit := fun s => (tt, f s).

Definition emit (e : Event) : M unit :=
  modify (fun s => set_trace (trace s ++ [e]) s).

Declare Scope monad_scope.
Delimit Scope monad_scope with monad.
Notation "x <- m ;; k" := (bind m (fun x => k))
  (at level 61, m at next level, right associativity) : monad_scope.
Notation "m ;; k" := (bind m (fun _ => k))
  (at level 61, right associativity) : monad_scope.
Local Open Scope monad_scope.

(** ** What the environment supplies *)

(** The result of [read(fd, buffer, 1024)]: [-1], or the bytes placed in
    [buffer] (none at end of stream). *)
Inductive ReadResult : Type :=
| ReadError
| ReadBytes (data : string).

Definition bytes_read (r : ReadResult) : Z :=
  match r with
  | ReadError => -1
  | ReadBytes data => size data
  end.

Definition read_data (r : ReadResult) : string :=
  match r with
  | ReadError => EmptyString
  | ReadBytes data => data
  end.

(** One return of [poll(fds, 2, -1)]: [-1] with [errno == EINTR] or with
    another [errno]; [-1] with [EINTR] after [handleSignal] ran on a signal
    that arrived during the wait ([winsz]: what [TIOCGWINSZ] then answers,
    [None] for [-1]); or the reads behind the descriptors whose [revents]
    carry [POLLIN] ([None]: not ready). *)
Inductive Wakeup : Type :=
| PollError (eintr : bool)
| PollSignal (sig : Signal) (winsz : option winsize)
| PollReady (stdin_in : option ReadResult) (master_in : option ReadResult).

(** What [forkpty] does: its return value ([-1], [0] in the child, the
    child's pid in the parent), the descriptor it stores through its first
    argument in the parent, and, for the child, the settings of the slave
    side and whether [execlp] succeeds. *)
Record ForkResult : Type := {
  fork_ret : Z;
  fork_master : Z;
  slave_termios : termios;
  exec_ok : bool
}.

Record Startup : Type := {
  tcgetattr_result : option termios;   (* None: tcgetattr returned -1 *)
  tcsetattr_raw_ok : bool;
  winsize_result : option winsize;     (* None: TIOCGWINSZ returned -1 *)
  forkpty_result : ForkResult;
  tcsetattr_restore_ok : bool
}.

(** [tcflag_t] is a 32-bit unsigned integer. *)
Definition tcflag_wrap (z : Z) : Z := z mod 2 ^ 32.

(** How a member function that may throw ends. *)
Inductive Completion : Type :=
| Normal
| Throw (what : string)        (* a std::runtime_error *)
| ProcessGone (code : option Z).
    (* in the forked child: exit(code), or the image replaced by bash *)

(** How [processIO] stands after the wake-ups it was given. *)
Inductive LoopStatus : Type :=
| LoopExited                   (* the while condition was false *)
| LoopThrew (what : string)
| LoopBlocked.                 (* still running, waiting in poll *)

(** How [main] stands. *)
Inductive Outcome : Type :=
| Returned (code : Z)
| Exited (code : Z)
| Replaced
| Blocked.

(** ** The other [TerminalEmulator] sources of the repository

    [src/unnamed/part_000] holds a second full version of the class.  Its
    members are stored in the same [State] record: [orig_term] in
    [original_termios_], [master_fd] in [master_fd_], [child_pid] in
    [child_pid_], [running] in [is_running_], [buffer] in [input_buffer_],
    [history] in [history_], [history_index] in [history_index_], the
    static [escape_seq] of [processInput] in [escape_sequence] and the
    static [instance] in [instance_].  It calls [write] directly and never
    looks at the result. *)
Module Part000.
Section Defs.

Variable sys_kill : list Event -> Z -> Signal -> Z.

(** [write(fd, buf, n)], result unused. *)
Definition write (fd : Z) (buf : string) : M unit := emit (EvWrite fd buf).

(** [std::cout << buf << std::flush]: one write to standard output, none
    when there is nothing to flush. *)
Definition cout_flush (buf : string) : M unit :=
  if empty buf then ret tt else emit (EvWrite STDOUT_FILENO buf).

Definition kill (pid : Z) (sig : Signal) : M Z :=
  tr <- get trace ;;
  let r := sys_kill tr pid sig in
  emit (EvKill pid sig r) ;;
  ret r.

Definition clearLine : M unit := write STDOUT_FILENO str_clear_line.

Definition showHistory : M unit :=
  clearLine ;;
  modify (fun s =>
    if history_index_ s <? history_size s
    then set_input_buffer_
           (nth (Z.to_nat (history_index_ s)) (history_ s) EmptyString) s
    else set_input_buffer_ EmptyString s) ;;
  buf <- get input_buffer_ ;;
  cout_flush buf.

Definition handleArrowKey (c : ascii) : M unit :=
  idx <- get history_index_ ;;
  n <- get history_size ;;
  if (c =? "A")%char && (0 <? idx) then
    modify (set_history_index_ (size_t_wrap (idx - 1))) ;;
    showHistory
  else if (c =? "B")%char && (idx <? n) then
    modify (set_history_index_ (size_t_wrap (idx + 1))) ;;
    showHistory
  else ret tt.

Definition handleEscapeSequence (c : ascii) : M bool :=
  if (c =? ESC)%char then
    modify (set_escape_sequence str_ESC) ;;
    ret true
  else
    seq <- get escape_sequence ;;
    if negb (empty seq) then
      modify (set_escape_sequence (push_back seq c)) ;;
      seq <- get escape_sequence ;;
      if (size seq =? 2) && negb (c =? LBRACKET)%char then
        modify (set_escape_sequence EmptyString) ;;
        ret true
      else if size seq =? 3 then
        handleArrowKey (at_index seq 2) ;;
        modify (set_escape_sequence EmptyString) ;;
        ret true
      else ret false
    else ret false.

Definition killChild (signal : Signal) : M bool :=
  pid <- get child_pid_ ;;
  (if 0 <? pid then kill pid signal ;; ret tt else ret tt) ;;
  ret true.

Definition handleBackspace : M bool :=
  buf <- get input_buffer_ ;;
  if empty buf then ret true
  else
    modify (set_input_buffer_ (pop_back buf)) ;;
    write STDOUT_FILENO str_erase ;;
    fd <- get master_fd_ ;;
    write fd str_backspace ;;
    ret true.

Definition handleEnter : M bool :=
  buf <- get input_buffer_ ;;
  if (buf =? str_exit)%string then ret false
  else
    (if negb (empty buf) then
       modify (fun s => set_history_ (history_ s ++ [buf]) s) ;;
       modify (fun s => set_history_index_ (history_size s) s)
     else ret tt) ;;
    modify (set_input_buffer_ EmptyString) ;;
    fd <- get master_fd_ ;;
    write fd str_newline ;;
    write STDOUT_FILENO str_newline ;;
    ret true.

Definition processInput (c : ascii) : M bool :=
  if (c =? CTRL_C)%char then killChild SIGINT
  else if (c =? CTRL_Z)%char then killChild SIGTSTP
  else if (c =? CTRL_D)%char then ret false
  else if (c =? DEL)%char then handleBackspace
  else
    handled <- handleEscapeSequence c ;;
    if handled then ret true
    else if (c =? CR)%char || (c =? LF)%char then handleEnter
    else
      modify (fun s => set_input_buffer_ (push_back (input_buffer_ s) c) s) ;;
      write STDOUT_FILENO (String c EmptyString) ;;
      fd <- get master_fd_ ;;
      write fd (String c EmptyString) ;;
      ret true.

(** The [for] loop of [readUserInput]. *)
Fixpoint processBytes (data : string) : M unit :=
  match data with
  | EmptyString => ret tt
  | String c rest =>
      ok <- processInput c ;;
      if ok then processBytes rest
      else modify (set_is_running_ false)
  end.

Definition readUserInput (r : ReadResult) : M unit :=
  if bytes_read r <=? 0 then ret tt
  else processBytes (read_data r).

Definition readShellOutput (r : ReadResult) : M unit :=
  if 0 <? bytes_read r then write STDOUT_FILENO (read_data r)
  else ret tt.

Definition resizePty (winsz : option winsize) : M unit :=
  match winsz with
  | None => emit (EvGetWinsize STDIN_FILENO false)
  | Some ws =>
      emit (EvGetWinsize STDIN_FILENO true) ;;
      fd <- get master_fd_ ;;
      emit (EvSetWinsize fd ws)
  end.

Definition handleSignal (sig : Signal) (winsz : option winsize) : M unit :=
  inst <- get instance_ ;;
  if negb inst then ret tt
  else if Signal_eqb sig SIGWINCH then resizePty winsz
  else
    pid <- get child_pid_ ;;
    if Signal_eqb sig SIGINT && (0 <? pid) then
      kill pid SIGINT ;;
      modify (set_is_running_ false)
    else ret tt.

(** The [while (running)] loop of [handleIO]. *)
Fixpoint handleIO_loop (ws : list Wakeup) : M LoopStatus :=
  running <- get is_running_ ;;
  if negb running then ret LoopExited
  else
    match ws with
    | [] => ret LoopBlocked
    | PollError true :: ws' => handleIO_loop ws'
    | PollError false :: _ => ret (LoopThrew "Poll error: ")
    | PollSignal sig winsz :: ws' =>
        handleSignal sig winsz ;;
        handleIO_loop ws'
    | PollReady stdin_in master_in :: ws' =>
        match stdin_in with
        | Some r => readUserInput r
        | None => ret tt
        end ;;
        match master_in with
        | Some r => readShellOutput r
        | None => ret tt
        end ;;
        handleIO_loop ws'
    end.

Definition handleIO (ws : list Wakeup) : M LoopStatus :=
  modify (set_is_running_ true) ;;
  handleIO_loop ws.

End Defs.
End Part000.

(** The second [TerminalEmulator] of [src/terminal_emulator.cpp] (after the
    first translation unit): no history, no escape handling, no signal
    handlers; [handleIO] does everything and checks every [write].  Its
    members [orig_term], [master_fd], [child_pid] and [buffer] are the
    fields [original_termios_], [master_fd_], [child_pid_] and
    [input_buffer_] of [State]. *)
Module Legacy.
Section Defs.

(** What [write(fd, buf, n)] returns, given the trace so far. *)
Variable sys_write : list Event -> Z -> string -> Z.

(** One return of [poll] and the reads behind it. *)
Inductive Wakeup : Type :=
| PollFailed
| PollReady (stdin_in : option ReadResult) (master_in : option ReadResult).

(** How [handleIO] stands: it returned, it threw, or it is waiting in
    [poll] for more than the wake-ups supplied. *)
Inductive Status : Type :=
| Returned
| Threw (what : string)
| Waiting.

Definition write (fd : Z) (buf : string) : M Z :=
  tr <- get trace ;;
  emit (EvWrite fd buf) ;;
  ret (sys_write tr fd buf).

(** [write(fd1, b1, n1) != n1 || write(fd2, b2, n2) != n2]: the second
    write is attempted only when the first wrote everything. *)
Definition write_pair_failed (fd1 : Z) (b1 : string) (fd2 : Z) (b2 : string)
  : M bool :=
  r1 <- write fd1 b1 ;;
  if negb (r1 =? size b1) then ret true
  else
    r2 <- write fd2 b2 ;;
    ret (negb (r2 =? size b2)).

(** The [for] loop over the bytes read from standard input: [None] when
    it runs to its end, otherwise how it leaves [handleIO]. *)
Fixpoint processBytes (data : string) : M (option Status) :=
  match data with
  | EmptyString => ret None
  | String c rest =>
      if (c =? CTRL_D)%char then ret (Some Returned)
      else if (c =? DEL)%char then
        buf <- get input_buffer_ ;;
        if negb (empty buf) then
          modify (set_input_buffer_ (pop_back buf)) ;;
          fd <- get master_fd_ ;;
          failed <- write_pair_failed STDOUT_FILENO str_erase
                      fd (String c EmptyString) ;;
          if failed then ret (Some (Threw "Write error"))
          else processBytes rest
        else processBytes rest
      else if (c =? CR)%char || (c =? LF)%char then
        buf <- get input_buffer_ ;;
        if (buf =? str_exit)%string then ret (Some Returned)
        else
          modify (set_input_buffer_ EmptyString) ;;
          fd <- get master_fd_ ;;
          failed <- write_pair_failed fd str_newline
                      STDOUT_FILENO str_newline ;;
          if failed then ret (Some (Threw "Write error"))
          else processBytes rest
      else
        modify (fun s => set_input_buffer_ (push_back (input_buffer_ s) c) s) ;;
        fd <- get master_fd_ ;;
        failed <- write_pair_failed STDOUT_FILENO (String c EmptyString)
                    fd (String c EmptyString) ;;
        if failed then ret (Some (Threw "Write error"))
        else processBytes rest
  end.

(** The [while (true)] loop of [handleIO]. *)
Fixpoint handleIO (ws : list Wakeup) : M Status :=
  match ws with
  | [] => ret Waiting
  | PollFailed :: _ => ret (Threw "Poll error")
  | PollReady stdin_in master_in :: ws' =>
      left <- match stdin_in with
              | None => ret None
              | Some r =>
                  if bytes_read r <=? 0 then ret (Some Returned)
                  else processBytes (read_data r)
              end ;;
      match left with
      | Some st => ret st
      | None =>
          match master_in with
          | None => handleIO ws'
          | Some r =>
              if bytes_read r <=? 0 then ret Returned
              else
                n <- write STDOUT_FILENO (read_data r) ;;
                if negb (n =? bytes_read r) then ret (Threw "Write error")
                else handleIO ws'
          end
      end
  end.

(** [run]: the exception of [handleIO] is caught and reported. *)
Definition run (ws : list Wakeup) : M Status :=
  st <- handleIO ws ;;
  match st with
  | Threw what => emit (EvCerr ("Error: " ++ what)) ;; ret st
  | _ => ret st
  end.

End Defs.
End Legacy.

(** Two sample behaviours of [write]: everything is written, nothing is. *)
Definition write_all_bytes : list Event -> Z -> string -> Z :=
  fun _ _ buf => size buf.

Definition write_nothing : list Event -> Z -> string -> Z :=
  fun _ _ _ => 0.

Section Emulator.

(** [kill(pid, sig)] returns what the oracle says, given the trace so far;
    [write_all tr fd buf] tells whether the [write] loop of [safeWrite]
    delivers all of [buf] or stops on an error other than [EINTR]. *)
Variable sys_kill : list Event -> Z -> Signal -> Z.
Variable write_all : list Event -> Z -> string -> bool.
Context {TC : TermiosConsts}.

Definition kill (pid : Z) (sig : Signal) : M Z :=
  tr <- get trace ;;
  let r := sys_kill tr pid sig in
  emit (EvKill pid sig r) ;;
  ret r.

(** [waitpid(pid, nullptr, 0)]; the model takes it to return. *)
Definition waitpid (pid : Z) : M unit := emit (EvWaitpid pid).

(** [safeWrite]: with [count == 0] the loop body never runs; otherwise the
    bytes are handed to [write] until all are written or an error other
    than [EINTR] ends the loop with a diagnostic. *)
Definition safeWrite (fd : Z) (buf : string) : M bool :=
  if size buf <=? 0 then ret true
  else
    tr <- get trace ;;
    emit (EvWrite fd buf) ;;
    if write_all tr fd buf then ret true
    else emit (EvCerr "Write error: ") ;; ret false.

Definition clearLine : M unit :=
  safeWrite STDOUT_FILENO str_clear_line ;; ret tt.

Definition displayHistoryEntry : M unit :=
  clearLine ;;
  safeWrite STDOUT_FILENO str_prompt ;;
  modify (fun s =>
    set_input_buffer_
      (if history_index_ s <? history_size s
       then nth (Z.to_nat (history_index_ s)) (history_ s) EmptyString
       else EmptyString) s) ;;
  buf <- get input_buffer_ ;;
  safeWrite STDOUT_FILENO buf ;;
  ret tt.

Definition handleArrowKey (c : ascii) : M unit :=
  idx <- get history_index_ ;;
  if (c =? "A")%char && (0 <? idx) then
    modify (set_history_index_ (size_t_wrap (idx - 1))) ;;
    displayHistoryEntry
  else if (c =? "B")%char then
    n <- get history_size ;;
    if size_t_wrap (idx + 1) <? n then
      modify (set_history_index_ (size_t_wrap (idx + 1))) ;;
      displayHistoryEntry
    else
      modify (set_history_index_ n) ;;
      modify (set_input_buffer_ EmptyString) ;;
      displayHistoryEntry
  else ret tt.

Definition handleEscapeSequence (c : ascii) : M bool :=
  if (c =? ESC)%char then
    modify (set_escape_sequence str_ESC) ;;
    ret true
  else
    seq <- get escape_sequence ;;
    if negb (empty seq) then
      modify (set_escape_sequence (push_back seq c)) ;;
      seq <- get escape_sequence ;;
      if (size seq =? 2) && negb (c =? LBRACKET)%char then
        fd <- get master_fd_ ;;
        safeWrite fd seq ;;
        modify (set_escape_sequence EmptyString) ;;
        ret true
      else if size seq =? 3 then
        handleArrowKey (at_index seq 2) ;;
        fd <- get master_fd_ ;;
        seq <- get escape_sequence ;;
        safeWrite fd seq ;;
        modify (set_escape_sequence EmptyString) ;;
        ret true
      else ret false
    else ret false.

Definition handleBackspace : M bool :=
  buf <- get input_buffer_ ;;
  if empty buf then ret true
  else
    modify (set_input_buffer_ (pop_back buf)) ;;
    safeWrite STDOUT_FILENO str_erase ;;
    fd <- get master_fd_ ;;
    safeWrite fd str_backspace ;;
    ret true.

Definition handleEnter : M bool :=
  buf <- get input_buffer_ ;;
  if (buf =? str_exit)%string then
    modify (set_is_running_ false) ;;
    ret false
  else
    (if negb (empty buf) then
       modify (fun s => set_history_ (history_ s ++ [buf]) s) ;;
       modify (fun s => set_history_index_ (history_size s) s)
     else ret tt) ;;
    modify (set_input_buffer_ EmptyString) ;;
    fd <- get master_fd_ ;;
    safeWrite fd str_newline ;;
    safeWrite STDOUT_FILENO str_newline ;;
    ret true.

Definition sendSignalToChild (signal : Signal) : M bool :=
  pid <- get child_pid_ ;;
  if pid <=? 0 then ret true
  else
    r <- kill pid signal ;;
    if r =? -1 then
      emit (EvCerr "Failed to send signal to child: ") ;;
      ret false
    else
      (if Signal_eqb signal SIGINT || Signal_eqb signal SIGTERM
          || Signal_eqb signal SIGKILL
       then
         waitpid pid ;;
         modify (set_child_pid_ (-1)) ;;
         modify (set_is_running_ false)
       else ret tt) ;;
      ret true.

Definition processInput (c : ascii) : M bool :=
  if (c =? CTRL_C)%char then sendSignalToChild SIGINT
  else if (c =? CTRL_Z)%char then sendSignalToChild SIGTSTP
  else if (c =? CTRL_D)%char then
    fd <- get master_fd_ ;;
    safeWrite fd (String c EmptyString) ;;
    modify (set_is_running_ false) ;;
    ret false
  else if (c =? DEL)%char then handleBackspace
  else
    handled <- handleEscapeSequence c ;;
    if handled then ret true
    else if (c =? CR)%char || (c =? LF)%char then handleEnter
    else
      modify (fun s => set_input_buffer_ (push_back (input_buffer_ s) c) s) ;;
      safeWrite STDOUT_FILENO (String c EmptyString) ;;
      fd <- get master_fd_ ;;
      safeWrite fd (String c EmptyString) ;;
      ret true.

(** The [for] loop of [readUserInput] over the bytes read. *)
Fixpoint processBytes (data : string) : M unit :=
  match data with
  | EmptyString => ret tt
  | String c rest =>
      ok <- processInput c ;;
      if ok then processBytes rest
      else modify (set_is_running_ false)
  end.

Definition readUserInput (r : ReadResult) : M unit :=
  if bytes_read r <=? 0 then ret tt
  else processBytes (read_data r).

Definition readShellOutput (r : ReadResult) : M unit :=
  if 0 <? bytes_read r then
    safeWrite STDOUT_FILENO (read_data r) ;; ret tt
  else ret tt.

(** [resizePty], with the answer of [TIOCGWINSZ] on standard input. *)
Definition resizePty (winsz : option winsize) : M unit :=
  match winsz with
  | None => emit (EvGetWinsize STDIN_FILENO false)
  | Some ws =>
      emit (EvGetWinsize STDIN_FILENO true) ;;
      fd <- get master_fd_ ;;
      emit (EvSetWinsize fd ws)
  end.

(** [handleSignal], the handler of [SIGWINCH], [SIGINT] and [SIGTERM]. *)
Definition handleSignal (sig : Signal) (winsz : option winsize) : M unit :=
  inst <- get instance_ ;;
  if negb inst then ret tt
  else if Signal_eqb sig SIGWINCH then resizePty winsz
  else if Signal_eqb sig SIGINT || Signal_eqb sig SIGTERM then
    pid <- get child_pid_ ;;
    if 0 <? pid then kill pid sig ;; ret tt
    else ret tt
  else ret tt.

(** The [while (is_running_)] loop of [processIO], run on the wake-ups
    supplied; [LoopBlocked] when they are used up and the loop is still
    waiting. *)
Fixpoint processIO_loop (ws : list Wakeup) : M LoopStatus :=
  running <- get is_running_ ;;
  if negb running then ret LoopExited
  else
    match ws with
    | [] => ret LoopBlocked
    | PollError true :: ws' => processIO_loop ws'
    | PollError false :: _ => ret (LoopThrew "Poll error: ")
    | PollSignal sig winsz :: ws' =>
        handleSignal sig winsz ;;
        processIO_loop ws'
    | PollReady stdin_in master_in :: ws' =>
        match stdin_in with
        | Some r => readUserInput r
        | None => ret tt
        end ;;
        match master_in with
        | Some r => readShellOutput r
        | None => ret tt
        end ;;
        processIO_loop ws'
    end.

Definition processIO (ws : list Wakeup) : M LoopStatus :=
  modify (set_is_running_ true) ;;
  processIO_loop ws.

(** [run]: a [std::runtime_error] of [processIO] is caught and reported. *)
Definition run (ws : list Wakeup) : M LoopStatus :=
  st <- processIO ws ;;
  match st with
  | LoopThrew what => emit (EvCerr ("Fatal error: " ++ what)) ;; ret st
  | _ => ret st
  end.

(** ** Start-up and shutdown *)

(** The settings [configureTerminal] derives from the original ones. *)
Definition raw_termios (t : termios) : termios :=
  let lflag := tcflag_wrap (Z.land (c_lflag t) (Z.lnot (Z.lor ECHO ICANON))) in
  let iflag := tcflag_wrap (Z.land (c_iflag t) (Z.lnot (Z.lor IXON ICRNL))) in
  let lflag := tcflag_wrap (Z.lor lflag ISIG) in
  let cc := fun i => if i =? VMIN then 1 else c_cc t i in
  let cc := fun i => if i =? VTIME then 0 else cc i in
  {| c_iflag := iflag; c_oflag := c_oflag t; c_cflag := c_cflag t;
     c_lflag := lflag; c_cc := cc |}.

Definition configureTerminal (env : Startup) : M Completion :=
  match tcgetattr_result env with
  | None =>
      emit (EvTcgetattr STDIN_FILENO false) ;;
      ret (Throw "Failed to get terminal attributes: ")
  | Some t =>
      emit (EvTcgetattr STDIN_FILENO true) ;;
      modify (set_original_termios_ t) ;;
      orig <- get original_termios_ ;;
      emit (EvTcsetattr STDIN_FILENO (raw_termios orig) (tcsetattr_raw_ok env)) ;;
      if tcsetattr_raw_ok env then ret Normal
      else ret (Throw "Failed to set raw mode: ")
  end.

Definition restoreTerminal (env : Startup) : M unit :=
  orig <- get original_termios_ ;;
  emit (EvTcsetattr STDIN_FILENO orig (tcsetattr_restore_ok env)) ;;
  if tcsetattr_restore_ok env then ret tt
  else emit (EvCerr "Warning: Failed to restore terminal: ").

Definition setupSignalHandlers : M unit :=
  modify (set_instance_ true) ;;
  emit (EvSigaction SIGWINCH) ;;
  emit (EvSigaction SIGINT) ;;
  emit (EvSigaction SIGTERM).

Definition default_winsize : winsize :=
  {| ws_row := 24; ws_col := 80; ws_xpixel := 0; ws_ypixel := 0 |}.

Definition initializePty (env : Startup) : M Completion :=
  let fk := forkpty_result env in
  emit (EvGetWinsize STDIN_FILENO
          (match winsize_result env with Some _ => true | None => false end)) ;;
  let ws := match winsize_result env with
            | Some w => w
            | None => default_winsize
            end in
  emit (EvForkpty ws (fork_ret fk)) ;;
  (if 0 <? fork_ret fk then modify (set_master_fd_ (fork_master fk))
   else ret tt) ;;
  modify (set_child_pid_ (fork_ret fk)) ;;
  pid <- get child_pid_ ;;
  if pid =? -1 then ret (Throw "PTY fork failed: ")
  else if pid =? 0 then
    let term := slave_termios fk in
    emit (EvTcgetattr STDIN_FILENO true) ;;
    emit (EvTcsetattr STDIN_FILENO
            {| c_iflag := c_iflag term; c_oflag := c_oflag term;
               c_cflag := c_cflag term;
               c_lflag := tcflag_wrap (Z.land (c_lflag term) (Z.lnot ECHO));
               c_cc := c_cc term |} true) ;;
    emit (EvExeclp "/bin/bash" (exec_ok fk)) ;;
    if exec_ok fk then ret (ProcessGone None)
    else
      emit (EvCerr "Failed to execute bash: ") ;;
      ret (ProcessGone (Some 1))
  else ret Normal.

Definition cleanup (env : Startup) : M unit :=
  fd <- get master_fd_ ;;
  (if negb (fd =? -1) then
     emit (EvClose fd) ;;
     modify (set_master_fd_ (-1))
   else ret tt) ;;
  pid <- get child_pid_ ;;
  (if 0 <? pid then
     kill pid SIGTERM ;;
     waitpid pid ;;
     modify (set_child_pid_ (-1))
   else ret tt) ;;
  restoreTerminal env ;;
  modify (set_instance_ false).

(** The constructor: the first member function that throws ends it. *)
Definition constructor (env : Startup) : M Completion :=
  c <- configureTerminal env ;;
  match c with
  | Normal =>
      setupSignalHandlers ;;
      initializePty env
  | _ => ret c
  end.

(** [main].  The destructor, hence [cleanup], runs when the block of the
    [try] is left with [terminal] fully constructed; an exception leaving
    the constructor destroys no [TerminalEmulator], so [cleanup] does not
    run for it. *)
Definition main (env : Startup) (ws : list Wakeup) : M Outcome :=
  c <- constructor env ;;
  match c with
  | Throw what =>
      emit (EvCerr ("Startup error: " ++ what)) ;;
      ret (Returned 1)
  | ProcessGone None => ret Replaced
  | ProcessGone (Some code) => ret (Exited code)
  | Normal =>
      st <- run ws ;;
      match st with
      | LoopBlocked => ret Blocked
      | _ =>
          cleanup env ;;
          ret (Returned 0)
      end
  end.

(** ** What the properties are stated with *)

(** The events one call of [safeWrite] adds to the trace [tr]. *)
Definition safeWrite_events (tr : list Event) (fd : Z) (buf : string)
  : list Event :=
  if size buf <=? 0 then []
  else EvWrite fd buf
         :: (if write_all tr fd buf then [] else [EvCerr "Write error: "]).

Definition safeWrite_result (tr : list Event) (fd : Z) (buf : string) : bool :=
  if size buf <=? 0 then true else write_all tr fd buf.

(** The recall cursor is an index of the history or its length. *)
Definition cursor_inv (s : State) : Prop :=
  0 <= history_index_ s <= history_size s.

(** The escape accumulator is empty, [ESC], or [ESC '[']. *)
Definition esc_inv (s : State) : Prop :=
  escape_sequence s = EmptyString \/
  escape_sequence s = str_ESC \/
  escape_sequence s = String ESC (String LBRACKET EmptyString).

(** Two states with the same line buffer, history, recall cursor and
    escape accumulator; and a property of states that looks at nothing
    else. *)
Definition same_session_data (s s' : State) : Prop :=
  input_buffer_ s' = input_buffer_ s /\
  history_ s' = history_ s /\
  history_index_ s' = history_index_ s /\
  escape_sequence s' = escape_sequence s.

Definition session_data_only (P : State -> Prop) : Prop :=
  forall s s', same_session_data s s' -> P s -> P s'.

(** From [s] to [s'] no terminal settings were applied and the saved
    original settings were kept. *)
Definition settings_untouched (s s' : State) : Prop :=
  settings_applied (trace s') = settings_applied (trace s) /\
  original_termios_ s' = original_termios_ s.

(** The object as its default member initialisers leave it, before the
    constructor's body; [original_termios_] has no initialiser. *)
Definition initial_state (t : termios) : State :=
  {| original_termios_ := t; master_fd_ := -1; child_pid_ := -1;
     is_running_ := false; input_buffer_ := EmptyString; history_ := [];
     history_index_ := 0; escape_sequence := EmptyString;
     instance_ := false; trace := [] |}.

(** ** Concrete sessions *)

Definition kill_succeeds : list Event -> Z -> Signal -> Z := fun _ _ _ => 0.
Definition kill_fails : list Event -> Z -> Signal -> Z := fun _ _ _ => -1.
Definition write_succeeds : list Event -> Z -> string -> bool :=
  fun _ _ _ => true.

Definition sample_termios : termios :=
  {| c_iflag := 1280; c_oflag := 5; c_cflag := 191; c_lflag := 35387;
     c_cc := fun _ => 0 |}.

(** A running session: master descriptor 3, child 100, an empty trace. *)
Definition session (buf : string) (hist : list string) (idx : Z)
    (esc : string) : State :=
  {| original_termios_ := sample_termios; master_fd_ := 3;
     child_pid_ := 100; is_running_ := true; input_buffer_ := buf;
     history_ := hist; history_index_ := idx; escape_sequence := esc;
     instance_ := true; trace := [] |}.

(** What [displayHistoryEntry] writes when it leaves [buf] in the line
    buffer: the line eraser, the prompt and, unless it is empty, [buf]; all
    of it to standard output. *)
Definition recall_echo (buf : string) : list (Z * string) :=
  [(STDOUT_FILENO, str_clear_line); (STDOUT_FILENO, str_prompt)]
  ++ (if size buf <=? 0 then [] else [(STDOUT_FILENO, buf)]).

(** Whether [handleArrowKey c] redisplays the line in state [s]. *)
Definition redisplays (c : ascii) (s : State) : bool :=
  ((c =? "A")%char && (0 <? history_index_ s)) || (c =? "B")%char.

(** ** Further notions the properties are stated with *)

(** A byte that [processInput] treats as ordinary input when the escape
    accumulator is empty: none of the control bytes, not ESC, not CR or LF. *)
Definition ordinary (c : ascii) : bool :=
  negb ((c =? CTRL_C)%char || (c =? CTRL_Z)%char || (c =? CTRL_D)%char
        || (c =? DEL)%char || (c =? ESC)%char
        || (c =? CR)%char || (c =? LF)%char).

Fixpoint all_ordinary (data : string) : bool :=
  match data with
  | EmptyString => true
  | String c rest => ordinary c && all_ordinary rest
  end.

(** The echo and the forwarding of each byte of [data], in order. *)
Fixpoint echo_forward (master : Z) (data : string) : list (Z * string) :=
  match data with
  | EmptyString => []
  | String c rest =>
      (STDOUT_FILENO, String c EmptyString)
        :: (master, String c EmptyString) :: echo_forward master rest
  end.

(** The pids a trace waited for, and the descriptors it closed, in order. *)
Fixpoint waits (tr : list Event) : list Z :=
  match tr with
  | [] => []
  | EvWaitpid pid :: rest => pid :: waits rest
  | _ :: rest => waits rest
  end.

Fixpoint closes (tr : list Event) : list Z :=
  match tr with
  | [] => []
  | EvClose fd :: rest => fd :: closes rest
  | _ :: rest => closes rest
  end.

(** An entry that [handleEnter] can have appended to the history. *)
Definition submitted_line (e : string) : Prop :=
  e <> EmptyString /\ e <> str_exit.

(** A return of [poll] on an interrupted wait. *)
Definition is_eintr (w : Wakeup) : bool :=
  match w with
  | PollError true => true
  | _ => false
  end.

(** A wake-up that brings no byte: an interrupted wait, or descriptors
    whose reads return zero or a negative value. *)
Definition no_bytes (r : option ReadResult) : bool :=
  match r with
  | Some x => bytes_read x <=? 0
  | None => true
  end.

Definition idle (w : Wakeup) : bool :=
  match w with
  | PollError eintr => eintr
  | PollSignal _ _ => false
  | PollReady stdin_in master_in => no_bytes stdin_in && no_bytes master_in
  end.

(** What a running session may ask of the operating system, given its
    master descriptor [m] and the child [p] it tracks: writes to standard
    output or to [m], diagnostics, signals to and waits for [p] when [p]
    is positive, window-size queries on standard input and updates on [m];
    nothing else. *)
Definition session_event (m p : Z) (e : Event) : Prop :=
  match e with
  | EvWrite fd _ => fd = STDOUT_FILENO \/ fd = m
  | EvCerr _ => True
  | EvKill pid _ _ => pid = p /\ 0 < p
  | EvWaitpid pid => pid = p /\ 0 < p
  | EvGetWinsize fd _ => fd = STDIN_FILENO
  | EvSetWinsize fd _ => fd = m
  | _ => False
  end.

(** From [s] to [s'] the session ran: the trace grew by session events;
    the saved settings, the master descriptor and the handler registration
    are as before; the child is tracked as before and was not waited for,
    or it was tracked, has been waited for once, and is tracked no more. *)
Definition session_step (s s' : State) : Prop :=
  original_termios_ s' = original_termios_ s /\
  master_fd_ s' = master_fd_ s /\
  instance_ s' = instance_ s /\
  exists es : list Event,
    trace s' = (trace s ++ es)%list /\
    Forall (session_event (master_fd_ s) (child_pid_ s)) es /\
    ((child_pid_ s' = child_pid_ s /\ waits es = []) \/
     (0 < child_pid_ s /\ child_pid_ s' = -1 /\ waits es = [child_pid_ s])).

(** ** The write loop of [safeWrite] *)

(** What one [write(fd, ptr, remaining)] returns: [-1] with [errno]
    [EINTR] or another [errno], or the number of bytes it wrote. *)
Inductive WriteResult : Type :=
| WriteFailed (eintr : bool)
| WriteDone (n : nat).

(** The [while (remaining > 0)] loop of [safeWrite] on the buffer [buf],
    with [ptr] as an offset into it, run on the results of the successive
    calls of [write]: what [safeWrite] returns ([None] when the results are
    used up and the loop is still running), the pieces of [buf] the calls
    wrote, in order, and whether the diagnostic was printed. *)
Fixpoint safeWrite_loop (results : list WriteResult) (buf : string)
    (ptr : nat) (remaining : Z) : option bool * list string * bool :=
  if 0 <? remaining then
    match results with
    | [] => (None, [], false)
    | WriteFailed true :: rest => safeWrite_loop rest buf ptr remaining
    | WriteFailed false :: _ => (Some false, [], true)
    | WriteDone n :: rest =>
        let '(r, chunks, diag) :=
          safeWrite_loop rest buf (ptr + n)
            (size_t_wrap (remaining - Z.of_nat n)) in
        (r, substring ptr n buf :: chunks, diag)
    end
  else (Some true, [], false).

(** [safeWrite(fd, buf, count)] with [count] the size of [buf]. *)
Definition safeWrite_calls (results : list WriteResult) (buf : string)
  : option bool * list string * bool :=
  safeWrite_loop results buf 0 (size buf).

(** The pieces written, put together. *)
Fixpoint join (chunks : list string) : string :=
  match chunks with
  | [] => EmptyString
  | x :: rest => (x ++ join rest)%string
  end.

(** [write] never reports more bytes than it was asked to write. *)
Fixpoint within_request (results : list WriteResult) (remaining : Z) : Prop :=
  match results with
  | [] => True
  | WriteFailed _ :: rest => within_request rest remaining
  | WriteDone n :: rest =>
      Z.of_nat n <= remaining /\
      within_request rest (remaining - Z.of_nat n)
  end.

(** Start-up results of a concrete run: the terminal can be configured and
    [forkpty] returns [ret] with master descriptor 3. *)
Definition sample_startup (ret : Z) : Startup :=
  {| tcgetattr_result := Some sample_termios;
     tcsetattr_raw_ok := true;
     winsize_result := None;
     forkpty_result :=
       {| fork_ret := ret; fork_master := 3;
          slave_termios := sample_termios; exec_ok := false |};
     tcsetattr_restore_ok := true |}.

(** ** Properties *)

Lemma writes_app (a b : list Event) : writes (a ++ b) = (writes a ++ writes b)%list.
Proof.
  induction a as [|e a IH]; [reflexivity|].
  destruct e; cbn; rewrite ?IH; reflexivity.
Qed.

Lemma kills_app (a b : list Event) : kills (a ++ b) = (kills a ++ kills b)%list.
Proof.
  induction a as [|e a IH]; [reflexivity|].
  destruct e; cbn; rewrite ?IH; reflexivity.
Qed.

Lemma writes_safeWrite_events tr fd buf :
  writes (safeWrite_events tr fd buf)
  = if size buf <=? 0 then [] else [(fd, buf)].
Proof.
  unfold safeWrite_events.
  destruct (size buf <=? 0); [reflexivity|].
  destruct (write_all tr fd buf); reflexivity.
Qed.

Lemma kills_safeWrite_events tr fd buf : kills (safeWrite_events tr fd buf) = [].
Proof.
  unfold safeWrite_events.
  destruct (size buf <=? 0); [reflexivity|].
  destruct (write_all tr fd buf); reflexivity.
Qed.

Lemma set_trace_same (s : State) : set_trace (trace s) s = s.
Proof. destruct s; reflexivity. Qed.

(** [safeWrite] changes the trace only, by [safeWrite_events]. *)
Lemma safeWrite_run fd buf s :
  safeWrite fd buf s
  = (safeWrite_result (trace s) fd buf,
     set_trace (trace s ++ safeWrite_events (trace s) fd buf) s).
Proof.
  unfold safeWrite, safeWrite_result, safeWrite_events.
  destruct (size buf <=? 0).
  - unfold ret. rewrite app_nil_r, set_trace_same. reflexivity.
  - unfold bind, get, emit, modify, ret. cbn.
    destruct (write_all (trace s) fd buf); cbn.
    + reflexivity.
    + rewrite <- app_assoc. reflexivity.
Qed.

Lemma size_String c s : (size (String c s) <=? 0) = false.
Proof. unfold size. cbn [String.length]. apply Z.leb_gt. lia. Qed.

Lemma size_empty s : (size s <=? 0) = empty s.
Proof.
  destruct s; [reflexivity|]. apply size_String.
Qed.

Ltac run_monad :=
  repeat first
    [ progress (unfold bind, get, ret, modify, emit, history_size)
    | progress cbn [fst snd
        original_termios_ master_fd_ child_pid_ is_running_
        input_buffer_ history_ history_index_ escape_sequence
        instance_ trace
        set_original_termios_ set_master_fd_ set_child_pid_
        set_is_running_ set_input_buffer_ set_history_
        set_history_index_ set_escape_sequence set_instance_
        set_trace negb andb orb empty]
    | rewrite safeWrite_run ].

(** Comparisons of two character constants are evaluated. *)
Ltac eval_chars :=
  repeat match goal with
         | |- context [Ascii.eqb ?a ?b] =>
             let v := eval vm_compute in (Ascii.eqb a b) in
             lazymatch v with
             | true => change (Ascii.eqb a b) with true
             | false => change (Ascii.eqb a b) with false
             end
         end.

(** A carriage return or newline that finds the accumulator empty is
    handled by [handleEnter]. *)
Lemma processInput_enter s c :
  c = CR \/ c = LF ->
  escape_sequence s = EmptyString ->
  processInput c s = handleEnter s.
Proof.
  intros [-> | ->] Hesc;
    unfold processInput, handleEscapeSequence; eval_chars;
    run_monad; rewrite Hesc; run_monad; reflexivity.
Qed.

(** [size buf <=? 0] is evaluated when [buf] is a literal. *)
Ltac eval_sizes :=
  repeat match goal with
         | |- context [size ?x <=? 0] =>
             let x' := eval cbv delta [str_clear_line str_prompt str_newline
                                       str_erase str_backspace str_ESC
                                       str_exit] in x in
             lazymatch x' with
             | String _ _ => change (size x <=? 0) with false
             | EmptyString => change (size x <=? 0) with true
             end
         end.

Ltac trace_simpl :=
  repeat first
    [ rewrite writes_app | rewrite kills_app
    | rewrite writes_safeWrite_events | rewrite kills_safeWrite_events
    | rewrite size_String | rewrite app_nil_r
    | progress eval_sizes
    | rewrite <- app_assoc
    | progress cbn [writes kills app] ].

(** C7 (as amended): a submission is a carriage return or newline byte
    that arrives while the escape accumulator is empty, which is when
    [processInput] hands it to [handleEnter].  A submission whose line [L]
    is neither empty nor the exit command appends [L] as the last entry of
    the history, sets the recall cursor to the new length of the history,
    clears the line buffer, forwards a newline to the child and echoes a
    newline; submitting an empty line leaves the history as it was. *)
Theorem C7_submission_appends_line :
  forall s : State,
    input_buffer_ s <> str_exit ->
    let L := input_buffer_ s in
    let s' := snd (handleEnter s) in
    (forall c, c = CR \/ c = LF -> escape_sequence s = EmptyString ->
               processInput c s = handleEnter s) /\
    fst (handleEnter s) = true /\
    (L <> EmptyString ->
       history_ s' = (history_ s ++ [L])%list /\
       last (history_ s') EmptyString = L /\
       history_index_ s' = history_size s' /\
       input_buffer_ s' = EmptyString /\
       writes (trace s')
       = (writes (trace s)
          ++ [(master_fd_ s, str_newline); (STDOUT_FILENO, str_newline)])%list /\
       kills (trace s') = kills (trace s) /\
       is_running_ s' = is_running_ s) /\
    (L = EmptyString ->
       history_ s' = history_ s /\ history_index_ s' = history_index_ s).
Proof.
  intros s Hne L s'. subst L s'.
  split; [intros c Hc Hesc; apply processInput_enter; assumption|].
  apply String.eqb_neq in Hne.
  unfold handleEnter. run_monad. rewrite Hne.
  destruct (input_buffer_ s) as [|a buf] eqn:Hbuf; run_monad.
  - split; [reflexivity|]. split; [intros H; congruence|].
    intros _. split; reflexivity.
  - split; [reflexivity|]. split; [|intros H; discriminate].
    intros _. rewrite last_last. trace_simpl.
    repeat split; reflexivity.
Qed.

(** C8 (as amended): when the line buffer holds the exit command and the
    escape accumulator is empty, a carriage return or newline byte ends the
    session: [processInput] reports false, the running flag is cleared,
    nothing is written or signalled (in particular no newline reaches the
    child) and the history is as it was.  [handleEnter] itself does so in
    every state whose line buffer is the exit command. *)
Theorem C8_exit_command_ends_session :
  forall (s : State) (c : ascii),
    input_buffer_ s = str_exit ->
    handleEnter s = (false, set_is_running_ false s) /\
    (c = CR \/ c = LF ->
     escape_sequence s = EmptyString ->
     let r := processInput c s in
     fst r = false /\
     is_running_ (snd r) = false /\
     trace (snd r) = trace s /\
     history_ (snd r) = history_ s /\
     history_index_ (snd r) = history_index_ s).
Proof.
  intros s c Hbuf.
  assert (Henter : handleEnter s = (false, set_is_running_ false s)).
  { unfold handleEnter. run_monad. rewrite Hbuf. reflexivity. }
  split; [exact Henter|].
  intros Hc Hesc r. subst r.
  rewrite (processInput_enter s c Hc Hesc), Henter.
  repeat split; reflexivity.
Qed.

(** What Ctrl-C does when a child is tracked, in full. *)
Lemma processInput_ctrl_c s :
  0 < child_pid_ s ->
  processInput CTRL_C s
  = let k := sys_kill (trace s) (child_pid_ s) SIGINT in
    if k =? -1 then
      (false,
       set_trace (trace s ++ [EvKill (child_pid_ s) SIGINT k;
                              EvCerr "Failed to send signal to child: "]) s)
    else
      (true,
       set_is_running_ false
         (set_child_pid_ (-1)
            (set_trace (trace s ++ [EvKill (child_pid_ s) SIGINT k;
                                    EvWaitpid (child_pid_ s)]) s))).
Proof.
  intros Hpid.
  unfold processInput, sendSignalToChild, kill, waitpid. eval_chars.
  run_monad.
  replace (child_pid_ s <=? 0) with false by (symmetry; apply Z.leb_gt; lia).
  run_monad.
  destruct (sys_kill (trace s) (child_pid_ s) SIGINT =? -1);
    cbn [Signal_eqb orb]; run_monad; rewrite <- app_assoc; reflexivity.
Qed.

(** C1 (as amended): with a tracked child, the Ctrl-C byte sends [SIGINT]
    to the child and writes nothing; line buffer, history, recall cursor
    and escape accumulator stay as they were.  The session does not go on:
    when [kill] succeeds the child is waited for and no longer tracked and
    the running flag is cleared; when [kill] fails [processInput] reports
    false, on which [readUserInput] clears the running flag. *)
Theorem C1_ctrl_c_signals_child_and_ends_session :
  forall s : State,
    0 < child_pid_ s ->
    let r := processInput CTRL_C s in
    let s' := snd r in
    let k := sys_kill (trace s) (child_pid_ s) SIGINT in
    kills (trace s') = (kills (trace s) ++ [(child_pid_ s, SIGINT)])%list /\
    writes (trace s') = writes (trace s) /\
    input_buffer_ s' = input_buffer_ s /\
    history_ s' = history_ s /\
    history_index_ s' = history_index_ s /\
    escape_sequence s' = escape_sequence s /\
    (k = -1 ->
       fst r = false /\ child_pid_ s' = child_pid_ s /\
       is_running_ s' = is_running_ s) /\
    (k <> -1 ->
       fst r = true /\ child_pid_ s' = -1 /\ is_running_ s' = false /\
       In (EvWaitpid (child_pid_ s)) (trace s')) /\
    is_running_
      (snd (readUserInput (ReadBytes (String CTRL_C EmptyString)) s)) = false.
Proof.
  intros s Hpid r s' k. subst r s' k.
  unfold readUserInput, processBytes.
  cbn [bytes_read read_data]. rewrite size_String. run_monad.
  rewrite (processInput_ctrl_c s Hpid). cbv zeta.
  destruct (Z.eqb_spec (sys_kill (trace s) (child_pid_ s) SIGINT) (-1))
    as [Hk | Hk]; run_monad; trace_simpl.
  - repeat split; intros; try reflexivity; contradiction.
  - repeat split; intros; try reflexivity; try contradiction.
    apply in_or_app. right. right. left. reflexivity.
Qed.

Ltac simp_strings :=
  cbn [push_back append size String.length Z.of_nat
       Pos.of_succ_nat Pos.succ Z.eqb Pos.eqb].

Ltac char_neq :=
  repeat match goal with
         | H : ?c <> ?d |- context [Ascii.eqb ?c ?d] =>
             rewrite (proj2 (Ascii.eqb_neq c d) H)
         end.

Ltac split_ifs :=
  repeat match goal with
         | |- context [if ?b then _ else _] => destruct b eqn:?
         end.

(** C3 (as amended): when the accumulator holds the single byte ESC and the
    next byte is neither '[' nor ESC nor one of the control bytes 0x03,
    0x1A, 0x04, 0x7F, the accumulator is cleared and the two bytes, ESC and
    that byte, are forwarded to the child in one write; nothing is echoed,
    and line buffer, history, recall cursor and running flag are as they
    were. *)
Theorem C3_escape_then_other_byte_forwarded :
  forall (s : State) (c : ascii),
    escape_sequence s = str_ESC ->
    c <> LBRACKET -> c <> ESC ->
    c <> CTRL_C -> c <> CTRL_Z -> c <> CTRL_D -> c <> DEL ->
    let r := processInput c s in
    fst r = true /\
    escape_sequence (snd r) = EmptyString /\
    writes (trace (snd r))
    = (writes (trace s)
       ++ [(master_fd_ s, String ESC (String c EmptyString))])%list /\
    kills (trace (snd r)) = kills (trace s) /\
    input_buffer_ (snd r) = input_buffer_ s /\
    history_ (snd r) = history_ s /\
    history_index_ (snd r) = history_index_ s /\
    is_running_ (snd r) = is_running_ s.
Proof.
  intros s c Hesc Hlb Hescc H3 H26 H4 H127 r. subst r.
  unfold processInput, handleEscapeSequence. char_neq.
  run_monad. rewrite Hesc. unfold str_ESC.
  repeat (run_monad; simp_strings).
  trace_simpl.
  repeat split; reflexivity.
Qed.

(** Two nests of setters over the same state are compared field by
    field. *)
Ltac state_refl s :=
  destruct s;
  cbn [original_termios_ master_fd_ child_pid_ is_running_
       input_buffer_ history_ history_index_ escape_sequence
       instance_ trace
       set_original_termios_ set_master_fd_ set_child_pid_
       set_is_running_ set_input_buffer_ set_history_
       set_history_index_ set_escape_sequence set_instance_ set_trace];
  reflexivity.

(** [displayHistoryEntry]: the line buffer becomes the entry under the
    cursor (empty when the cursor is past the end); only standard output is
    written. *)
Lemma displayHistoryEntry_effect s :
  let s' := snd (displayHistoryEntry s) in
  input_buffer_ s'
  = (if history_index_ s <? history_size s
     then nth (Z.to_nat (history_index_ s)) (history_ s) EmptyString
     else EmptyString) /\
  history_ s' = history_ s /\
  history_index_ s' = history_index_ s /\
  escape_sequence s' = escape_sequence s /\
  master_fd_ s' = master_fd_ s /\
  child_pid_ s' = child_pid_ s /\
  is_running_ s' = is_running_ s /\
  writes (trace s') = (writes (trace s) ++ recall_echo (input_buffer_ s'))%list /\
  kills (trace s') = kills (trace s).
Proof.
  unfold displayHistoryEntry, clearLine, recall_echo. run_monad. trace_simpl.
  repeat split; reflexivity.
Qed.

(** [handleArrowKey] reads and changes only the recall cursor and the line
    buffer; the accumulator rides along. *)
Lemma handleArrowKey_escape_frame c e s :
  handleArrowKey c (set_escape_sequence e s)
  = (tt, set_escape_sequence e (snd (handleArrowKey c s))).
Proof.
  unfold handleArrowKey, displayHistoryEntry, clearLine. run_monad.
  destruct ((c =? "A")%char && (0 <? history_index_ s)); run_monad;
    [f_equal; state_refl s|].
  destruct (c =? "B")%char; run_monad; [|f_equal; state_refl s].
  destruct (size_t_wrap (history_index_ s + 1)
            <? Z.of_nat (Datatypes.length (history_ s)));
    run_monad; f_equal; state_refl s.
Qed.

(** [handleArrowKey]: writes go to standard output only, no signal is
    sent, and nothing but cursor and line buffer changes. *)
Lemma handleArrowKey_effect c s :
  let s' := snd (handleArrowKey c s) in
  writes (trace s')
  = (writes (trace s)
     ++ (if redisplays c s then recall_echo (input_buffer_ s') else []))%list /\
  kills (trace s') = kills (trace s) /\
  history_ s' = history_ s /\
  escape_sequence s' = escape_sequence s /\
  master_fd_ s' = master_fd_ s /\
  child_pid_ s' = child_pid_ s /\
  is_running_ s' = is_running_ s.
Proof.
  unfold handleArrowKey, displayHistoryEntry, clearLine, redisplays,
    recall_echo.
  run_monad.
  destruct ((c =? "A")%char && (0 <? history_index_ s)); run_monad.
  - trace_simpl. repeat split; reflexivity.
  - destruct (c =? "B")%char; run_monad.
    + destruct (size_t_wrap (history_index_ s + 1)
                <? Z.of_nat (Datatypes.length (history_ s)));
        run_monad; trace_simpl; repeat split; reflexivity.
    + trace_simpl. repeat split; reflexivity.
Qed.

Lemma get_push_back (s : string) (c : ascii) :
  String.get (String.length s) (push_back s c) = Some c.
Proof.
  induction s as [|a s IH]; [reflexivity|]. exact IH.
Qed.

(** The third byte of an escape sequence: [handleEscapeSequence] runs
    [handleArrowKey] on it, forwards the three bytes and clears the
    accumulator. *)
Lemma handleEscapeSequence_third_byte s c :
  String.length (escape_sequence s) = 2%nat ->
  c <> ESC ->
  let acc := push_back (escape_sequence s) c in
  let s1 := snd (handleArrowKey c s) in
  handleEscapeSequence c s
  = (true,
     set_escape_sequence EmptyString
       (set_trace (trace s1 ++ safeWrite_events (trace s1) (master_fd_ s) acc)
          s1)).
Proof.
  intros Hlen Hc acc s1. subst acc s1.
  unfold handleEscapeSequence. char_neq. run_monad.
  destruct (escape_sequence s) as [|a [|b [|x rest]]] eqn:Hseq;
    try discriminate Hlen.
  run_monad. simp_strings. rewrite Bool.andb_false_l.
  unfold at_index. cbn [String.get Nat.eqb].
  run_monad. rewrite handleArrowKey_escape_frame. run_monad.
  destruct (handleArrowKey_effect c s) as (_ & _ & _ & _ & Hfd & _).
  rewrite Hfd. reflexivity.
Qed.

Lemma size_push_back (s : string) (c : ascii) :
  (size (push_back s c) <=? 0) = false.
Proof.
  unfold push_back. destruct s; cbn [append]; apply size_String.
Qed.

(** A byte that is none of the four control bytes goes to
    [handleEscapeSequence] first. *)
Lemma processInput_not_control s c :
  c <> CTRL_C -> c <> CTRL_Z -> c <> CTRL_D -> c <> DEL ->
  fst (handleEscapeSequence c s) = true ->
  processInput c s = (true, snd (handleEscapeSequence c s)).
Proof.
  intros H3 H26 H4 H127 Hh.
  unfold processInput. char_neq. unfold bind at 1.
  destruct (handleEscapeSequence c s) as [h s2]. cbn [fst snd] in *.
  subst h. reflexivity.
Qed.

(** Where [handleArrowKey] leaves the cursor and the line buffer. *)
Lemma handleArrowKey_cursor c s :
  let s' := snd (handleArrowKey c s) in
  history_index_ s'
  = (if (c =? "A")%char && (0 <? history_index_ s)
     then size_t_wrap (history_index_ s - 1)
     else if (c =? "B")%char
          then if size_t_wrap (history_index_ s + 1) <? history_size s
               then size_t_wrap (history_index_ s + 1)
               else history_size s
          else history_index_ s) /\
  input_buffer_ s'
  = (if redisplays c s
     then if history_index_ s' <? history_size s'
          then nth (Z.to_nat (history_index_ s')) (history_ s') EmptyString
          else EmptyString
     else input_buffer_ s).
Proof.
  unfold handleArrowKey, displayHistoryEntry, clearLine, redisplays.
  run_monad.
  destruct ((c =? "A")%char && (0 <? history_index_ s)); run_monad;
    [split; reflexivity|].
  destruct (c =? "B")%char; run_monad; [|split; reflexivity].
  destruct (size_t_wrap (history_index_ s + 1)
            <? Z.of_nat (Datatypes.length (history_ s)));
    run_monad; split; reflexivity.
Qed.

(** C9: when a third byte joins two accumulated bytes (ESC '[' and then
    the final byte), the arrow key is resolved against that final byte:
    'A' with the cursor above 0 moves the cursor up by one, 'B' moves it
    down by one or, at the end, to the length of the history, and in both
    cases the line buffer becomes the entry under the new cursor (empty
    past the end) and the line is redisplayed on standard output; any
    other final byte leaves cursor, line buffer and terminal alone.  Then
    the accumulator is cleared, and the write that forwards the sequence to
    the child carries exactly the three accumulated bytes. *)
Theorem C9_third_byte_resolves_and_forwards :
  forall (s : State) (c : ascii),
    String.length (escape_sequence s) = 2%nat ->
    c <> ESC ->
    let acc := push_back (escape_sequence s) c in
    let r := handleEscapeSequence c s in
    let idx := history_index_ s in
    let n := Z.of_nat (List.length (history_ s)) in
    let up := (c =? "A")%char && (0 <? idx) in
    let down := (c =? "B")%char in
    let idx' := if up then size_t_wrap (idx - 1)
                else if down
                     then if size_t_wrap (idx + 1) <? n
                          then size_t_wrap (idx + 1) else n
                     else idx in
    let buf' := if up || down
                then if idx' <? n
                     then nth (Z.to_nat idx') (history_ s) EmptyString
                     else EmptyString
                else input_buffer_ s in
    fst r = true /\
    escape_sequence (snd r) = EmptyString /\
    history_index_ (snd r) = idx' /\
    input_buffer_ (snd r) = buf' /\
    history_ (snd r) = history_ s /\
    writes (trace (snd r))
    = (writes (trace s)
       ++ (if up || down
           then [(STDOUT_FILENO, str_clear_line); (STDOUT_FILENO, str_prompt)]
                ++ (if size buf' <=? 0 then [] else [(STDOUT_FILENO, buf')])
           else [])
       ++ [(master_fd_ s, acc)])%list /\
    kills (trace (snd r)) = kills (trace s) /\
    master_fd_ (snd r) = master_fd_ s /\
    child_pid_ (snd r) = child_pid_ s /\
    is_running_ (snd r) = is_running_ s /\
    (escape_sequence s = String ESC (String LBRACKET EmptyString) ->
     acc = String ESC (String LBRACKET (String c EmptyString))) /\
    (c <> CTRL_C -> c <> CTRL_Z -> c <> CTRL_D -> c <> DEL ->
     processInput c s = (true, snd r)).
Proof.
  intros s c Hlen Hc acc r idx n up down idx' buf'.
  set (s1 := snd (handleArrowKey c s)).
  assert (Hr : r = (true,
     set_escape_sequence EmptyString
       (set_trace (trace s1 ++ safeWrite_events (trace s1) (master_fd_ s) acc)
          s1))) by (apply handleEscapeSequence_third_byte; assumption).
  destruct (handleArrowKey_effect c s) as (Hw & Hk & Hh & _ & Hfd & Hpid & Hrun).
  destruct (handleArrowKey_cursor c s) as (Hi & Hb).
  fold s1 in Hw, Hk, Hh, Hfd, Hpid, Hrun, Hi, Hb.
  unfold redisplays in Hw, Hb. unfold history_size in Hi, Hb.
  rewrite Hh in Hb.
  assert (Hi' : history_index_ s1 = idx') by exact Hi.
  rewrite Hi' in Hb.
  assert (Hb' : input_buffer_ s1 = buf') by exact Hb.
  rewrite Hb' in Hw. unfold recall_echo in Hw.
  split; [rewrite Hr; reflexivity|].
  split; [rewrite Hr; reflexivity|].
  split; [rewrite Hr; exact Hi'|].
  split; [rewrite Hr; exact Hb'|].
  split; [rewrite Hr; exact Hh|].
  split.
  { rewrite Hr. run_monad. rewrite writes_app, writes_safeWrite_events.
    subst acc. rewrite size_push_back, Hw, <- app_assoc. reflexivity. }
  split.
  { rewrite Hr. run_monad. rewrite kills_app, kills_safeWrite_events.
    rewrite app_nil_r. exact Hk. }
  split; [rewrite Hr; exact Hfd|].
  split; [rewrite Hr; exact Hpid|].
  split; [rewrite Hr; exact Hrun|].
  split.
  { intros Hseq. subst acc. rewrite Hseq. reflexivity. }
  intros H3 H26 H4 H127.
  apply processInput_not_control; try assumption.
  fold r. rewrite Hr. reflexivity.
Qed.

(** C5 (as amended): resolving an arrow key ([handleArrowKey], with the
    redisplay of the recalled entry) writes to standard output only, sends
    no signal, and changes nothing but the recall cursor and the line
    buffer.  Processing the final byte of ESC '[' 'A' or ESC '[' 'B' then
    forwards the three accumulated bytes to the child, after the local
    redisplay. *)
Theorem C5_recall_is_local_then_sequence_forwarded :
  forall (s : State) (c : ascii),
    let s1 := snd (handleArrowKey c s) in
    writes (trace s1)
    = (writes (trace s)
       ++ (if redisplays c s then recall_echo (input_buffer_ s1) else []))%list /\
    (forall fd buf,
        In (fd, buf) (recall_echo (input_buffer_ s1)) -> fd = STDOUT_FILENO) /\
    kills (trace s1) = kills (trace s) /\
    history_ s1 = history_ s /\
    escape_sequence s1 = escape_sequence s /\
    master_fd_ s1 = master_fd_ s /\
    child_pid_ s1 = child_pid_ s /\
    is_running_ s1 = is_running_ s /\
    (escape_sequence s = String ESC (String LBRACKET EmptyString) ->
     c = "A"%char \/ c = "B"%char ->
     let s2 := snd (processInput c s) in
     writes (trace s2)
     = (writes (trace s)
        ++ (if redisplays c s then recall_echo (input_buffer_ s1) else [])
        ++ [(master_fd_ s, String ESC (String LBRACKET (String c EmptyString)))])%list /\
     input_buffer_ s2 = input_buffer_ s1 /\
     history_index_ s2 = history_index_ s1 /\
     history_ s2 = history_ s).
Proof.
  intros s c s1.
  destruct (handleArrowKey_effect c s)
    as (Hw & Hk & Hh & He & Hfd & Hpid & Hrun).
  fold s1 in Hw, Hk, Hh, He, Hfd, Hpid, Hrun.
  split; [exact Hw|].
  split.
  { intros fd buf. unfold recall_echo. intros Hin.
    apply in_app_or in Hin. destruct Hin as [Hin | Hin].
    - destruct Hin as [Heq | [Heq | []]]; inversion Heq; reflexivity.
    - destruct (size (input_buffer_ s1) <=? 0); [destruct Hin|].
      destruct Hin as [Heq | []]. inversion Heq. reflexivity. }
  repeat (split; [assumption|]).
  intros Hseq Hc s2.
  assert (Hlen : String.length (escape_sequence s) = 2%nat)
    by (rewrite Hseq; reflexivity).
  assert (Hp : processInput c s
               = (true, snd (handleEscapeSequence c s))).
  { apply processInput_not_control;
      try (destruct Hc as [-> | ->]; discriminate).
    rewrite handleEscapeSequence_third_byte;
      [reflexivity | assumption | destruct Hc as [-> | ->]; discriminate]. }
  subst s2. rewrite Hp.
  rewrite handleEscapeSequence_third_byte;
    [| assumption | destruct Hc as [-> | ->]; discriminate].
  fold s1. run_monad.
  rewrite writes_app, writes_safeWrite_events, size_push_back, Hw, Hseq.
  rewrite <- app_assoc.
  repeat split; try reflexivity. exact Hh.
Qed.

(** ** The invariants of the recall cursor and of the accumulator *)

Ltac split_matches :=
  repeat (run_monad;
          match goal with
          | |- context [if ?b then _ else _] => destruct b eqn:?
          | |- context [match ?b with _ => _ end] => destruct b eqn:?
          end).

Ltac bool_hyps :=
  repeat match goal with
         | H : (_ && _)%bool = true |- _ => apply andb_prop in H; destruct H
         | H : (_ <? _) = true |- _ => apply Z.ltb_lt in H
         | H : (_ <? _) = false |- _ => apply Z.ltb_ge in H
         | H : (_ =? _)%char = true |- _ => apply Ascii.eqb_eq in H
         end.

Lemma cursor_inv_handleArrowKey c s :
  cursor_inv s -> cursor_inv (snd (handleArrowKey c s)).
Proof.
  unfold cursor_inv, handleArrowKey, displayHistoryEntry, clearLine,
    size_t_wrap.
  intros Hinv. run_monad.
  destruct ((c =? "A")%char && (0 <? history_index_ s)) eqn:Hup; run_monad.
  - bool_hyps.
    pose proof (Z.mod_pos_bound (history_index_ s - 1) (2 ^ 64) ltac:(lia)).
    pose proof (Z.mod_le (history_index_ s - 1) (2 ^ 64) ltac:(lia) ltac:(lia)).
    unfold history_size in Hinv. lia.
  - destruct (c =? "B")%char; run_monad; [|exact Hinv].
    destruct ((history_index_ s + 1) mod 2 ^ 64
              <? Z.of_nat (Datatypes.length (history_ s))) eqn:Hdown;
      run_monad; bool_hyps.
    + pose proof (Z.mod_pos_bound (history_index_ s + 1) (2 ^ 64) ltac:(lia)).
      lia.
    + lia.
Qed.

Ltac same_data :=
  unfold same_session_data; run_monad; repeat split; reflexivity.

Lemma cursor_inv_data_only : session_data_only cursor_inv.
Proof.
  intros s s' (_ & Hh & Hi & _). unfold cursor_inv, history_size.
  rewrite Hh, Hi. trivial.
Qed.

Lemma esc_inv_data_only : session_data_only esc_inv.
Proof.
  intros s s' (_ & _ & _ & He). unfold esc_inv. rewrite He. trivial.
Qed.

Lemma sendSignalToChild_same sig s :
  same_session_data s (snd (sendSignalToChild sig s)).
Proof.
  unfold sendSignalToChild, kill, waitpid. split_matches; same_data.
Qed.

Lemma cursor_inv_handleEscapeSequence c s :
  cursor_inv s -> cursor_inv (snd (handleEscapeSequence c s)).
Proof.
  intros Hinv. unfold handleEscapeSequence. run_monad.
  destruct (c =? ESC)%char; run_monad; [exact Hinv|].
  destruct (empty (escape_sequence s)); run_monad; [exact Hinv|].
  destruct ((size (push_back (escape_sequence s) c) =? 2)
            && negb (c =? LBRACKET)%char); run_monad; [exact Hinv|].
  destruct (size (push_back (escape_sequence s) c) =? 3); run_monad;
    [|exact Hinv].
  rewrite handleArrowKey_escape_frame. run_monad.
  apply (cursor_inv_handleArrowKey _ s Hinv).
Qed.

Lemma cursor_inv_handleEnter s :
  cursor_inv s -> cursor_inv (snd (handleEnter s)).
Proof.
  intros Hinv. unfold handleEnter. run_monad.
  destruct (input_buffer_ s =? str_exit)%string; run_monad; [exact Hinv|].
  destruct (empty (input_buffer_ s)); run_monad; [exact Hinv|].
  unfold cursor_inv. run_monad. lia.
Qed.

Lemma esc_inv_handleEscapeSequence c s :
  esc_inv s -> esc_inv (snd (handleEscapeSequence c s)).
Proof.
  intros Hinv. unfold handleEscapeSequence. run_monad.
  destruct (c =? ESC)%char; run_monad; [right; left; reflexivity|].
  destruct Hinv as [He | [He | He]]; rewrite He; unfold str_ESC;
    repeat (run_monad; simp_strings).
  - left. exact He.
  - destruct (c =? LBRACKET)%char eqn:Hc; run_monad.
    + bool_hyps. subst c. right. right. reflexivity.
    + left. reflexivity.
  - rewrite handleArrowKey_escape_frame.
    run_monad. left. reflexivity.
Qed.

Lemma esc_inv_handleEnter s :
  esc_inv s -> esc_inv (snd (handleEnter s)).
Proof.
  intros Hinv. unfold handleEnter. run_monad.
  destruct (input_buffer_ s =? str_exit)%string; run_monad; [exact Hinv|].
  destruct (empty (input_buffer_ s)); run_monad; exact Hinv.
Qed.

Lemma safeWrite_same fd buf s : same_session_data s (snd (safeWrite fd buf s)).
Proof. same_data. Qed.

Lemma same_session_data_trans s1 s2 s3 :
  same_session_data s1 s2 -> same_session_data s2 s3 ->
  same_session_data s1 s3.
Proof.
  unfold same_session_data.
  intros (A1 & A2 & A3 & A4) (B1 & B2 & B3 & B4).
  repeat split; congruence.
Qed.

Ltac split_bools :=
  repeat (run_monad;
          match goal with
          | |- context [if ?b then _ else _] => destruct b eqn:?
          end);
  run_monad.

Lemma configureTerminal_same env s :
  same_session_data s (snd (configureTerminal env s)).
Proof.
  unfold configureTerminal.
  destruct (tcgetattr_result env); split_bools; same_data.
Qed.

Lemma initializePty_same env s :
  same_session_data s (snd (initializePty env s)).
Proof.
  unfold initializePty. split_bools; same_data.
Qed.

Lemma constructor_same env s : same_session_data s (snd (constructor env s)).
Proof.
  unfold constructor. unfold bind at 1.
  pose proof (configureTerminal_same env s) as H1.
  destruct (configureTerminal env s) as [c s1]. cbn [snd] in H1.
  destruct c; try exact H1.
  unfold setupSignalHandlers. run_monad.
  eapply same_session_data_trans; [exact H1|].
  eapply same_session_data_trans; [|apply initializePty_same].
  same_data.
Qed.

Lemma cleanup_same env s : same_session_data s (snd (cleanup env s)).
Proof.
  unfold cleanup, restoreTerminal, kill, waitpid.
  split_bools; same_data.
Qed.

Lemma handleSignal_same sig winsz s :
  same_session_data s (snd (handleSignal sig winsz s)).
Proof.
  unfold handleSignal, resizePty, kill.
  destruct winsz; split_bools; same_data.
Qed.

(** A property of the session data that the escape and enter handlers keep
    and that does not look at the line buffer is kept by every run. *)
Section Lift.

Variable P : State -> Prop.
Hypothesis P_data : session_data_only P.
Hypothesis P_buffer : forall b s, P s -> P (set_input_buffer_ b s).
Hypothesis P_escape : forall c s, P s -> P (snd (handleEscapeSequence c s)).
Hypothesis P_enter : forall s, P s -> P (snd (handleEnter s)).

Lemma processInput_preserves c s : P s -> P (snd (processInput c s)).
Proof.
  intros HP. unfold processInput.
  destruct (c =? CTRL_C)%char;
    [apply (P_data s); [apply sendSignalToChild_same | exact HP]|].
  destruct (c =? CTRL_Z)%char;
    [apply (P_data s); [apply sendSignalToChild_same | exact HP]|].
  destruct (c =? CTRL_D)%char.
  { run_monad. apply (P_data s); [same_data | exact HP]. }
  destruct (c =? DEL)%char.
  { unfold handleBackspace. run_monad.
    destruct (empty (input_buffer_ s)); run_monad; [exact HP|].
    apply (P_data (set_input_buffer_ (pop_back (input_buffer_ s)) s));
      [same_data | apply P_buffer; exact HP]. }
  unfold bind at 1.
  pose proof (P_escape c s HP) as HP2.
  destruct (handleEscapeSequence c s) as [handled s2].
  cbn [snd] in HP2.
  destruct handled; [exact HP2|].
  destruct ((c =? CR)%char || (c =? LF)%char); [apply P_enter; exact HP2|].
  run_monad.
  apply (P_data (set_input_buffer_ (push_back (input_buffer_ s2) c) s2));
    [same_data | apply P_buffer; exact HP2].
Qed.

Lemma processBytes_preserves data :
  forall s, P s -> P (snd (processBytes data s)).
Proof.
  induction data as [|c rest IH]; intros s HP; [exact HP|].
  cbn [processBytes]. unfold bind at 1.
  pose proof (processInput_preserves c s HP) as HP2.
  destruct (processInput c s) as [ok s2]. cbn [snd] in HP2.
  destruct ok; [apply IH; exact HP2|].
  run_monad. apply (P_data s2); [same_data | exact HP2].
Qed.

Lemma readUserInput_preserves r s : P s -> P (snd (readUserInput r s)).
Proof.
  intros HP. unfold readUserInput.
  destruct (bytes_read r <=? 0); [exact HP|].
  apply processBytes_preserves. exact HP.
Qed.

Lemma readShellOutput_preserves r s : P s -> P (snd (readShellOutput r s)).
Proof.
  intros HP. unfold readShellOutput.
  destruct (0 <? bytes_read r); [|exact HP].
  run_monad. apply (P_data s); [same_data | exact HP].
Qed.

Lemma processIO_loop_preserves ws :
  forall s, P s -> P (snd (processIO_loop ws s)).
Proof.
  induction ws as [|w ws IH]; intros s HP.
  - cbn [processIO_loop]. run_monad.
    destruct (is_running_ s); exact HP.
  - cbn [processIO_loop]. run_monad.
    destruct (is_running_ s); run_monad; [|exact HP].
    destruct w as [[|] | sig winsz | stdin_in master_in];
      [apply IH; exact HP | exact HP | |].
    { pose proof (handleSignal_same sig winsz s) as Hsig.
      destruct (handleSignal sig winsz s) as [u s1]. cbn [snd] in Hsig.
      apply IH. apply (P_data s); assumption. }
    assert (HP1 : P (snd (match stdin_in with
                          | Some r => readUserInput r
                          | None => fun s0 => (tt, s0)
                          end s))).
    { destruct stdin_in; [apply readUserInput_preserves|]; exact HP. }
    destruct (match stdin_in with
              | Some r => readUserInput r
              | None => fun s0 => (tt, s0)
              end s) as [u1 s1].
    cbn [snd] in HP1.
    assert (HP2 : P (snd (match master_in with
                          | Some r => readShellOutput r
                          | None => fun s0 => (tt, s0)
                          end s1))).
    { destruct master_in; [apply readShellOutput_preserves|]; exact HP1. }
    destruct (match master_in with
              | Some r => readShellOutput r
              | None => fun s0 => (tt, s0)
              end s1) as [u2 s2].
    cbn [snd] in HP2.
    apply IH. exact HP2.
Qed.

Lemma run_preserves ws s : P s -> P (snd (run ws s)).
Proof.
  intros HP. unfold run, processIO. run_monad.
  assert (HP1 : P (snd (processIO_loop ws (set_is_running_ true s)))).
  { apply processIO_loop_preserves.
    apply (P_data s); [same_data | exact HP]. }
  destruct (processIO_loop ws (set_is_running_ true s)) as [st s1].
  cbn [snd] in HP1.
  destruct st; run_monad; try exact HP1.
  apply (P_data s1); [same_data | exact HP1].
Qed.

Lemma main_preserves env ws s : P s -> P (snd (main env ws s)).
Proof.
  intros HP. unfold main. unfold bind at 1.
  assert (HP1 : P (snd (constructor env s)))
    by (apply (P_data s); [apply constructor_same | exact HP]).
  destruct (constructor env s) as [c s1]. cbn [snd] in HP1.
  destruct c as [ | what | [code|]].
  - unfold bind at 1.
    pose proof (run_preserves ws s1 HP1) as HP2.
    destruct (run ws s1) as [st s2]. cbn [snd] in HP2.
    destruct st; try exact HP2;
      unfold bind at 1;
      pose proof (cleanup_same env s2) as Hc;
      destruct (cleanup env s2) as [u s3]; cbn [snd] in Hc;
      apply (P_data s2); assumption.
  - run_monad. apply (P_data s1); [same_data | exact HP1].
  - exact HP1.
  - exact HP1.
Qed.

End Lift.

(** C6: the recall cursor stays between 0 and the length of the history,
    after every run of the program and across every input byte; the up
    arrow never takes it below 0, the down arrow never above the length of
    the history; appending an entry sets it to the new length; and a recall
    that leaves the cursor at an index [i] below the length sets the line
    buffer to entry [i] of the history. *)
Theorem C6_recall_cursor_stays_in_history :
  (forall (env : Startup) (ws : list Wakeup) (t : termios),
      cursor_inv (snd (main env ws (initial_state t)))) /\
  (forall (s : State) (c : ascii),
      cursor_inv s -> cursor_inv (snd (processInput c s))) /\
  (forall s : State,
      cursor_inv s -> 0 <= history_index_ (snd (handleArrowKey "A" s))) /\
  (forall s : State,
      cursor_inv s ->
      history_index_ (snd (handleArrowKey "B" s)) <= history_size s) /\
  (forall s : State,
      input_buffer_ s <> EmptyString -> input_buffer_ s <> str_exit ->
      let s' := snd (handleEnter s) in
      history_size s' = history_size s + 1 /\
      history_index_ s' = history_size s') /\
  (forall (s : State) (c : ascii),
      redisplays c s = true ->
      let s' := snd (handleArrowKey c s) in
      history_index_ s' < history_size s' ->
      history_ s' = history_ s /\
      input_buffer_ s'
      = nth (Z.to_nat (history_index_ s')) (history_ s) EmptyString) /\
  (forall s : State,
      cursor_inv s -> history_size s + 1 < 2 ^ 64 ->
      let up := snd (handleArrowKey "A" s) in
      let down := snd (handleArrowKey "B" s) in
      (0 < history_index_ s -> history_index_ up = history_index_ s - 1) /\
      (history_index_ s = 0 -> history_index_ up = 0) /\
      (history_index_ s + 1 < history_size s ->
       history_index_ down = history_index_ s + 1) /\
      (history_size s <= history_index_ s + 1 ->
       history_index_ down = history_size s /\
       input_buffer_ down = EmptyString)).
Proof.
  split.
  { intros env ws t.
    apply (main_preserves cursor_inv cursor_inv_data_only).
    - intros b s H. exact H.
    - apply cursor_inv_handleEscapeSequence.
    - apply cursor_inv_handleEnter.
    - unfold cursor_inv, initial_state, history_size. cbn. lia. }
  split.
  { intros s c.
    apply (processInput_preserves cursor_inv cursor_inv_data_only).
    - intros b s0 H. exact H.
    - apply cursor_inv_handleEscapeSequence.
    - apply cursor_inv_handleEnter. }
  split.
  { intros s H. apply (cursor_inv_handleArrowKey "A" s H). }
  split.
  { intros s H.
    pose proof (cursor_inv_handleArrowKey "B" s H) as [_ Hle].
    destruct (handleArrowKey_effect "B" s) as (_ & _ & Hh & _).
    unfold history_size in *. rewrite Hh in Hle. exact Hle. }
  split.
  { intros s Hne Hexit s'. subst s'.
    apply String.eqb_neq in Hexit.
    unfold handleEnter. run_monad. rewrite Hexit.
    destruct (input_buffer_ s) as [|a buf]; [congruence|].
    run_monad. rewrite length_app. cbn [Datatypes.length]. lia. }
  split.
  { intros s c Hre s' Hlt.
    destruct (handleArrowKey_cursor c s) as [_ Hbuf].
    destruct (handleArrowKey_effect c s) as (_ & _ & Hh & _).
    fold s' in Hbuf, Hh. rewrite Hre in Hbuf.
    apply Z.ltb_lt in Hlt. rewrite Hlt in Hbuf.
    split; [exact Hh|]. rewrite Hbuf, Hh. reflexivity. }
  intros s [Hlo Hhi] Hsz up down.
  destruct (handleArrowKey_cursor "A" s) as [Hup _].
  destruct (handleArrowKey_cursor "B" s) as [Hdown Hdbuf].
  destruct (handleArrowKey_effect "B" s) as (_ & _ & Hh & _).
  fold up in Hup. fold down in Hdown, Hdbuf, Hh.
  change (("A" =? "A")%char) with true in Hup.
  change (("B" =? "A")%char) with false in Hdown.
  change (("B" =? "B")%char) with true in Hdown.
  unfold redisplays in Hdbuf.
  change (("B" =? "A")%char) with false in Hdbuf.
  change (("B" =? "B")%char) with true in Hdbuf.
  cbn [andb orb] in Hup, Hdown, Hdbuf.
  unfold size_t_wrap in *.
  repeat split.
  - intros Hpos. rewrite Hup.
    replace (0 <? history_index_ s) with true by (symmetry; apply Z.ltb_lt; lia).
    apply Z.mod_small. lia.
  - intros Hz. rewrite Hup, Hz. reflexivity.
  - intros Hlt. rewrite Hdown.
    rewrite (Z.mod_small (history_index_ s + 1)) by lia.
    replace (history_index_ s + 1 <? history_size s) with true
      by (symmetry; apply Z.ltb_lt; lia).
    reflexivity.
  - rewrite Hdown.
    rewrite (Z.mod_small (history_index_ s + 1)) by lia.
    replace (history_index_ s + 1 <? history_size s) with false
      by (symmetry; apply Z.ltb_ge; lia).
    reflexivity.
  - assert (Hd : history_index_ down = history_size s).
    { rewrite Hdown.
      rewrite (Z.mod_small (history_index_ s + 1)) by lia.
      replace (history_index_ s + 1 <? history_size s) with false
        by (symmetry; apply Z.ltb_ge; lia).
      reflexivity. }
    rewrite Hdbuf, Hd. unfold history_size. rewrite Hh.
    rewrite Z.ltb_irrefl. reflexivity.
Qed.

(** C10: the escape accumulator is always empty, the single byte ESC, or
    the two bytes ESC '[': after every run of the program, and after any
    input byte processed in a state where it is so; and the control bytes
    0x03, 0x1A, 0x04 and 0x7F, which are dispatched before accumulation,
    leave the accumulator as it is, whatever it holds. *)
Theorem C10_escape_accumulator_has_three_values :
  (forall (env : Startup) (ws : list Wakeup) (t : termios),
      esc_inv (snd (main env ws (initial_state t)))) /\
  (forall (s : State) (c : ascii),
      esc_inv s -> esc_inv (snd (processInput c s))) /\
  (forall (s : State) (c : ascii),
      c = CTRL_C \/ c = CTRL_Z \/ c = CTRL_D \/ c = DEL ->
      escape_sequence (snd (processInput c s)) = escape_sequence s).
Proof.
  split.
  { intros env ws t.
    apply (main_preserves esc_inv esc_inv_data_only).
    - intros b s H. exact H.
    - apply esc_inv_handleEscapeSequence.
    - apply esc_inv_handleEnter.
    - left. reflexivity. }
  split.
  { intros s c.
    apply (processInput_preserves esc_inv esc_inv_data_only).
    - intros b s0 H. exact H.
    - apply esc_inv_handleEscapeSequence.
    - apply esc_inv_handleEnter. }
  intros s c [-> | [-> | [-> | ->]]]; unfold processInput; eval_chars.
  - apply sendSignalToChild_same.
  - apply sendSignalToChild_same.
  - run_monad. reflexivity.
  - unfold handleBackspace. run_monad.
    destruct (empty (input_buffer_ s)); run_monad; reflexivity.
Qed.

(** ** The main loop at end of stream *)

Lemma processIO_loop_end_of_stream (r : ReadResult) (n : nat) :
  bytes_read r <= 0 ->
  forall s : State,
    is_running_ s = true ->
    processIO_loop (repeat (PollReady (Some r) None) n) s = (LoopBlocked, s).
Proof.
  intros Hr. apply Z.leb_le in Hr.
  induction n as [|n IH]; intros s Hrun; cbn [repeat processIO_loop];
    run_monad; rewrite Hrun; run_monad; [reflexivity|].
  unfold readUserInput. rewrite Hr. run_monad. apply IH. exact Hrun.
Qed.

(** C4 (what the code does at the failing input): a wake-up whose read of
    the terminal input returns zero or a negative value changes nothing,
    the running flag included; however many such wake-ups follow one
    another, [processIO] has not left its loop and waits in [poll]
    again. *)
Theorem C4_end_of_stream_keeps_loop_running :
  forall (r : ReadResult) (n : nat) (s : State),
    bytes_read r <= 0 ->
    readUserInput r s = (tt, s) /\
    processIO (repeat (PollReady (Some r) None) n) s
    = (LoopBlocked, set_is_running_ true s).
Proof.
  intros r n s Hr. split.
  - unfold readUserInput. apply Z.leb_le in Hr. rewrite Hr. reflexivity.
  - unfold processIO. run_monad.
    apply processIO_loop_end_of_stream; [exact Hr | reflexivity].
Qed.

(** ** The session applies no terminal settings *)

Lemma settings_applied_app (a b : list Event) :
  settings_applied (a ++ b) = (settings_applied a ++ settings_applied b)%list.
Proof.
  induction a as [|e a IH]; [reflexivity|].
  destruct e; cbn; rewrite ?IH; reflexivity.
Qed.

Lemma settings_applied_safeWrite_events tr fd buf :
  settings_applied (safeWrite_events tr fd buf) = [].
Proof.
  unfold safeWrite_events.
  destruct (size buf <=? 0); [reflexivity|].
  destruct (write_all tr fd buf); reflexivity.
Qed.

Lemma settings_untouched_refl s : settings_untouched s s.
Proof. split; reflexivity. Qed.

Lemma settings_untouched_trans s1 s2 s3 :
  settings_untouched s1 s2 -> settings_untouched s2 s3 ->
  settings_untouched s1 s3.
Proof. intros [A1 A2] [B1 B2]. split; congruence. Qed.

Ltac untouched :=
  unfold settings_untouched; run_monad;
  rewrite ?settings_applied_app, ?settings_applied_safeWrite_events;
  cbn [settings_applied app]; rewrite ?app_nil_r;
  split; reflexivity.

Lemma handleArrowKey_untouched c s :
  settings_untouched s (snd (handleArrowKey c s)).
Proof.
  unfold handleArrowKey, displayHistoryEntry, clearLine. run_monad.
  destruct ((c =? "A")%char && (0 <? history_index_ s)); run_monad;
    [untouched|].
  destruct (c =? "B")%char; run_monad; [|untouched].
  destruct (size_t_wrap (history_index_ s + 1)
            <? Z.of_nat (Datatypes.length (history_ s)));
    untouched.
Qed.

Lemma handleEscapeSequence_untouched c s :
  settings_untouched s (snd (handleEscapeSequence c s)).
Proof.
  unfold handleEscapeSequence. run_monad.
  destruct (c =? ESC)%char; run_monad; [untouched|].
  destruct (empty (escape_sequence s)); run_monad; [untouched|].
  destruct ((size (push_back (escape_sequence s) c) =? 2)
            && negb (c =? LBRACKET)%char); run_monad; [untouched|].
  destruct (size (push_back (escape_sequence s) c) =? 3); run_monad;
    [|untouched].
  rewrite handleArrowKey_escape_frame. run_monad.
  destruct (handleArrowKey_untouched
              (at_index (push_back (escape_sequence s) c) 2) s) as [Ht Ho].
  unfold settings_untouched. run_monad.
  rewrite settings_applied_app, settings_applied_safeWrite_events, app_nil_r.
  split; assumption.
Qed.

Lemma handleEnter_untouched s : settings_untouched s (snd (handleEnter s)).
Proof.
  unfold handleEnter. run_monad.
  destruct (input_buffer_ s =? str_exit)%string; run_monad; [untouched|].
  destruct (empty (input_buffer_ s)); untouched.
Qed.

Lemma sendSignalToChild_untouched sig s :
  settings_untouched s (snd (sendSignalToChild sig s)).
Proof.
  unfold sendSignalToChild, kill, waitpid. split_bools; untouched.
Qed.

Lemma processInput_untouched c s :
  settings_untouched s (snd (processInput c s)).
Proof.
  unfold processInput.
  destruct (c =? CTRL_C)%char; [apply sendSignalToChild_untouched|].
  destruct (c =? CTRL_Z)%char; [apply sendSignalToChild_untouched|].
  destruct (c =? CTRL_D)%char; [untouched|].
  destruct (c =? DEL)%char.
  { unfold handleBackspace. run_monad.
    destruct (empty (input_buffer_ s)); untouched. }
  unfold bind at 1.
  pose proof (handleEscapeSequence_untouched c s) as H.
  destruct (handleEscapeSequence c s) as [handled s2]. cbn [snd] in H.
  destruct handled; [exact H|].
  eapply settings_untouched_trans; [exact H|].
  destruct ((c =? CR)%char || (c =? LF)%char);
    [apply handleEnter_untouched | untouched].
Qed.

Lemma processBytes_untouched data :
  forall s, settings_untouched s (snd (processBytes data s)).
Proof.
  induction data as [|c rest IH]; intros s;
    [apply settings_untouched_refl|].
  cbn [processBytes]. unfold bind at 1.
  pose proof (processInput_untouched c s) as H.
  destruct (processInput c s) as [ok s2]. cbn [snd] in H.
  eapply settings_untouched_trans; [exact H|].
  destruct ok; [apply IH | untouched].
Qed.

Lemma handleSignal_untouched sig winsz s :
  settings_untouched s (snd (handleSignal sig winsz s)).
Proof.
  unfold handleSignal, resizePty, kill.
  destruct winsz; split_bools; untouched.
Qed.

Lemma processIO_loop_untouched ws :
  forall s, settings_untouched s (snd (processIO_loop ws s)).
Proof.
  induction ws as [|w ws IH]; intros s; cbn [processIO_loop]; run_monad;
    (destruct (is_running_ s); run_monad;
     [|apply settings_untouched_refl]).
  - apply settings_untouched_refl.
  - destruct w as [[|] | sig winsz | stdin_in master_in].
    + apply IH.
    + apply settings_untouched_refl.
    + pose proof (handleSignal_untouched sig winsz s) as H.
      destruct (handleSignal sig winsz s) as [u s1]. cbn [snd] in H.
      eapply settings_untouched_trans; [exact H | apply IH].
    + assert (H1 : settings_untouched s
                     (snd (match stdin_in with
                           | Some r => readUserInput r
                           | None => fun s0 => (tt, s0)
                           end s))).
      { destruct stdin_in as [r|]; [|apply settings_untouched_refl].
        unfold readUserInput.
        destruct (bytes_read r <=? 0);
          [apply settings_untouched_refl | apply processBytes_untouched]. }
      destruct (match stdin_in with
                | Some r => readUserInput r
                | None => fun s0 => (tt, s0)
                end s) as [u1 s1].
      cbn [snd] in H1.
      assert (H2 : settings_untouched s1
                     (snd (match master_in with
                           | Some r => readShellOutput r
                           | None => fun s0 => (tt, s0)
                           end s1))).
      { destruct master_in as [r|]; [|apply settings_untouched_refl].
        unfold readShellOutput.
        destruct (0 <? bytes_read r); untouched. }
      destruct (match master_in with
                | Some r => readShellOutput r
                | None => fun s0 => (tt, s0)
                end s1) as [u2 s2].
      cbn [snd] in H2.
      eapply settings_untouched_trans; [exact H1|].
      eapply settings_untouched_trans; [exact H2 | apply IH].
Qed.

Lemma run_untouched ws s : settings_untouched s (snd (run ws s)).
Proof.
  unfold run, processIO. run_monad.
  pose proof (processIO_loop_untouched ws (set_is_running_ true s)) as H.
  destruct (processIO_loop ws (set_is_running_ true s)) as [st s1].
  cbn [snd] in H.
  destruct st; run_monad; try exact H.
  destruct H as [Ht Ho]. unfold settings_untouched. run_monad.
  rewrite settings_applied_app, app_nil_r. split; assumption.
Qed.

(** ** Start-up failure after raw mode was entered *)

(** [cleanup] applies the original settings, once. *)
Lemma cleanup_restores_once env s :
  settings_applied (trace (snd (cleanup env s)))
  = (settings_applied (trace s) ++ [original_termios_ s])%list.
Proof.
  unfold cleanup, restoreTerminal, kill, waitpid.
  split_bools; rewrite ?settings_applied_app; cbn [settings_applied app];
    rewrite ?app_nil_r; reflexivity.
Qed.

(** A constructor that completes has saved the original settings and
    applied the raw ones, and nothing else. *)
Lemma constructor_enters_raw env s :
  fst (constructor env s) = Normal ->
  exists t,
    tcgetattr_result env = Some t /\
    original_termios_ (snd (constructor env s)) = t /\
    settings_applied (trace (snd (constructor env s)))
    = (settings_applied (trace s) ++ [raw_termios t])%list.
Proof.
  unfold constructor, configureTerminal, setupSignalHandlers, initializePty.
  destruct (tcgetattr_result env) as [t|]; run_monad; [|discriminate].
  destruct (tcsetattr_raw_ok env); run_monad; [|discriminate].
  intros Hn. exists t. split; [reflexivity|].
  revert Hn. split_bools; intros Hn; try discriminate Hn;
    rewrite !settings_applied_app; cbn [settings_applied app];
    rewrite !app_nil_r; split; reflexivity.
Qed.

(** When [main] returns 0, the terminal settings applied by the run are
    the raw ones and then the original ones, once each: every way out of
    a session whose constructor completed (the exit command, Ctrl-D,
    Ctrl-C, a fatal poll error) restores the terminal once. *)
Lemma main_restores_once_after_session env ws t0 :
  fst (main env ws (initial_state t0)) = Returned 0 ->
  exists t,
    tcgetattr_result env = Some t /\
    settings_applied (trace (snd (main env ws (initial_state t0))))
    = [raw_termios t; t].
Proof.
  unfold main, bind.
  pose proof (constructor_enters_raw env (initial_state t0)) as Hc.
  destruct (constructor env (initial_state t0)) as [c s1].
  cbn [fst snd] in Hc.
  destruct c as [ | what | [code|]]; run_monad; try discriminate.
  destruct (Hc eq_refl) as (t & Ht & Ho & Hs).
  pose proof (run_untouched ws s1) as [Hr1 Hr2].
  destruct (run ws s1) as [st s2]. cbn [snd] in Hr1, Hr2.
  pose proof (cleanup_restores_once env s2) as Hcl.
  destruct st; run_monad; try discriminate;
    destruct (cleanup env s2) as [u s3]; cbn [fst snd] in *;
    intros _; exists t; (split; [exact Ht|]);
    rewrite Hcl, Hr1, Hr2, Hs, Ho; reflexivity.
Qed.

(** C2 (what the code does at the failing input): when [tcgetattr] and the
    [tcsetattr] that enters raw mode succeed and [forkpty] then fails, the
    constructor throws, [main] reports the start-up error and returns 1,
    and the only settings the run ever applied to the terminal are the raw
    ones: the original settings are never reapplied. *)
Theorem C2_fork_failure_leaves_terminal_raw :
  forall (t t0 slave : termios) (w : option winsize) (m : Z)
         (e restore_ok : bool) (ws : list Wakeup),
    let env :=
      {| tcgetattr_result := Some t;
         tcsetattr_raw_ok := true;
         winsize_result := w;
         forkpty_result :=
           {| fork_ret := -1; fork_master := m; slave_termios := slave;
              exec_ok := e |};
         tcsetattr_restore_ok := restore_ok |} in
    let r := main env ws (initial_state t0) in
    fst r = Returned 1 /\
    settings_applied (trace (snd r)) = [raw_termios t] /\
    trace (snd r)
    = [EvTcgetattr STDIN_FILENO true;
       EvTcsetattr STDIN_FILENO (raw_termios t) true;
       EvSigaction SIGWINCH; EvSigaction SIGINT; EvSigaction SIGTERM;
       EvGetWinsize STDIN_FILENO
         (match w with Some _ => true | None => false end);
       EvForkpty (match w with Some x => x | None => default_winsize end) (-1);
       EvCerr "Startup error: PTY fork failed: "] /\
    instance_ (snd r) = true.
Proof.
  intros t t0 slave w m e restore_ok ws env r. subst r env.
  unfold main, constructor, configureTerminal, setupSignalHandlers,
    initializePty, initial_state.
  cbn [tcgetattr_result tcsetattr_raw_ok winsize_result forkpty_result
       fork_ret fork_master slave_termios exec_ok].
  run_monad. cbn [Z.ltb Z.eqb Z.compare Pos.eqb]. run_monad.
  cbn [app settings_applied append].
  repeat split; reflexivity.
Qed.

(** ** Line editing: ordinary bytes, backspace, Ctrl-D, Ctrl-Z *)

Lemma waits_app (a b : list Event) : waits (a ++ b) = (waits a ++ waits b)%list.
Proof.
  induction a as [|e a IH]; [reflexivity|].
  destruct e; cbn; rewrite ?IH; reflexivity.
Qed.

Lemma waits_safeWrite_events tr fd buf : waits (safeWrite_events tr fd buf) = [].
Proof.
  unfold safeWrite_events.
  destruct (size buf <=? 0); [reflexivity|].
  destruct (write_all tr fd buf); reflexivity.
Qed.

Lemma closes_app (a b : list Event) :
  closes (a ++ b) = (closes a ++ closes b)%list.
Proof.
  induction a as [|e a IH]; [reflexivity|].
  destruct e; cbn; rewrite ?IH; reflexivity.
Qed.

Lemma closes_safeWrite_events tr fd buf :
  closes (safeWrite_events tr fd buf) = [].
Proof.
  unfold safeWrite_events.
  destruct (size buf <=? 0); [reflexivity|].
  destruct (write_all tr fd buf); reflexivity.
Qed.

Ltac events_simpl :=
  repeat first
    [ rewrite writes_app | rewrite kills_app | rewrite waits_app
    | rewrite closes_app | rewrite settings_applied_app
    | rewrite writes_safeWrite_events | rewrite kills_safeWrite_events
    | rewrite waits_safeWrite_events | rewrite closes_safeWrite_events
    | rewrite settings_applied_safeWrite_events
    | rewrite size_String | rewrite size_push_back | rewrite app_nil_r
    | progress eval_sizes
    | rewrite <- app_assoc
    | progress cbn [writes kills waits closes settings_applied app] ].

Lemma push_back_String s c :
  exists a r, push_back s c = String a r.
Proof.
  destruct s as [|a s]; [exists c, EmptyString | exists a, (push_back s c)];
    reflexivity.
Qed.

(** [pop_back] undoes [push_back]. *)
Lemma pop_back_push_back s c : pop_back (push_back s c) = s.
Proof.
  induction s as [|a s IH]; [reflexivity|].
  change (push_back (String a s) c) with (String a (push_back s c)).
  destruct (push_back_String s c) as (b & r & E).
  cbn [pop_back]. rewrite E. rewrite <- E. fold pop_back. rewrite IH.
  reflexivity.
Qed.

Lemma append_push_back (s rest : string) (c : ascii) :
  (push_back s c ++ rest)%string = (s ++ String c rest)%string.
Proof.
  unfold push_back. induction s as [|a s IH]; [reflexivity|].
  cbn [append]. rewrite IH. reflexivity.
Qed.

Lemma append_empty_r (s : string) : (s ++ EmptyString)%string = s.
Proof.
  induction s as [|a s IH]; [reflexivity|]. cbn [append]. rewrite IH.
  reflexivity.
Qed.

(** The seven tests an ordinary byte fails. *)
Ltac use_ordinary H :=
  unfold ordinary in H; apply Bool.negb_true_iff in H;
  repeat (let H' := fresh "Hc" in
          apply Bool.orb_false_elim in H; destruct H as [H H']);
  repeat match goal with
         | Hx : (_ =? _)%char = false |- _ => rewrite ?Hx; revert Hx
         end;
  intros.

(** What an ordinary byte does when no escape sequence is pending. *)
Lemma processInput_ordinary s c :
  ordinary c = true ->
  escape_sequence s = EmptyString ->
  let r := processInput c s in
  fst r = true /\
  input_buffer_ (snd r) = push_back (input_buffer_ s) c /\
  history_ (snd r) = history_ s /\
  history_index_ (snd r) = history_index_ s /\
  escape_sequence (snd r) = EmptyString /\
  master_fd_ (snd r) = master_fd_ s /\
  child_pid_ (snd r) = child_pid_ s /\
  is_running_ (snd r) = is_running_ s /\
  writes (trace (snd r))
  = (writes (trace s)
     ++ [(STDOUT_FILENO, String c EmptyString);
         (master_fd_ s, String c EmptyString)])%list /\
  kills (trace (snd r)) = kills (trace s).
Proof.
  intros Hord Hesc r. subst r.
  unfold processInput, handleEscapeSequence.
  use_ordinary Hord.
  run_monad. rewrite Hesc. run_monad. events_simpl.
  rewrite Hesc. repeat split; reflexivity.
Qed.

(** Backspace on an empty line buffer does nothing at all: no echo, no byte
    to the child, the state is as it was, whatever the accumulator holds. *)
Theorem backspace_on_empty_line_is_noop :
  forall s : State,
    input_buffer_ s = EmptyString ->
    processInput DEL s = (true, s).
Proof.
  intros s Hbuf. unfold processInput, handleBackspace. eval_chars.
  run_monad. rewrite Hbuf. reflexivity.
Qed.

(** What backspace does to a non-empty line. *)
Lemma processInput_backspace :
  forall s : State,
    input_buffer_ s <> EmptyString ->
    let r := processInput DEL s in
    fst r = true /\
    input_buffer_ (snd r) = pop_back (input_buffer_ s) /\
    size (input_buffer_ (snd r)) = size (input_buffer_ s) - 1 /\
    writes (trace (snd r))
    = (writes (trace s)
       ++ [(STDOUT_FILENO, str_erase); (master_fd_ s, str_backspace)])%list /\
    history_ (snd r) = history_ s /\
    history_index_ (snd r) = history_index_ s /\
    escape_sequence (snd r) = escape_sequence s /\
    is_running_ (snd r) = is_running_ s.
Proof.
  intros s Hne r. subst r.
  unfold processInput, handleBackspace. eval_chars. run_monad.
  destruct (input_buffer_ s) as [|a buf] eqn:Hbuf; [congruence|].
  run_monad. events_simpl.
  repeat split; try reflexivity.
  clear Hbuf Hne. revert a.
  induction buf as [|b buf IH]; intros a; [reflexivity|].
  change (pop_back (String a (String b buf)))
    with (String a (pop_back (String b buf))).
  unfold size in *. cbn [String.length] in *.
  specialize (IH b). lia.
Qed.

(** Backspace on a non-empty line removes its last character, erases it on
    the terminal with backspace-space-backspace and sends one backspace
    character (0x08, not the 0x7F that was typed) to the child. *)
Theorem backspace_erases_last_character :
  forall s : State,
    input_buffer_ s <> EmptyString ->
    let r := processInput DEL s in
    fst r = true /\
    input_buffer_ (snd r) = pop_back (input_buffer_ s) /\
    size (input_buffer_ (snd r)) = size (input_buffer_ s) - 1 /\
    writes (trace (snd r))
    = (writes (trace s)
       ++ [(STDOUT_FILENO, str_erase); (master_fd_ s, str_backspace)])%list /\
    history_ (snd r) = history_ s /\
    history_index_ (snd r) = history_index_ s /\
    escape_sequence (snd r) = escape_sequence s /\
    is_running_ (snd r) = is_running_ s.
Proof. exact processInput_backspace. Qed.

(** Typing an ordinary byte and then backspace gives back the line buffer,
    with history, cursor and accumulator untouched; the terminal saw the
    byte and its erasure, the child the byte and a backspace. *)
Theorem type_then_backspace_restores_line :
  forall (s : State) (c : ascii),
    ordinary c = true ->
    escape_sequence s = EmptyString ->
    let s1 := snd (processInput c s) in
    let s2 := snd (processInput DEL s1) in
    input_buffer_ s2 = input_buffer_ s /\
    history_ s2 = history_ s /\
    history_index_ s2 = history_index_ s /\
    escape_sequence s2 = EmptyString /\
    is_running_ s2 = is_running_ s /\
    writes (trace s2)
    = (writes (trace s)
       ++ [(STDOUT_FILENO, String c EmptyString);
           (master_fd_ s, String c EmptyString);
           (STDOUT_FILENO, str_erase);
           (master_fd_ s, str_backspace)])%list.
Proof.
  intros s c Hord Hesc s1 s2.
  destruct (processInput_ordinary s c Hord Hesc)
    as (_ & Hb & Hh & Hi & He & Hm & _ & Hr & Hw & _).
  fold s1 in Hb, Hh, Hi, He, Hm, Hr, Hw.
  assert (Hne : input_buffer_ s1 <> EmptyString).
  { rewrite Hb. destruct (push_back_String (input_buffer_ s) c) as (a & r & E).
    rewrite E. discriminate. }
  destruct (processInput_backspace s1 Hne)
    as (_ & Hb2 & _ & Hw2 & Hh2 & Hi2 & He2 & Hr2).
  fold s2 in Hb2, Hw2, Hh2, Hi2, He2, Hr2.
  rewrite Hb2, Hb, pop_back_push_back, Hh2, Hh, Hi2, Hi, He2, He, Hr2, Hr,
    Hw2, Hw, Hm, <- app_assoc.
  repeat split; reflexivity.
Qed.

(** A read that brings only ordinary bytes while no escape sequence is
    pending: the bytes are appended to the line buffer in order, each is
    echoed and then forwarded, one by one, and nothing else changes. *)
Theorem typing_ordinary_bytes :
  forall (data : string) (s : State),
    all_ordinary data = true ->
    escape_sequence s = EmptyString ->
    let s' := snd (processBytes data s) in
    input_buffer_ s' = (input_buffer_ s ++ data)%string /\
    writes (trace s')
    = (writes (trace s) ++ echo_forward (master_fd_ s) data)%list /\
    kills (trace s') = kills (trace s) /\
    history_ s' = history_ s /\
    history_index_ s' = history_index_ s /\
    escape_sequence s' = EmptyString /\
    master_fd_ s' = master_fd_ s /\
    child_pid_ s' = child_pid_ s /\
    is_running_ s' = is_running_ s.
Proof.
  induction data as [|c rest IH]; intros s Hall Hesc s'; subst s'.
  - cbn [processBytes echo_forward]. run_monad.
    rewrite append_empty_r, app_nil_r. repeat split; try reflexivity.
    exact Hesc.
  - cbn [all_ordinary] in Hall. apply andb_prop in Hall.
    destruct Hall as [Hc Hrest].
    destruct (processInput_ordinary s c Hc Hesc)
      as (Hok & Hb & Hh & Hi & He & Hm & Hp & Hr & Hw & Hk).
    cbn [processBytes]. unfold bind.
    destruct (processInput c s) as [ok s1]. cbn [fst snd] in *. subst ok.
    cbv iota.
    destruct (IH s1 Hrest He)
      as (Hb2 & Hw2 & Hk2 & Hh2 & Hi2 & He2 & Hm2 & Hp2 & Hr2).
    rewrite Hb2, Hw2, Hk2, Hh2, Hi2, He2, Hm2, Hp2, Hr2.
    rewrite Hb, Hw, Hk, Hh, Hi, Hm, Hp, Hr, append_push_back.
    cbn [echo_forward]. rewrite <- app_assoc.
    repeat split; reflexivity.
Qed.

(** Ctrl-D, in any state: the byte 0x04 is forwarded to the child, nothing
    is echoed or signalled, the running flag is cleared, and the bytes that
    follow it in the same read are never processed; line buffer, history,
    cursor and accumulator stay as they were. *)
Theorem ctrl_d_forwards_eof_and_stops :
  forall (s : State) (rest : string),
    let s' := snd (readUserInput (ReadBytes (String CTRL_D rest)) s) in
    processInput CTRL_D s
    = (false,
       set_is_running_ false
         (set_trace
            (trace s ++ safeWrite_events (trace s) (master_fd_ s)
                          (String CTRL_D EmptyString)) s)) /\
    is_running_ s' = false /\
    writes (trace s')
    = (writes (trace s) ++ [(master_fd_ s, String CTRL_D EmptyString)])%list /\
    kills (trace s') = kills (trace s) /\
    input_buffer_ s' = input_buffer_ s /\
    history_ s' = history_ s /\
    history_index_ s' = history_index_ s /\
    escape_sequence s' = escape_sequence s /\
    child_pid_ s' = child_pid_ s.
Proof.
  intros s rest s'. subst s'.
  assert (Hstep : processInput CTRL_D s
    = (false,
       set_is_running_ false
         (set_trace
            (trace s ++ safeWrite_events (trace s) (master_fd_ s)
                          (String CTRL_D EmptyString)) s))).
  { unfold processInput. eval_chars. run_monad. reflexivity. }
  split; [exact Hstep|].
  unfold readUserInput. cbn [bytes_read read_data]. rewrite size_String.
  cbn [processBytes]. unfold bind. rewrite Hstep.
  run_monad. events_simpl. repeat split; reflexivity.
Qed.

(** Ctrl-Z with a tracked child sends SIGTSTP to it and, unlike Ctrl-C,
    neither waits for it nor stops tracking it nor clears the running flag;
    [processInput] reports whether [kill] succeeded. *)
Theorem ctrl_z_suspends_child_and_keeps_session :
  forall s : State,
    0 < child_pid_ s ->
    let r := processInput CTRL_Z s in
    let k := sys_kill (trace s) (child_pid_ s) SIGTSTP in
    fst r = negb (k =? -1) /\
    kills (trace (snd r))
    = (kills (trace s) ++ [(child_pid_ s, SIGTSTP)])%list /\
    waits (trace (snd r)) = waits (trace s) /\
    writes (trace (snd r)) = writes (trace s) /\
    child_pid_ (snd r) = child_pid_ s /\
    is_running_ (snd r) = is_running_ s /\
    same_session_data s (snd r).
Proof.
  intros s Hpid r k. subst r k.
  unfold processInput, sendSignalToChild, kill, waitpid. eval_chars.
  run_monad.
  replace (child_pid_ s <=? 0) with false by (symmetry; apply Z.leb_gt; lia).
  run_monad.
  destruct (sys_kill (trace s) (child_pid_ s) SIGTSTP =? -1);
    cbn [Signal_eqb orb]; run_monad; events_simpl;
    repeat split; reflexivity.
Qed.

(** Without a tracked child (after Ctrl-C reaped it, say) Ctrl-C and Ctrl-Z
    do nothing: no signal, no output, the state is as it was. *)
Theorem control_signal_without_child_is_noop :
  forall (s : State) (c : ascii),
    child_pid_ s <= 0 ->
    c = CTRL_C \/ c = CTRL_Z ->
    processInput c s = (true, s).
Proof.
  intros s c Hpid [-> | ->];
    unfold processInput, sendSignalToChild; eval_chars; run_monad;
    replace (child_pid_ s <=? 0) with true by (symmetry; apply Z.leb_le; lia);
    reflexivity.
Qed.

(** ** A whole arrow-key sequence *)

(** ESC restarts the accumulator in every state and does nothing else. *)
Lemma processInput_escape_start s :
  processInput ESC s = (true, set_escape_sequence str_ESC s).
Proof.
  unfold processInput, handleEscapeSequence. eval_chars. run_monad.
  reflexivity.
Qed.

(** '[' after ESC: the accumulator becomes ESC '[', and since
    [handleEscapeSequence] reports the byte as not handled, it is also
    appended to the line buffer, echoed and forwarded. *)
Lemma processInput_lbracket_after_escape s :
  escape_sequence s = str_ESC ->
  let r := processInput LBRACKET s in
  fst r = true /\
  escape_sequence (snd r) = String ESC (String LBRACKET EmptyString) /\
  input_buffer_ (snd r) = push_back (input_buffer_ s) LBRACKET /\
  history_ (snd r) = history_ s /\
  history_index_ (snd r) = history_index_ s /\
  master_fd_ (snd r) = master_fd_ s /\
  child_pid_ (snd r) = child_pid_ s /\
  is_running_ (snd r) = is_running_ s /\
  writes (trace (snd r))
  = (writes (trace s)
     ++ [(STDOUT_FILENO, String LBRACKET EmptyString);
         (master_fd_ s, String LBRACKET EmptyString)])%list /\
  kills (trace (snd r)) = kills (trace s).
Proof.
  intros Hesc r. subst r.
  unfold processInput, handleEscapeSequence. eval_chars. run_monad.
  rewrite Hesc. unfold str_ESC. repeat (run_monad; simp_strings).
  eval_chars. run_monad. events_simpl.
  repeat split; reflexivity.
Qed.

(** The three bytes ESC '[' [c] read in one go, from any state and for any
    final byte that is not ESC and not one of the four control bytes: the
    accumulator ends empty; the child is sent '[' and then the three bytes
    ESC '[' [c]; the terminal shows '[' and then the redisplay, if the key
    recalls history.  When nothing is recalled the line buffer keeps the
    '[' that was appended on the way. *)
Theorem arrow_key_sequence_in_one_read :
  forall (s : State) (c : ascii),
    c <> ESC -> c <> CTRL_C -> c <> CTRL_Z -> c <> CTRL_D -> c <> DEL ->
    let seq := String ESC (String LBRACKET (String c EmptyString)) in
    let s3 := snd (processBytes seq s) in
    escape_sequence s3 = EmptyString /\
    writes (trace s3)
    = (writes (trace s)
       ++ [(STDOUT_FILENO, String LBRACKET EmptyString);
           (master_fd_ s, String LBRACKET EmptyString)]
       ++ (if redisplays c s then recall_echo (input_buffer_ s3) else [])
       ++ [(master_fd_ s, seq)])%list /\
    input_buffer_ s3
    = (if redisplays c s
       then if history_index_ s3 <? history_size s3
            then nth (Z.to_nat (history_index_ s3)) (history_ s) EmptyString
            else EmptyString
       else push_back (input_buffer_ s) LBRACKET) /\
    history_ s3 = history_ s /\
    kills (trace s3) = kills (trace s) /\
    is_running_ s3 = is_running_ s.
Proof.
  intros s c Hesc H3 H26 H4 H127 seq s3. subst seq s3.
  cbn [processBytes]. unfold bind.
  rewrite processInput_escape_start. cbv iota.
  set (s1 := set_escape_sequence str_ESC s).
  destruct (processInput_lbracket_after_escape s1 eq_refl)
    as (Hok & He2 & Hb2 & Hh2 & Hi2 & Hm2 & Hp2 & Hr2 & Hw2 & Hk2).
  destruct (processInput LBRACKET s1) as [ok s2]. cbn [fst snd] in *.
  subst ok. cbv iota.
  assert (Hlen : String.length (escape_sequence s2) = 2%nat)
    by (rewrite He2; reflexivity).
  assert (Hstep : processInput c s2 = (true, snd (handleEscapeSequence c s2))).
  { apply processInput_not_control; try assumption.
    rewrite handleEscapeSequence_third_byte by assumption. reflexivity. }
  rewrite Hstep. cbv iota. run_monad.
  rewrite handleEscapeSequence_third_byte by assumption.
  destruct (handleArrowKey_effect c s2) as (Hw3 & Hk3 & Hh3 & _ & _ & _ & Hr3).
  destruct (handleArrowKey_cursor c s2) as (_ & Hb3).
  assert (Hre : redisplays c s2 = redisplays c s)
    by (unfold redisplays; rewrite Hi2; reflexivity).
  rewrite Hre in Hw3, Hb3.
  run_monad. events_simpl.
  rewrite Hw3, Hk3, Hh3, Hr3, Hb3, Hw2, Hk2, Hh2, Hr2, Hb2, Hm2, He2.
  unfold s1. run_monad. rewrite Hh3, Hh2.
  cbn [push_back append]. events_simpl.
  repeat split; reflexivity.
Qed.

(** ** The history *)

Lemma handleEscapeSequence_history c s :
  history_ (snd (handleEscapeSequence c s)) = history_ s.
Proof.
  unfold handleEscapeSequence. run_monad.
  destruct (c =? ESC)%char; run_monad; [reflexivity|].
  destruct (empty (escape_sequence s)); run_monad; [reflexivity|].
  destruct ((size (push_back (escape_sequence s) c) =? 2)
            && negb (c =? LBRACKET)%char); run_monad; [reflexivity|].
  destruct (size (push_back (escape_sequence s) c) =? 3); run_monad;
    [|reflexivity].
  rewrite handleArrowKey_escape_frame. run_monad.
  destruct (handleArrowKey_effect
              (at_index (push_back (escape_sequence s) c) 2) s)
    as (_ & _ & Hh & _).
  exact Hh.
Qed.

Lemma handleEnter_history s :
  exists l,
    history_ (snd (handleEnter s)) = (history_ s ++ l)%list /\
    Forall submitted_line l.
Proof.
  unfold handleEnter. run_monad.
  destruct (String.eqb_spec (input_buffer_ s) str_exit) as [He | He];
    run_monad.
  - exists []. rewrite app_nil_r. split; [reflexivity | constructor].
  - destruct (input_buffer_ s) as [|a buf] eqn:Hbuf; run_monad.
    + exists []. rewrite app_nil_r. split; [reflexivity | constructor].
    + exists [String a buf]. split; [reflexivity|].
      constructor; [|constructor]. split; [discriminate | exact He].
Qed.

Lemma history_grows_lift (h0 : list string) :
  let P := fun s' : State =>
             exists l, history_ s' = (h0 ++ l)%list /\ Forall submitted_line l in
  session_data_only P /\
  (forall b s, P s -> P (set_input_buffer_ b s)) /\
  (forall c s, P s -> P (snd (handleEscapeSequence c s))) /\
  (forall s, P s -> P (snd (handleEnter s))).
Proof.
  intros P. subst P. repeat split.
  - intros s s' (_ & Hh & _) (l & Hl & Hf). exists l. rewrite Hh. auto.
  - intros b s H. exact H.
  - intros c s (l & Hl & Hf). exists l.
    rewrite handleEscapeSequence_history. auto.
  - intros s (l & Hl & Hf).
    destruct (handleEnter_history s) as (l2 & Hl2 & Hf2).
    exists (l ++ l2)%list. rewrite Hl2, Hl, app_assoc.
    split; [reflexivity|]. apply Forall_app. auto.
Qed.

(** The history is append-only and holds submitted lines only: one input
    byte, a whole session loop, and a whole run of the program each leave
    the old entries in place and add only lines that are neither empty nor
    the exit command. *)
Theorem history_is_append_only :
  (forall (s : State) (c : ascii),
      exists l, history_ (snd (processInput c s)) = (history_ s ++ l)%list /\
                Forall submitted_line l) /\
  (forall (ws : list Wakeup) (s : State),
      exists l, history_ (snd (run ws s)) = (history_ s ++ l)%list /\
                Forall submitted_line l) /\
  (forall (env : Startup) (ws : list Wakeup) (t : termios),
      Forall submitted_line (history_ (snd (main env ws (initial_state t))))).
Proof.
  split; [|split].
  - intros s c.
    destruct (history_grows_lift (history_ s)) as (H1 & H2 & H3 & H4).
    apply (processInput_preserves _ H1 H2 H3 H4).
    exists []. rewrite app_nil_r. split; [reflexivity | constructor].
  - intros ws s.
    destruct (history_grows_lift (history_ s)) as (H1 & H2 & H3 & H4).
    apply (run_preserves _ H1 H2 H3 H4).
    exists []. rewrite app_nil_r. split; [reflexivity | constructor].
  - intros env ws t.
    destruct (history_grows_lift []) as (H1 & H2 & H3 & H4).
    destruct (main_preserves _ H1 H2 H3 H4 env ws (initial_state t))
      as (l & Hl & Hf).
    + exists []. split; [reflexivity | constructor].
    + rewrite Hl. exact Hf.
Qed.

(** ** The loop *)

(** A session whose running flag is off reads no wake-up. *)
Lemma processIO_loop_stopped ws s :
  is_running_ s = false -> processIO_loop ws s = (LoopExited, s).
Proof.
  intros H. destruct ws; cbn [processIO_loop]; run_monad; rewrite H;
    reflexivity.
Qed.

(** How [processIO] ends tells the running flag: it has left its loop
    exactly when the flag is off; while it waits, or when [poll] failed,
    the flag is still on.  With the flag off no further wake-up is read. *)
Theorem loop_status_matches_running_flag :
  forall (ws : list Wakeup) (s : State),
    let r := processIO_loop ws s in
    (is_running_ s = false -> r = (LoopExited, s)) /\
    match fst r with
    | LoopExited => is_running_ (snd r) = false
    | LoopBlocked => is_running_ (snd r) = true
    | LoopThrew _ => is_running_ (snd r) = true
    end.
Proof.
  intros ws s r. subst r. split; [apply processIO_loop_stopped|].
  revert s. induction ws as [|w ws IH]; intros s.
  - cbn [processIO_loop]. run_monad.
    destruct (is_running_ s) eqn:Hrun; run_monad; exact Hrun.
  - cbn [processIO_loop]. run_monad.
    destruct (is_running_ s) eqn:Hrun; run_monad; [|exact Hrun].
    destruct w as [[|] | sig winsz | stdin_in master_in].
    + apply IH.
    + run_monad. exact Hrun.
    + destruct (handleSignal sig winsz s) as [u s1]. apply IH.
    + destruct (match stdin_in with
                | Some r => readUserInput r
                | None => fun s0 => (tt, s0)
                end s) as [u1 s1].
      destruct (match master_in with
                | Some r => readShellOutput r
                | None => fun s0 => (tt, s0)
                end s1) as [u2 s2].
      apply IH.
Qed.

(** What the child writes is copied to standard output as it was read, in
    one piece, and nothing else happens: the line being edited, the
    history, the cursor, the accumulator, the running flag and the child
    are untouched.  A read of zero or fewer bytes from the child is
    ignored. *)
Theorem shell_output_is_relayed_verbatim :
  forall (r : ReadResult) (s : State),
    let s' := snd (readShellOutput r s) in
    writes (trace s')
    = (writes (trace s)
       ++ (if 0 <? bytes_read r then [(STDOUT_FILENO, read_data r)] else []))%list /\
    kills (trace s') = kills (trace s) /\
    same_session_data s s' /\
    is_running_ s' = is_running_ s /\
    child_pid_ s' = child_pid_ s /\
    master_fd_ s' = master_fd_ s.
Proof.
  intros r s s'. subst s'. unfold readShellOutput, same_session_data.
  destruct (0 <? bytes_read r) eqn:Hn; run_monad.
  - events_simpl.
    replace (size (read_data r) <=? 0) with false.
    + repeat split; reflexivity.
    + symmetry. apply Z.leb_gt. apply Z.ltb_lt in Hn.
      destruct r; cbn [bytes_read read_data] in *; lia.
  - rewrite app_nil_r. repeat split; reflexivity.
Qed.

(** Wake-ups that bring no byte (interrupted waits, reads of zero or fewer
    bytes on the terminal side or on the child's side) change nothing and
    do not end the loop, however many there are: an end of stream on either
    descriptor leaves [processIO] waiting. *)
Theorem idle_wakeups_keep_loop_waiting :
  forall (ws : list Wakeup) (s : State),
    forallb idle ws = true ->
    processIO ws s = (LoopBlocked, set_is_running_ true s).
Proof.
  intros ws s Hidle. unfold processIO. run_monad.
  assert (Hrun : is_running_ (set_is_running_ true s) = true) by reflexivity.
  generalize dependent (set_is_running_ true s). clear s.
  induction ws as [|w ws IH]; intros s Hrun; cbn [processIO_loop]; run_monad;
    rewrite Hrun; run_monad; [reflexivity|].
  cbn [forallb] in Hidle. apply andb_prop in Hidle.
  destruct Hidle as [Hw Hws].
  destruct w as [[|] | sig winsz | stdin_in master_in]; try discriminate Hw.
  - apply IH; assumption.
  - cbn [idle] in Hw. apply andb_prop in Hw. destruct Hw as [Ha Hb].
    destruct stdin_in as [ra|]; destruct master_in as [rb|];
      cbn [no_bytes] in Ha, Hb; unfold readUserInput, readShellOutput;
      rewrite ?Ha; run_monad;
      try (replace (0 <? bytes_read rb) with false
             by (symmetry; apply Z.ltb_ge; apply Z.leb_le; exact Hb));
      run_monad; apply IH; assumption.
Qed.

(** Interrupted waits are invisible: dropping every [EINTR] return of
    [poll] from the wake-ups changes neither how [processIO] ends nor the
    state it ends in. *)
Theorem interrupted_waits_are_retried :
  forall (ws : list Wakeup) (s : State),
    processIO (filter (fun w => negb (is_eintr w)) ws) s = processIO ws s.
Proof.
  intros ws s. unfold processIO. run_monad.
  generalize (set_is_running_ true s). clear s.
  induction ws as [|w ws IH]; intros s; [reflexivity|].
  destruct (is_running_ s) eqn:Hrun;
    [|rewrite !processIO_loop_stopped by exact Hrun; reflexivity].
  destruct w as [[|] | sig winsz | stdin_in master_in];
    cbn [filter is_eintr negb].
  - rewrite IH. cbn [processIO_loop]. run_monad. rewrite Hrun. reflexivity.
  - cbn [processIO_loop]. run_monad. rewrite Hrun. reflexivity.
  - cbn [processIO_loop]. run_monad. rewrite Hrun. run_monad.
    destruct (handleSignal sig winsz s) as [u s1]. apply IH.
  - cbn [processIO_loop]. run_monad. rewrite Hrun. run_monad.
    destruct (match stdin_in with
              | Some r => readUserInput r
              | None => fun s0 => (tt, s0)
              end s) as [u1 s1].
    destruct (match master_in with
              | Some r => readShellOutput r
              | None => fun s0 => (tt, s0)
              end s1) as [u2 s2].
    apply IH.
Qed.

(** ** What a session asks of the operating system *)

Lemma session_step_refl s : session_step s s.
Proof.
  repeat split. exists []. rewrite app_nil_r.
  split; [reflexivity|]. split; [constructor|]. left. split; reflexivity.
Qed.

Lemma session_event_untracked m p e :
  session_event m (-1) e -> session_event m p e.
Proof. destruct e; cbn; try tauto; intros [_ H]; lia. Qed.

Lemma session_step_trans s1 s2 s3 :
  session_step s1 s2 -> session_step s2 s3 -> session_step s1 s3.
Proof.
  intros (A1 & A2 & A3 & es1 & At & Af & Ac)
         (B1 & B2 & B3 & es2 & Bt & Bf & Bc).
  split; [congruence|]. split; [congruence|]. split; [congruence|].
  exists (es1 ++ es2)%list.
  split; [rewrite Bt, At, app_assoc; reflexivity|].
  rewrite A2 in Bf.
  destruct Ac as [(Ap & Aw) | (Apos & Ap & Aw)].
  - rewrite Ap in Bf, Bc. split; [apply Forall_app; auto|].
    rewrite waits_app, Aw. cbn [app].
    destruct Bc as [(Bp & Bw) | (Bpos & Bp & Bw)]; [left | right]; auto.
  - rewrite Ap in Bf, Bc. split.
    + apply Forall_app. split; [exact Af|].
      eapply Forall_impl; [|exact Bf].
      intros e. apply session_event_untracked.
    + destruct Bc as [(Bp & Bw) | (Bpos & _)]; [|lia].
      right. rewrite waits_app, Aw, Bw. repeat split; congruence.
Qed.

Lemma Forall_session_safeWrite_events m p tr fd buf :
  fd = STDOUT_FILENO \/ fd = m ->
  Forall (session_event m p) (safeWrite_events tr fd buf).
Proof.
  intros Hfd. unfold safeWrite_events.
  destruct (size buf <=? 0); [constructor|].
  destruct (write_all tr fd buf).
  - apply Forall_cons; [exact Hfd | apply Forall_nil].
  - apply Forall_cons; [exact Hfd|].
    apply Forall_cons; [exact I | apply Forall_nil].
Qed.

Ltac session_events :=
  repeat (apply Forall_app; split);
  repeat first
    [ apply Forall_nil
    | apply Forall_session_safeWrite_events; (left + right); reflexivity
    | apply Forall_cons; [cbn [session_event]; auto|] ].

(** A stretch of straight-line code that neither waits for the child nor
    stops tracking it. *)
Ltac stepped :=
  unfold session_step; run_monad;
  split; [reflexivity|]; split; [reflexivity|]; split; [reflexivity|];
  rewrite <- ?app_assoc;
  first [ exists []; split; [rewrite app_nil_r; reflexivity|]
        | eexists; split; [reflexivity|] ];
  (split; [session_events | left; split; [reflexivity | events_simpl; reflexivity]]).

Lemma handleArrowKey_step c s : session_step s (snd (handleArrowKey c s)).
Proof.
  unfold handleArrowKey, displayHistoryEntry, clearLine. run_monad.
  destruct ((c =? "A")%char && (0 <? history_index_ s)); run_monad;
    [stepped|].
  destruct (c =? "B")%char; run_monad; [|stepped].
  destruct (size_t_wrap (history_index_ s + 1)
            <? Z.of_nat (Datatypes.length (history_ s)));
    stepped.
Qed.

Lemma handleEscapeSequence_step c s :
  session_step s (snd (handleEscapeSequence c s)).
Proof.
  unfold handleEscapeSequence. run_monad.
  destruct (c =? ESC)%char; run_monad; [stepped|].
  destruct (empty (escape_sequence s)); run_monad; [stepped|].
  destruct ((size (push_back (escape_sequence s) c) =? 2)
            && negb (c =? LBRACKET)%char); run_monad; [stepped|].
  destruct (size (push_back (escape_sequence s) c) =? 3); run_monad;
    [|stepped].
  rewrite handleArrowKey_escape_frame. run_monad.
  set (c3 := at_index (push_back (escape_sequence s) c) 2).
  apply (session_step_trans s (snd (handleArrowKey c3 s)));
    [apply handleArrowKey_step|].
  generalize (snd (handleArrowKey c3 s)).
  intros s1. stepped.
Qed.

Lemma handleEnter_step s : session_step s (snd (handleEnter s)).
Proof.
  unfold handleEnter. run_monad.
  destruct (input_buffer_ s =? str_exit)%string; run_monad; [stepped|].
  destruct (empty (input_buffer_ s)); stepped.
Qed.

Lemma sendSignalToChild_step sig s :
  session_step s (snd (sendSignalToChild sig s)).
Proof.
  unfold sendSignalToChild, kill, waitpid. run_monad.
  destruct (child_pid_ s <=? 0) eqn:Hpid; run_monad; [stepped|].
  apply Z.leb_gt in Hpid.
  destruct (sys_kill (trace s) (child_pid_ s) sig =? -1); run_monad;
    [stepped|].
  destruct (Signal_eqb sig SIGINT || Signal_eqb sig SIGTERM
            || Signal_eqb sig SIGKILL); [|stepped].
  unfold session_step. run_monad.
  split; [reflexivity|]. split; [reflexivity|]. split; [reflexivity|].
  rewrite <- ?app_assoc. eexists. split; [reflexivity|].
  split; [session_events|].
  right. split; [exact Hpid|]. split; [reflexivity|].
  events_simpl. reflexivity.
Qed.

Lemma processInput_step c s : session_step s (snd (processInput c s)).
Proof.
  unfold processInput.
  destruct (c =? CTRL_C)%char; [apply sendSignalToChild_step|].
  destruct (c =? CTRL_Z)%char; [apply sendSignalToChild_step|].
  destruct (c =? CTRL_D)%char; [stepped|].
  destruct (c =? DEL)%char.
  { unfold handleBackspace. run_monad.
    destruct (empty (input_buffer_ s)); stepped. }
  unfold bind at 1.
  pose proof (handleEscapeSequence_step c s) as H.
  destruct (handleEscapeSequence c s) as [handled s2]. cbn [snd] in H.
  destruct handled; [exact H|].
  eapply session_step_trans; [exact H|].
  destruct ((c =? CR)%char || (c =? LF)%char);
    [apply handleEnter_step | stepped].
Qed.

Lemma processBytes_step data :
  forall s, session_step s (snd (processBytes data s)).
Proof.
  induction data as [|c rest IH]; intros s; [apply session_step_refl|].
  cbn [processBytes]. unfold bind at 1.
  pose proof (processInput_step c s) as H.
  destruct (processInput c s) as [ok s2]. cbn [snd] in H.
  eapply session_step_trans; [exact H|].
  destruct ok; [apply IH | stepped].
Qed.

Lemma handleSignal_step sig winsz s :
  session_step s (snd (handleSignal sig winsz s)).
Proof.
  unfold handleSignal, resizePty, kill. run_monad.
  destruct (instance_ s); run_monad; [|stepped].
  destruct (Signal_eqb sig SIGWINCH); [destruct winsz; stepped|].
  destruct (Signal_eqb sig SIGINT || Signal_eqb sig SIGTERM); [|stepped].
  run_monad. destruct (0 <? child_pid_ s) eqn:Hpid; [|stepped].
  apply Z.ltb_lt in Hpid. stepped.
Qed.

Lemma processIO_loop_step ws :
  forall s, session_step s (snd (processIO_loop ws s)).
Proof.
  induction ws as [|w ws IH]; intros s; cbn [processIO_loop]; run_monad;
    (destruct (is_running_ s); run_monad; [|apply session_step_refl]).
  - apply session_step_refl.
  - destruct w as [[|] | sig winsz | stdin_in master_in].
    + apply IH.
    + apply session_step_refl.
    + pose proof (handleSignal_step sig winsz s) as H.
      destruct (handleSignal sig winsz s) as [u s1]. cbn [snd] in H.
      eapply session_step_trans; [exact H | apply IH].
    + assert (H1 : session_step s
                     (snd (match stdin_in with
                           | Some r => readUserInput r
                           | None => fun s0 => (tt, s0)
                           end s))).
      { destruct stdin_in as [r|]; [|apply session_step_refl].
        unfold readUserInput.
        destruct (bytes_read r <=? 0);
          [apply session_step_refl | apply processBytes_step]. }
      destruct (match stdin_in with
                | Some r => readUserInput r
                | None => fun s0 => (tt, s0)
                end s) as [u1 s1].
      cbn [snd] in H1.
      assert (H2 : session_step s1
                     (snd (match master_in with
                           | Some r => readShellOutput r
                           | None => fun s0 => (tt, s0)
                           end s1))).
      { destruct master_in as [r|]; [|apply session_step_refl].
        unfold readShellOutput.
        destruct (0 <? bytes_read r); stepped. }
      destruct (match master_in with
                | Some r => readShellOutput r
                | None => fun s0 => (tt, s0)
                end s1) as [u2 s2].
      cbn [snd] in H2.
      eapply session_step_trans; [exact H1|].
      eapply session_step_trans; [exact H2 | apply IH].
Qed.

Lemma run_step ws s : session_step s (snd (run ws s)).
Proof.
  unfold run, processIO. run_monad.
  apply (session_step_trans s (set_is_running_ true s)); [stepped|].
  pose proof (processIO_loop_step ws (set_is_running_ true s)) as H.
  destruct (processIO_loop ws (set_is_running_ true s)) as [st s1].
  cbn [snd] in H.
  destruct st; run_monad; try exact H.
  eapply session_step_trans; [exact H|]. stepped.
Qed.

(** ** Whole runs: whom the program signals, waits for and writes to *)

Lemma session_events_project m p es :
  Forall (session_event m p) es ->
  Forall (fun k => fst k = p /\ 0 < p) (kills es) /\
  Forall (fun x => x = p /\ 0 < p) (waits es) /\
  Forall (fun w => fst w = STDOUT_FILENO \/ fst w = m) (writes es) /\
  closes es = [] /\
  settings_applied es = [].
Proof.
  induction 1 as [|e es He Hes (IHk & IHw & IHr & IHc & IHs)].
  - repeat split; constructor.
  - destruct e; cbn [session_event] in He; try contradiction;
      cbn [kills waits writes closes settings_applied];
      repeat split; try assumption; constructor; assumption.
Qed.

(** What the constructor leaves behind: no write, signal, wait or close;
    when it completes, the child's pid and the master descriptor as
    [forkpty] gave them. *)
Lemma constructor_effect env s :
  let r := constructor env s in
  writes (trace (snd r)) = writes (trace s) /\
  kills (trace (snd r)) = kills (trace s) /\
  waits (trace (snd r)) = waits (trace s) /\
  closes (trace (snd r)) = closes (trace s) /\
  (fst r = Normal ->
   child_pid_ (snd r) = fork_ret (forkpty_result env) /\
   fork_ret (forkpty_result env) <> -1 /\
   fork_ret (forkpty_result env) <> 0 /\
   master_fd_ (snd r)
   = (if 0 <? fork_ret (forkpty_result env)
      then fork_master (forkpty_result env) else master_fd_ s)).
Proof.
  unfold constructor, configureTerminal, setupSignalHandlers, initializePty.
  destruct (tcgetattr_result env) as [t|]; run_monad;
    [|events_simpl; repeat split; try reflexivity; discriminate].
  destruct (tcsetattr_raw_ok env); run_monad;
    [|events_simpl; repeat split; try reflexivity; discriminate].
  destruct (0 <? fork_ret (forkpty_result env)) eqn:Hpos; run_monad;
    (destruct (Z.eqb_spec (fork_ret (forkpty_result env)) (-1)); run_monad;
     [events_simpl; repeat split; try reflexivity; discriminate|]);
    (destruct (Z.eqb_spec (fork_ret (forkpty_result env)) 0); run_monad;
     [destruct (exec_ok (forkpty_result env)); run_monad; events_simpl;
      repeat split; try reflexivity; discriminate|]);
    events_simpl; repeat split; try reflexivity; assumption.
Qed.

(** What [cleanup] asks for: the master descriptor is closed if one is
    held, the child is sent SIGTERM and waited for if one is tracked, and
    afterwards neither is held or tracked and no handler is registered. *)
Lemma cleanup_effect env s :
  let s' := snd (cleanup env s) in
  closes (trace s')
  = (closes (trace s)
     ++ (if master_fd_ s =? -1 then [] else [master_fd_ s]))%list /\
  kills (trace s')
  = (kills (trace s)
     ++ (if 0 <? child_pid_ s then [(child_pid_ s, SIGTERM)] else []))%list /\
  waits (trace s')
  = (waits (trace s)
     ++ (if 0 <? child_pid_ s then [child_pid_ s] else []))%list /\
  writes (trace s') = writes (trace s) /\
  master_fd_ s' = -1 /\
  (0 < child_pid_ s -> child_pid_ s' = -1) /\
  (child_pid_ s <= 0 -> child_pid_ s' = child_pid_ s) /\
  instance_ s' = false /\
  original_termios_ s' = original_termios_ s.
Proof.
  unfold cleanup, restoreTerminal, kill, waitpid. run_monad.
  destruct (Z.eqb_spec (master_fd_ s) (-1)) as [Hm | Hm]; run_monad;
    (destruct (0 <? child_pid_ s) eqn:Hp; run_monad;
     [apply Z.ltb_lt in Hp | apply Z.ltb_ge in Hp]);
    (destruct (tcsetattr_restore_ok env); run_monad; events_simpl;
     repeat split; intros; try reflexivity; try assumption; try lia).
Qed.

Ltac summary_goal :=
  match goal with
  | |- Forall _ _ => assumption
  | |- (_ <= _)%nat => cbn [Datatypes.length]; lia
  | |- _ = _ => reflexivity
  | |- Forall _ (_ ++ _) => apply Forall_app; split; summary_goal
  | |- Forall _ [] => apply Forall_nil
  | |- Forall _ (_ :: _) =>
      apply Forall_cons; [cbn [fst]; auto | summary_goal]
  | |- Forall _ _ => assumption
  end.

(** The signals, waits, writes and closes of a whole run. *)
Lemma main_trace_summary env ws t0 :
  let r := main env ws (initial_state t0) in
  let tr := trace (snd r) in
  let pid := fork_ret (forkpty_result env) in
  let m := if 0 <? pid then fork_master (forkpty_result env) else -1 in
  Forall (fun k => fst k = pid /\ 0 < pid) (kills tr) /\
  Forall (fun x => x = pid /\ 0 < pid) (waits tr) /\
  (List.length (waits tr) <= 1)%nat /\
  Forall (fun w => fst w = STDOUT_FILENO \/ fst w = m) (writes tr) /\
  Forall (fun fd => fd = m) (closes tr) /\
  (List.length (closes tr) <= 1)%nat /\
  (pid = -1 \/ pid = 0 -> writes tr = []) /\
  (fst r = Returned 0 ->
   pid <> -1 /\ pid <> 0 /\
   waits tr = (if 0 <? pid then [pid] else []) /\
   closes tr = (if m =? -1 then [] else [m])).
Proof.
  intros r tr pid m. subst r tr. unfold main, bind.
  pose proof (constructor_effect env (initial_state t0))
    as (Cw & Ck & Cwt & Cc & Cn).
  destruct (constructor env (initial_state t0)) as [c s1].
  cbn [fst snd initial_state trace writes kills waits closes master_fd_]
    in Cw, Ck, Cwt, Cc, Cn.
  destruct c as [ | what | [code|]].
  2:{ run_monad. events_simpl. rewrite Cw, Ck, Cwt, Cc. cbn.
      repeat split; try constructor; try lia; discriminate. }
  2:{ run_monad. rewrite Cw, Ck, Cwt, Cc. cbn.
      repeat split; try constructor; try lia; discriminate. }
  2:{ run_monad. rewrite Cw, Ck, Cwt, Cc. cbn.
      repeat split; try constructor; try lia; discriminate. }
  destruct (Cn eq_refl) as (Hp & Hn1 & Hn0 & Hm). fold pid in Hp, Hm, Hn1, Hn0.
  fold m in Hm.
  pose proof (run_step ws s1) as (_ & Rm & _ & es & Rt & Rf & Rc).
  destruct (run ws s1) as [st s2]. cbn [snd] in Rm, Rt, Rc.
  rewrite Hp, Hm in Rf. rewrite Hp in Rc. rewrite Hm in Rm.
  destruct (session_events_project _ _ _ Rf) as (Pk & Pw & Pr & Pc & _).
  assert (Tk : kills (trace s2) = kills es)
    by (rewrite Rt, kills_app, Ck; reflexivity).
  assert (Tw : waits (trace s2) = waits es)
    by (rewrite Rt, waits_app, Cwt; reflexivity).
  assert (Tr : writes (trace s2) = writes es)
    by (rewrite Rt, writes_app, Cw; reflexivity).
  assert (Tc : closes (trace s2) = [])
    by (rewrite Rt, closes_app, Cc, Pc; reflexivity).
  assert (Hblocked :
            Forall (fun k => fst k = pid /\ 0 < pid) (kills (trace s2)) /\
            Forall (fun x => x = pid /\ 0 < pid) (waits (trace s2)) /\
            (List.length (waits (trace s2)) <= 1)%nat /\
            Forall (fun w => fst w = STDOUT_FILENO \/ fst w = m)
              (writes (trace s2)) /\
            Forall (fun fd => fd = m) (closes (trace s2)) /\
            (List.length (closes (trace s2)) <= 1)%nat /\
            (pid = -1 \/ pid = 0 -> writes (trace s2) = [])).
  { rewrite Tk, Tw, Tr, Tc.
    destruct Rc as [(_ & Rw) | (_ & _ & Rw)]; rewrite Rw in *;
      repeat split; try summary_goal; intros [Hx | Hx]; contradiction. }
  assert (Hdone :
            forall s3, s3 = snd (cleanup env s2) ->
            Forall (fun k => fst k = pid /\ 0 < pid) (kills (trace s3)) /\
            Forall (fun x => x = pid /\ 0 < pid) (waits (trace s3)) /\
            (List.length (waits (trace s3)) <= 1)%nat /\
            Forall (fun w => fst w = STDOUT_FILENO \/ fst w = m)
              (writes (trace s3)) /\
            Forall (fun fd => fd = m) (closes (trace s3)) /\
            (List.length (closes (trace s3)) <= 1)%nat /\
            (pid = -1 \/ pid = 0 -> writes (trace s3) = []) /\
            pid <> -1 /\ pid <> 0 /\
            waits (trace s3) = (if 0 <? pid then [pid] else []) /\
            closes (trace s3) = (if m =? -1 then [] else [m])).
  { intros s3 ->.
    destruct (cleanup_effect env s2) as (Lc & Lk & Lw & Lr & _).
    rewrite Lc, Lk, Lw, Lr, Tk, Tw, Tr, Tc, Rm. cbn [app].
    destruct Rc as [(Rp & Rw) | (Rpos & Rp & Rw)]; rewrite Rp, Rw.
    - cbn [app]. destruct (0 <? pid) eqn:Hpos;
        [apply Z.ltb_lt in Hpos|]; destruct (m =? -1);
        repeat split; try summary_goal; try assumption;
        intros [Hx | Hx]; contradiction.
    - replace (0 <? pid) with true by (symmetry; apply Z.ltb_lt; exact Rpos).
      cbn [Z.ltb Z.compare app]. destruct (m =? -1);
        repeat split; try summary_goal; try assumption;
        intros [Hx | Hx]; contradiction. }
  destruct Hblocked as (B1 & B2 & B3 & B4 & B5 & B6 & B7).
  destruct st; cbv iota.
  - destruct (cleanup env s2) as [u s3] eqn:Hcl.
    destruct (Hdone s3)
      as (D1 & D2 & D3 & D4 & D5 & D6 & D7 & D8 & D9 & D10 & D11);
      [reflexivity|].
    cbn [fst snd]. repeat split; assumption.
  - destruct (cleanup env s2) as [u s3] eqn:Hcl.
    destruct (Hdone s3)
      as (D1 & D2 & D3 & D4 & D5 & D6 & D7 & D8 & D9 & D10 & D11);
      [reflexivity|].
    cbn [fst snd]. repeat split; assumption.
  - cbn [fst snd]. repeat split; try assumption; discriminate.
Qed.

(** Over a whole run of the program, whatever the start-up results, the
    wake-ups and the answers of the operating system: every signal sent
    and every wait goes to the pid that [forkpty] returned, which is then
    positive (never to pid 0 or -1, which would address process groups or
    every process), and the child is waited for at most once. *)
Theorem every_signal_and_wait_targets_the_child :
  forall (env : Startup) (ws : list Wakeup) (t0 : termios),
    let tr := trace (snd (main env ws (initial_state t0))) in
    let pid := fork_ret (forkpty_result env) in
    Forall (fun k => fst k = pid /\ 0 < pid) (kills tr) /\
    Forall (fun x => x = pid /\ 0 < pid) (waits tr) /\
    (List.length (waits tr) <= 1)%nat.
Proof.
  intros env ws t0 tr pid.
  destruct (main_trace_summary env ws t0) as (H1 & H2 & H3 & _).
  repeat split; assumption.
Qed.

(** With [forkpty] returning -1 or more, as it does, every [safeWrite] of
    a whole run goes to standard output or to the master descriptor that
    [forkpty] stored, and at most one descriptor, that one, is closed. *)
Theorem writes_target_terminal_or_master :
  forall (env : Startup) (ws : list Wakeup) (t0 : termios),
    -1 <= fork_ret (forkpty_result env) ->
    let tr := trace (snd (main env ws (initial_state t0))) in
    Forall (fun w => fst w = STDOUT_FILENO
                     \/ fst w = fork_master (forkpty_result env))
      (writes tr) /\
    Forall (fun fd => fd = fork_master (forkpty_result env) \/ fd = -1)
      (closes tr) /\
    (List.length (closes tr) <= 1)%nat.
Proof.
  intros env ws t0 Hret tr.
  destruct (main_trace_summary env ws t0)
    as (_ & _ & _ & Hw & Hc & Hl & He & _).
  fold tr in Hw, Hc, Hl, He.
  destruct (0 <? fork_ret (forkpty_result env)) eqn:Hpos.
  - repeat split; try assumption.
    eapply Forall_impl; [|exact Hc]. intros fd ->. left. reflexivity.
  - apply Z.ltb_ge in Hpos. rewrite He by lia.
    repeat split; try assumption; [constructor|].
    eapply Forall_impl; [|exact Hc]. intros fd ->. right. reflexivity.
Qed.

(** A run that returns 0 has released each resource exactly once: the
    master descriptor is closed once, the child is waited for once, and
    the terminal settings applied are the raw ones and then the original
    ones, whichever way the session ended. *)
Theorem completed_run_releases_each_resource_once :
  forall (env : Startup) (ws : list Wakeup) (t0 : termios),
    -1 <= fork_ret (forkpty_result env) ->
    fork_master (forkpty_result env) <> -1 ->
    fst (main env ws (initial_state t0)) = Returned 0 ->
    let tr := trace (snd (main env ws (initial_state t0))) in
    0 < fork_ret (forkpty_result env) /\
    waits tr = [fork_ret (forkpty_result env)] /\
    closes tr = [fork_master (forkpty_result env)] /\
    exists t, tcgetattr_result env = Some t /\
              settings_applied tr = [raw_termios t; t].
Proof.
  intros env ws t0 Hret Hm Hdone tr.
  destruct (main_trace_summary env ws t0)
    as (_ & _ & _ & _ & _ & _ & _ & Hz).
  destruct (Hz Hdone) as (Hn1 & Hn0 & Hw & Hc). fold tr in Hw, Hc.
  assert (Hpos : 0 < fork_ret (forkpty_result env)) by lia.
  apply Z.ltb_lt in Hpos. rewrite Hpos in Hw, Hc.
  apply Z.eqb_neq in Hm. rewrite Hm in Hc.
  apply Z.ltb_lt in Hpos.
  repeat split; try assumption.
  apply main_restores_once_after_session. exact Hdone.
Qed.

(** ** Start-up, exit codes, the child's side, shutdown *)

(** How the constructor ends, as the start-up results decide it. *)
Lemma constructor_completion env s :
  fst (constructor env s)
  = match tcgetattr_result env with
    | None => Throw "Failed to get terminal attributes: "
    | Some _ =>
        if tcsetattr_raw_ok env then
          if fork_ret (forkpty_result env) =? -1 then Throw "PTY fork failed: "
          else if fork_ret (forkpty_result env) =? 0 then
            if exec_ok (forkpty_result env) then ProcessGone None
            else ProcessGone (Some 1)
          else Normal
        else Throw "Failed to set raw mode: "
    end.
Proof.
  unfold constructor, configureTerminal, setupSignalHandlers, initializePty.
  destruct (tcgetattr_result env) as [t|]; run_monad; [|reflexivity].
  destruct (tcsetattr_raw_ok env); run_monad; [|reflexivity].
  destruct (0 <? fork_ret (forkpty_result env)); run_monad;
    (destruct (fork_ret (forkpty_result env) =? -1); run_monad;
     [reflexivity|]);
    (destruct (fork_ret (forkpty_result env) =? 0); run_monad;
     [|reflexivity]);
    destruct (exec_ok (forkpty_result env)); reflexivity.
Qed.

(** The exit code: [main] returns 1 exactly when start-up failed, that is
    when [tcgetattr] failed, or the [tcsetattr] entering raw mode failed,
    or [forkpty] returned -1; it returns nothing but 0 or 1, and 0 also
    after a fatal [poll] error; only the forked child whose [execlp]
    failed exits, with code 1. *)
Theorem main_exit_code :
  forall (env : Startup) (ws : list Wakeup) (t0 : termios),
    let o := fst (main env ws (initial_state t0)) in
    (o = Returned 1 <->
     tcgetattr_result env = None \/
     tcsetattr_raw_ok env = false \/
     fork_ret (forkpty_result env) = -1) /\
    (forall c, o = Returned c -> c = 0 \/ c = 1) /\
    (forall c, o = Exited c ->
               c = 1 /\ fork_ret (forkpty_result env) = 0 /\
               exec_ok (forkpty_result env) = false) /\
    (o = Replaced ->
     fork_ret (forkpty_result env) = 0 /\
     exec_ok (forkpty_result env) = true).
Proof.
  intros env ws t0 o. subst o. unfold main, bind.
  pose proof (constructor_completion env (initial_state t0)) as Hc.
  destruct (constructor env (initial_state t0)) as [c s1]. cbn [fst] in Hc.
  destruct (tcgetattr_result env) as [t|] eqn:Hget.
  2:{ subst c. run_monad.
      repeat split; intros; try discriminate; auto.
      match goal with H : Returned _ = Returned _ |- _ => inversion H end.
      auto. }
  destruct (tcsetattr_raw_ok env) eqn:Hraw.
  2:{ subst c. run_monad.
      repeat split; intros; try discriminate; auto.
      match goal with H : Returned _ = Returned _ |- _ => inversion H end.
      auto. }
  destruct (Z.eqb_spec (fork_ret (forkpty_result env)) (-1)) as [Hf | Hf].
  { subst c. run_monad.
    repeat split; intros; try discriminate; auto.
    match goal with H : Returned _ = Returned _ |- _ => inversion H end.
    auto. }
  destruct (Z.eqb_spec (fork_ret (forkpty_result env)) 0) as [Hz | Hz].
  { destruct (exec_ok (forkpty_result env)) eqn:He; subst c; run_monad.
    - repeat split; intros; try discriminate; auto.
      destruct H as [H | [H | H]]; try discriminate; contradiction.
    - repeat split; intros; try discriminate; auto.
      + destruct H as [H | [H | H]]; try discriminate; contradiction.
      + inversion H. reflexivity. }
  subst c.
  destruct (run ws s1) as [st s2].
  destruct st; cbv iota; try destruct (cleanup env s2) as [u s3];
    cbn [fst]; repeat split; intros; try discriminate;
    try (destruct H as [H | [H | H]]; try discriminate; contradiction);
    try (inversion H; auto).
Qed.

(** A failure to read or to set the terminal attributes ends the program
    before anything else is touched: only the failing call and the
    diagnostic are in the trace, no handler is installed, no PTY is
    forked, and when it was [tcgetattr] that failed no settings were
    applied at all. *)
Theorem terminal_configuration_failure_stops_startup :
  forall (env : Startup) (ws : list Wakeup) (s : State),
    (tcgetattr_result env = None ->
     main env ws s
     = (Returned 1,
        set_trace
          (trace s
           ++ [EvTcgetattr STDIN_FILENO false;
               EvCerr "Startup error: Failed to get terminal attributes: "])
          s)) /\
    (forall t,
        tcgetattr_result env = Some t ->
        tcsetattr_raw_ok env = false ->
        main env ws s
        = (Returned 1,
           set_trace
             (trace s
              ++ [EvTcgetattr STDIN_FILENO true;
                  EvTcsetattr STDIN_FILENO (raw_termios t) false;
                  EvCerr "Startup error: Failed to set raw mode: "])
             (set_original_termios_ t s))).
Proof.
  intros env ws s. split.
  - intros Hget. unfold main, constructor, configureTerminal.
    rewrite Hget. run_monad. rewrite <- app_assoc. reflexivity.
  - intros t Hget Hraw. unfold main, constructor, configureTerminal.
    rewrite Hget, Hraw. run_monad.
    rewrite <- !app_assoc. reflexivity.
Qed.

(** In the forked child (where [forkpty] returned 0) the program clears
    ECHO on the slave side and executes bash; it reads no wake-up, sends
    no signal, waits for nothing, closes nothing and does not put the
    original settings back; when [execlp] fails it exits with code 1. *)
Theorem forked_child_only_executes_the_shell :
  forall (env : Startup) (ws : list Wakeup) (t0 t : termios),
    tcgetattr_result env = Some t ->
    tcsetattr_raw_ok env = true ->
    fork_ret (forkpty_result env) = 0 ->
    let r := main env ws (initial_state t0) in
    let slave := slave_termios (forkpty_result env) in
    fst r = (if exec_ok (forkpty_result env) then Replaced else Exited 1) /\
    kills (trace (snd r)) = [] /\
    waits (trace (snd r)) = [] /\
    closes (trace (snd r)) = [] /\
    writes (trace (snd r)) = [] /\
    exists slave_raw,
      settings_applied (trace (snd r)) = [raw_termios t; slave_raw] /\
      c_lflag slave_raw
      = tcflag_wrap (Z.land (c_lflag slave) (Z.lnot ECHO)) /\
      c_iflag slave_raw = c_iflag slave /\
      In (EvExeclp "/bin/bash" (exec_ok (forkpty_result env)))
        (trace (snd r)).
Proof.
  intros env ws t0 t Hget Hraw Hfork r slave. subst r slave.
  unfold main, constructor, configureTerminal, setupSignalHandlers,
    initializePty, initial_state.
  rewrite Hget. run_monad. rewrite Hraw, Hfork. run_monad.
  cbn [Z.ltb Z.eqb Z.compare]. run_monad.
  destruct (exec_ok (forkpty_result env)); run_monad;
    cbn [app kills waits closes writes settings_applied];
    (repeat split; try reflexivity);
    eexists; (repeat split; try reflexivity);
    cbn [In]; tauto.
Qed.

(** Raw mode, bit by bit: in the settings [configureTerminal] applies, a
    bit of [c_lflag] is on if it belongs to ISIG, off if it belongs to
    ECHO or ICANON and not to ISIG, and otherwise as in the original; a
    bit of [c_iflag] is off if it belongs to IXON or ICRNL and otherwise
    as in the original; VTIME is 0, VMIN is 1, and the output flags, the
    control flags and every other control character are the original
    ones. *)
Theorem raw_mode_settings :
  forall (t : termios),
    (forall n, 0 <= n < 32 ->
        Z.testbit (c_lflag (raw_termios t)) n
        = Z.testbit ISIG n
          || (Z.testbit (c_lflag t) n
              && negb (Z.testbit ECHO n || Z.testbit ICANON n))) /\
    (forall n, 0 <= n < 32 ->
        Z.testbit (c_iflag (raw_termios t)) n
        = Z.testbit (c_iflag t) n
          && negb (Z.testbit IXON n || Z.testbit ICRNL n)) /\
    0 <= c_lflag (raw_termios t) < 2 ^ 32 /\
    0 <= c_iflag (raw_termios t) < 2 ^ 32 /\
    c_oflag (raw_termios t) = c_oflag t /\
    c_cflag (raw_termios t) = c_cflag t /\
    c_cc (raw_termios t) VTIME = 0 /\
    (VMIN <> VTIME -> c_cc (raw_termios t) VMIN = 1) /\
    (forall i, i <> VMIN -> i <> VTIME ->
               c_cc (raw_termios t) i = c_cc t i).
Proof.
  intros t. unfold raw_termios, tcflag_wrap.
  cbn [c_lflag c_iflag c_oflag c_cflag c_cc].
  repeat split.
  - intros n Hn.
    rewrite Z.mod_pow2_bits_low by lia.
    rewrite Z.lor_spec.
    rewrite Z.mod_pow2_bits_low by lia.
    rewrite Z.land_spec, Z.lnot_spec, Z.lor_spec by lia.
    apply Bool.orb_comm.
  - intros n Hn.
    rewrite Z.mod_pow2_bits_low by lia.
    rewrite Z.land_spec, Z.lnot_spec, Z.lor_spec by lia.
    reflexivity.
  - apply Z.mod_pos_bound. lia.
  - apply Z.mod_pos_bound. lia.
  - apply Z.mod_pos_bound. lia.
  - apply Z.mod_pos_bound. lia.
  - rewrite Z.eqb_refl. reflexivity.
  - intros Hne. apply Z.eqb_neq in Hne. rewrite Hne, Z.eqb_refl.
    reflexivity.
  - intros i Hmin Htime. apply Z.eqb_neq in Hmin, Htime.
    rewrite Hmin, Htime. reflexivity.
Qed.

(** [cleanup] releases what is held and can be run again without harm:
    after it no descriptor is held, no child is tracked and no handler is
    registered, so that a second [cleanup] closes nothing, signals nothing
    and waits for nothing (it only applies the original settings again),
    and a signal arriving afterwards is ignored by [handleSignal]. *)
Theorem cleanup_is_safe_to_repeat :
  forall (env : Startup) (s : State),
    let s1 := snd (cleanup env s) in
    let s2 := snd (cleanup env s1) in
    master_fd_ s1 = -1 /\
    child_pid_ s1 <= 0 /\
    instance_ s1 = false /\
    closes (trace s2) = closes (trace s1) /\
    kills (trace s2) = kills (trace s1) /\
    waits (trace s2) = waits (trace s1) /\
    settings_applied (trace s2)
    = (settings_applied (trace s1) ++ [original_termios_ s])%list /\
    (forall sig winsz, handleSignal sig winsz s1 = (tt, s1)).
Proof.
  intros env s s1 s2.
  destruct (cleanup_effect env s)
    as (_ & _ & _ & _ & Hm & Hp1 & Hp2 & Hi & Ho).
  fold s1 in Hm, Hp1, Hp2, Hi, Ho.
  assert (Hp : child_pid_ s1 <= 0).
  { destruct (Z_lt_le_dec 0 (child_pid_ s)) as [H | H];
      [rewrite Hp1 by exact H; lia | rewrite Hp2 by exact H; exact H]. }
  destruct (cleanup_effect env s1) as (Lc & Lk & Lw & _).
  fold s2 in Lc, Lk, Lw.
  rewrite Hm in Lc. cbn [Z.eqb] in Lc.
  replace (0 <? child_pid_ s1) with false in Lk, Lw
    by (symmetry; apply Z.ltb_ge; exact Hp).
  rewrite app_nil_r in Lc, Lk, Lw.
  repeat split; try assumption.
  - unfold s2. rewrite cleanup_restores_once, Ho. reflexivity.
  - intros sig winsz. unfold handleSignal. run_monad. rewrite Hi.
    reflexivity.
Qed.

(** [handleSignal] changes nothing but the trace, so a signal neither ends
    the session nor stops tracking the child (unlike the Ctrl-C byte):
    SIGINT and SIGTERM are passed on to the tracked child, the same signal
    as received, and to nobody when no child is tracked; SIGWINCH reads the
    window size of the terminal and sets it on the master descriptor, or
    sets nothing when the size cannot be read; nothing is written and
    nothing is waited for. *)
Theorem signal_handler_forwards_and_resizes :
  forall (sig : Signal) (winsz : option winsize) (s : State),
    instance_ s = true ->
    let s' := snd (handleSignal sig winsz s) in
    s' = set_trace (trace s') s /\
    kills (trace s')
    = (kills (trace s)
       ++ (if (Signal_eqb sig SIGINT || Signal_eqb sig SIGTERM)
              && (0 <? child_pid_ s)
           then [(child_pid_ s, sig)] else []))%list /\
    writes (trace s') = writes (trace s) /\
    waits (trace s') = waits (trace s) /\
    (sig = SIGWINCH ->
     trace s'
     = (trace s
        ++ match winsz with
           | Some ws => [EvGetWinsize STDIN_FILENO true;
                         EvSetWinsize (master_fd_ s) ws]
           | None => [EvGetWinsize STDIN_FILENO false]
           end)%list).
Proof.
  intros sig winsz s Hinst s'. subst s'.
  unfold handleSignal, resizePty, kill. run_monad. rewrite Hinst. run_monad.
  destruct sig; cbn [Signal_eqb orb andb]; run_monad;
    try (destruct (0 <? child_pid_ s); run_monad);
    try (destruct winsz; run_monad);
    events_simpl;
    (split; [state_refl s|]);
    repeat split; try reflexivity; try discriminate.
Qed.

(** ** The write loop of [safeWrite] *)

Lemma substring_none (p : nat) (s : string) : substring p 0 s = EmptyString.
Proof.
  revert s. induction p as [|p IH]; intros s; destruct s; cbn; auto.
Qed.

Lemma substring_split (s : string) :
  forall p n k,
    (substring p n s ++ substring (p + n) k s)%string = substring p (n + k) s.
Proof.
  induction s as [|c s IH]; intros p n k.
  - destruct p, n, k; reflexivity.
  - destruct p as [|p].
    + destruct n as [|n]; cbn [Nat.add substring append].
      * reflexivity.
      * f_equal. apply (IH 0%nat n k).
    + cbn [Nat.add substring]. apply IH.
Qed.

Lemma substring_all (s : string) : substring 0 (String.length s) s = s.
Proof.
  induction s as [|c s IH]; [reflexivity|].
  cbn [String.length substring]. rewrite IH. reflexivity.
Qed.

(** What the loop has written when it stops or runs out of results. *)
Lemma safeWrite_loop_progress (buf : string) (results : list WriteResult) :
  forall (ptr : nat) (remaining : Z),
    0 <= remaining < 2 ^ 64 ->
    within_request results remaining ->
    exists k : nat,
      join (snd (fst (safeWrite_loop results buf ptr remaining)))
      = substring ptr k buf /\
      match fst (fst (safeWrite_loop results buf ptr remaining)) with
      | Some true =>
          Z.of_nat k = remaining /\
          snd (safeWrite_loop results buf ptr remaining) = false
      | Some false =>
          Z.of_nat k < remaining /\
          snd (safeWrite_loop results buf ptr remaining) = true
      | None =>
          Z.of_nat k < remaining /\
          snd (safeWrite_loop results buf ptr remaining) = false
      end.
Proof.
  induction results as [|w results IH]; intros ptr remaining Hrange Hreq.
  - cbn [safeWrite_loop].
    destruct (0 <? remaining) eqn:Hpos; cbn [fst snd join];
      exists 0%nat; rewrite substring_none;
      (split; [reflexivity|]); split; try reflexivity.
    + apply Z.ltb_lt in Hpos. cbn. exact Hpos.
    + apply Z.ltb_ge in Hpos. cbn. lia.
  - cbn [safeWrite_loop].
    destruct (0 <? remaining) eqn:Hpos.
    2:{ cbn [fst snd join]. exists 0%nat. rewrite substring_none.
        split; [reflexivity|]. split; [|reflexivity].
        apply Z.ltb_ge in Hpos. cbn. lia. }
    apply Z.ltb_lt in Hpos.
    destruct w as [[|] | n].
    + apply IH; assumption.
    + cbn [fst snd join]. exists 0%nat. rewrite substring_none.
      split; [reflexivity|]. split; [cbn; exact Hpos | reflexivity].
    + cbn [within_request] in Hreq. destruct Hreq as [Hn Hrest].
      unfold size_t_wrap. rewrite Z.mod_small by lia.
      destruct (IH (ptr + n)%nat (remaining - Z.of_nat n)) as (k & Hj & Hr);
        [lia | exact Hrest |].
      destruct (safeWrite_loop results buf (ptr + n)
                  (remaining - Z.of_nat n)) as [[r chunks] diag].
      cbn [fst snd join] in *.
      exists (n + k)%nat. rewrite Hj, substring_split.
      split; [reflexivity|].
      destruct r as [[|]|]; destruct Hr as [Hk Hd]; split;
        try assumption; lia.
Qed.

(** [safeWrite] against a [write] that reports at most what it was asked
    to write: when it returns true the pieces written, put together, are
    exactly the buffer, once and in order, and no diagnostic was printed,
    however the kernel split the writes and however many were interrupted;
    when it returns false, or is still looping, the pieces are the first
    [k] bytes of the buffer for some [k] below its size, and the
    diagnostic was printed exactly in the first case.  With nothing to
    write, [write] is not called at all. *)
Theorem safeWrite_delivers_the_buffer_in_order :
  forall (results : list WriteResult) (buf : string),
    size buf < 2 ^ 64 ->
    within_request results (size buf) ->
    let res := safeWrite_calls results buf in
    let chunks := snd (fst res) in
    (fst (fst res) = Some true -> join chunks = buf /\ snd res = false) /\
    (fst (fst res) <> Some true ->
     exists k : nat,
       (k < String.length buf)%nat /\
       join chunks = substring 0 k buf /\
       snd res = match fst (fst res) with Some _ => true | None => false end) /\
    (buf = EmptyString -> res = (Some true, [], false)).
Proof.
  intros results buf Hsize Hreq res chunks. subst chunks res.
  unfold safeWrite_calls.
  assert (Hrange : 0 <= size buf < 2 ^ 64) by (unfold size in *; lia).
  destruct (safeWrite_loop_progress buf results 0 (size buf) Hrange Hreq)
    as (k & Hj & Hr).
  split; [|split].
  - intros Hok. rewrite Hok in Hr. destruct Hr as [Hk Hd].
    split; [|exact Hd]. rewrite Hj.
    unfold size in Hk. apply Nat2Z.inj in Hk. subst k. apply substring_all.
  - intros Hnot. exists k.
    destruct (fst (fst (safeWrite_loop results buf 0 (size buf))))
      as [[|]|]; [congruence | |];
      destruct Hr as [Hk Hd]; unfold size in Hk;
      (split; [lia|]); split; assumption.
  - intros ->. destruct results; reflexivity.
Qed.

End Emulator.

(** ** The properties at concrete sessions *)

(** C7 as amended, at the line "ls" submitted by a carriage return to an
    empty history, with an empty accumulator. *)
Lemma C7_submission_witness :
  input_buffer_ (session "ls" [] 0 "") <> str_exit /\
  escape_sequence (session "ls" [] 0 "") = EmptyString /\
  history_ (snd (processInput kill_succeeds write_succeeds CR
                   (session "ls" [] 0 ""))) = ["ls"] /\
  history_index_ (snd (processInput kill_succeeds write_succeeds CR
                         (session "ls" [] 0 ""))) = 1 /\
  input_buffer_ (snd (processInput kill_succeeds write_succeeds CR
                        (session "ls" [] 0 ""))) = EmptyString /\
  writes (trace (snd (processInput kill_succeeds write_succeeds CR
                        (session "ls" [] 0 ""))))
  = [(3, str_newline); (STDOUT_FILENO, str_newline)].
Proof.
  assert (H : input_buffer_ (session "ls" [] 0 "") <> str_exit)
    by (cbn; discriminate).
  split; [exact H|]. split; [reflexivity|].
  destruct (C7_submission_appends_line kill_succeeds write_succeeds
              (session "ls" [] 0 "") H)
    as (Hp & _ & Hline & _).
  rewrite (Hp CR (or_introl eq_refl) eq_refl).
  destruct Hline as (Hh & _ & Hi & Hb & Hw & _); [cbn; discriminate|].
  rewrite Hi, Hb. unfold history_size. rewrite Hh, Hw.
  repeat split; reflexivity.
Defined.

(** C7: with "ls" in the line buffer and ESC pending in the accumulator, a
    carriage return is no submission: nothing is appended to the history,
    the line buffer keeps "ls", no newline is forwarded or echoed, and the
    two bytes ESC CR go to the child. *)
Lemma C7_submission_with_pending_escape_counterexample :
  input_buffer_ (session "ls" [] 0 str_ESC) <> EmptyString /\
  input_buffer_ (session "ls" [] 0 str_ESC) <> str_exit /\
  fst (processInput kill_succeeds write_succeeds CR
         (session "ls" [] 0 str_ESC)) = true /\
  history_ (snd (processInput kill_succeeds write_succeeds CR
                   (session "ls" [] 0 str_ESC))) = [] /\
  history_index_ (snd (processInput kill_succeeds write_succeeds CR
                         (session "ls" [] 0 str_ESC))) = 0 /\
  input_buffer_ (snd (processInput kill_succeeds write_succeeds CR
                        (session "ls" [] 0 str_ESC))) = "ls" /\
  writes (trace (snd (processInput kill_succeeds write_succeeds CR
                        (session "ls" [] 0 str_ESC))))
  = [(3, String ESC (String CR EmptyString))].
Proof.
  split; [cbn; discriminate|]. split; [cbn; discriminate|].
  repeat split; reflexivity.
Qed.

(** C8: with "exit" in the line buffer and ESC pending in the accumulator,
    a carriage return does not end the session, and the two bytes ESC CR
    are forwarded to the child. *)
Lemma C8_exit_with_pending_escape_counterexample :
  input_buffer_ (session "exit" [] 0 str_ESC) = str_exit /\
  fst (processInput kill_succeeds write_succeeds CR
         (session "exit" [] 0 str_ESC)) = true /\
  is_running_ (snd (processInput kill_succeeds write_succeeds CR
                      (session "exit" [] 0 str_ESC))) = true /\
  writes (trace (snd (processInput kill_succeeds write_succeeds CR
                        (session "exit" [] 0 str_ESC))))
  = [(3, String ESC (String CR EmptyString))].
Proof. repeat split; reflexivity. Qed.

(** C8 as amended, at "exit" with an empty accumulator. *)
Lemma C8_exit_command_witness :
  input_buffer_ (session "exit" ["ls"] 1 "") = str_exit /\
  fst (processInput kill_succeeds write_succeeds CR
         (session "exit" ["ls"] 1 "")) = false /\
  trace (snd (processInput kill_succeeds write_succeeds CR
                (session "exit" ["ls"] 1 ""))) = [] /\
  history_ (snd (processInput kill_succeeds write_succeeds CR
                   (session "exit" ["ls"] 1 ""))) = ["ls"].
Proof.
  assert (H : input_buffer_ (session "exit" ["ls"] 1 "") = str_exit)
    by reflexivity.
  split; [exact H|].
  destruct (C8_exit_command_ends_session kill_succeeds write_succeeds
              (session "exit" ["ls"] 1 "") CR H)
    as [_ Hc].
  destruct (Hc (or_introl eq_refl) eq_refl) as (Hr & _ & Ht & Hh & _).
  rewrite Hr, Ht, Hh. repeat split; reflexivity.
Defined.

(** C1: after Ctrl-C with a tracked child the session is not left running:
    when [kill] succeeds the running flag is cleared and the child is no
    longer tracked; when it fails [processInput] reports false. *)
Lemma C1_ctrl_c_stops_session_counterexample :
  0 < child_pid_ (session "ls" [] 0 "") /\
  is_running_ (session "ls" [] 0 "") = true /\
  is_running_ (snd (processInput kill_succeeds write_succeeds CTRL_C
                      (session "ls" [] 0 ""))) = false /\
  child_pid_ (snd (processInput kill_succeeds write_succeeds CTRL_C
                     (session "ls" [] 0 ""))) = -1 /\
  fst (processInput kill_fails write_succeeds CTRL_C
         (session "ls" [] 0 "")) = false /\
  is_running_ (snd (readUserInput kill_fails write_succeeds
                      (ReadBytes (String CTRL_C EmptyString))
                      (session "ls" [] 0 ""))) = false.
Proof. repeat split; reflexivity. Qed.

(** C1 as amended, at a session whose child is process 100. *)
Lemma C1_ctrl_c_witness :
  0 < child_pid_ (session "ls" [] 0 "") /\
  kills (trace (snd (processInput kill_succeeds write_succeeds CTRL_C
                       (session "ls" [] 0 ""))))
  = [(100, SIGINT)] /\
  input_buffer_ (snd (processInput kill_succeeds write_succeeds CTRL_C
                        (session "ls" [] 0 ""))) = "ls".
Proof.
  assert (H : 0 < child_pid_ (session "ls" [] 0 "")) by (cbn; lia).
  split; [exact H|].
  destruct (C1_ctrl_c_signals_child_and_ends_session kill_succeeds
              write_succeeds (session "ls" [] 0 "") H)
    as (Hk & _ & Hb & _).
  rewrite Hk, Hb. split; reflexivity.
Defined.

(** C3: ESC followed by 'x' is forwarded to the child, both bytes. *)
Lemma C3_escape_x_is_forwarded_counterexample :
  escape_sequence (session "" [] 0 str_ESC) = str_ESC /\
  "x"%char <> LBRACKET /\
  escape_sequence (snd (processInput kill_succeeds write_succeeds "x"
                          (session "" [] 0 str_ESC))) = EmptyString /\
  writes (trace (snd (processInput kill_succeeds write_succeeds "x"
                        (session "" [] 0 str_ESC))))
  = [(master_fd_ (session "" [] 0 str_ESC),
      String ESC (String "x" EmptyString))].
Proof. repeat split; try reflexivity. discriminate. Qed.

(** C3 as amended, at ESC followed by 'x'. *)
Lemma C3_escape_x_witness :
  escape_sequence (session "" [] 0 str_ESC) = str_ESC /\
  fst (processInput kill_succeeds write_succeeds "x"
         (session "" [] 0 str_ESC)) = true /\
  input_buffer_ (snd (processInput kill_succeeds write_succeeds "x"
                        (session "" [] 0 str_ESC))) = EmptyString.
Proof.
  split; [reflexivity|].
  destruct (C3_escape_then_other_byte_forwarded kill_succeeds write_succeeds
              (session "" [] 0 str_ESC) "x" eq_refl)
    as (Hr & _ & _ & _ & Hb & _); try discriminate.
  rewrite Hr, Hb. split; reflexivity.
Defined.

(** C5: with "ls" in the history and ESC '[' accumulated, the byte 'A'
    recalls "ls" and then forwards ESC '[' 'A' to the child. *)
Lemma C5_up_arrow_is_forwarded_counterexample :
  writes (trace (snd (processInput kill_succeeds write_succeeds "A"
                        (session "" ["ls"] 1
                           (String ESC (String LBRACKET EmptyString))))))
  = [(STDOUT_FILENO, str_clear_line); (STDOUT_FILENO, str_prompt);
     (STDOUT_FILENO, "ls");
     (3, String ESC (String LBRACKET (String "A" EmptyString)))] /\
  master_fd_ (session "" ["ls"] 1 (String ESC (String LBRACKET EmptyString)))
  = 3 /\
  input_buffer_ (snd (processInput kill_succeeds write_succeeds "A"
                        (session "" ["ls"] 1
                           (String ESC (String LBRACKET EmptyString)))))
  = "ls".
Proof. repeat split; reflexivity. Qed.

(** C5 as amended, at the same session. *)
Lemma C5_up_arrow_witness :
  writes (trace (snd (handleArrowKey write_succeeds "A"
                        (session "" ["ls"] 1
                           (String ESC (String LBRACKET EmptyString))))))
  = recall_echo "ls" /\
  history_ (snd (processInput kill_succeeds write_succeeds "A"
                   (session "" ["ls"] 1
                      (String ESC (String LBRACKET EmptyString)))))
  = ["ls"].
Proof.
  destruct (C5_recall_is_local_then_sequence_forwarded kill_succeeds
              write_succeeds
              (session "" ["ls"] 1 (String ESC (String LBRACKET EmptyString)))
              "A")
    as (Hw & _ & _ & _ & _ & _ & _ & _ & Hfinal).
  destruct (Hfinal eq_refl (or_introl eq_refl)) as (_ & _ & _ & Hh).
  rewrite Hw, Hh. split; reflexivity.
Defined.

(** C9 at ESC '[' followed by 'A', with "ls" and "pwd" in the history and
    the cursor past the end: the cursor moves to 1, the line buffer becomes
    "pwd", the line is redisplayed, and ESC '[' 'A' goes to the child. *)
Lemma C9_third_byte_witness :
  String.length
    (escape_sequence
       (session "" ["ls"; "pwd"] 2 (String ESC (String LBRACKET EmptyString))))
  = 2%nat /\
  "A"%char <> ESC /\
  fst (handleEscapeSequence write_succeeds "A"
         (session "" ["ls"; "pwd"] 2
            (String ESC (String LBRACKET EmptyString)))) = true /\
  escape_sequence
    (snd (handleEscapeSequence write_succeeds "A"
            (session "" ["ls"; "pwd"] 2
               (String ESC (String LBRACKET EmptyString))))) = EmptyString /\
  history_index_
    (snd (handleEscapeSequence write_succeeds "A"
            (session "" ["ls"; "pwd"] 2
               (String ESC (String LBRACKET EmptyString))))) = 1 /\
  input_buffer_
    (snd (handleEscapeSequence write_succeeds "A"
            (session "" ["ls"; "pwd"] 2
               (String ESC (String LBRACKET EmptyString))))) = "pwd" /\
  writes
    (trace
       (snd (handleEscapeSequence write_succeeds "A"
               (session "" ["ls"; "pwd"] 2
                  (String ESC (String LBRACKET EmptyString))))))
  = [(STDOUT_FILENO, str_clear_line); (STDOUT_FILENO, str_prompt);
     (STDOUT_FILENO, "pwd");
     (3, String ESC (String LBRACKET (String "A" EmptyString)))].
Proof.
  assert (Hc : "A"%char <> ESC) by discriminate.
  split; [reflexivity|]. split; [exact Hc|].
  destruct (C9_third_byte_resolves_and_forwards kill_succeeds write_succeeds
              (session "" ["ls"; "pwd"] 2
                 (String ESC (String LBRACKET EmptyString)))
              "A" eq_refl Hc)
    as (Hr & He & Hi & Hb & _ & Hw & _).
  rewrite Hr, He, Hi, Hb, Hw. repeat split; reflexivity.
Defined.

(** C6 on the session of the scenario: history "ls", "pwd", cursor 2. *)
Lemma C6_recall_cursor_witness :
  cursor_inv (session "" ["ls"; "pwd"] 2 "") /\
  cursor_inv (snd (processInput kill_succeeds write_succeeds "A"
                     (session "" ["ls"; "pwd"] 2
                        (String ESC (String LBRACKET EmptyString))))) /\
  input_buffer_ (snd (handleArrowKey write_succeeds "A"
                        (session "" ["ls"; "pwd"] 2 ""))) = "pwd".
Proof.
  assert (H : forall e, cursor_inv (session "" ["ls"; "pwd"] 2 e))
    by (intros e; unfold cursor_inv, history_size; cbn; lia).
  split; [apply H|].
  destruct (C6_recall_cursor_stays_in_history kill_succeeds write_succeeds
              (TC := linux_termios))
    as (_ & Hstep & _ & _ & _ & Hrecall & _).
  split; [apply Hstep; apply H|].
  destruct (Hrecall (session "" ["ls"; "pwd"] 2 "") "A"%char eq_refl)
    as [_ Hb].
  - vm_compute. reflexivity.
  - rewrite Hb. reflexivity.
Defined.

(** C10 on a session with ESC pending: Ctrl-Z leaves the accumulator. *)
Lemma C10_escape_accumulator_witness :
  esc_inv (session "" [] 0 str_ESC) /\
  esc_inv (snd (processInput kill_succeeds write_succeeds LBRACKET
                  (session "" [] 0 str_ESC))) /\
  escape_sequence (snd (processInput kill_succeeds write_succeeds CTRL_Z
                          (session "" [] 0 str_ESC))) = str_ESC.
Proof.
  assert (H : esc_inv (session "" [] 0 str_ESC)) by (right; left; reflexivity).
  split; [exact H|].
  destruct (C10_escape_accumulator_has_three_values kill_succeeds
              write_succeeds (TC := linux_termios))
    as (_ & Hstep & Hctl).
  split; [apply Hstep; exact H|].
  rewrite Hctl; [reflexivity|]. right. left. reflexivity.
Defined.

(** C4 at three wake-ups at end of stream. *)
Lemma C4_end_of_stream_witness :
  bytes_read (ReadBytes EmptyString) <= 0 /\
  fst (processIO kill_succeeds write_succeeds
         (repeat (PollReady (Some (ReadBytes EmptyString)) None) 3)
         (session "" [] 0 "")) = LoopBlocked /\
  is_running_
    (snd (processIO kill_succeeds write_succeeds
            (repeat (PollReady (Some (ReadBytes EmptyString)) None) 3)
            (session "" [] 0 ""))) = true.
Proof.
  assert (H : bytes_read (ReadBytes EmptyString) <= 0) by (cbn; lia).
  split; [exact H|].
  destruct (C4_end_of_stream_keeps_loop_running kill_succeeds write_succeeds
              (ReadBytes EmptyString) 3 (session "" [] 0 "") H)
    as [_ Hloop].
  rewrite Hloop. split; reflexivity.
Defined.

(** ** The scenarios of the specification, run *)

(** The bytes 'h', 'i', CR on an empty history: "hi" is appended, the cursor
    becomes 1, and 'h', 'i', LF go to the child and to the terminal. *)
Example scenario_hi_enter :
  let s := snd (readUserInput kill_succeeds write_succeeds
                  (ReadBytes (String "h" (String "i" (String CR EmptyString))))
                  (session "" [] 0 "")) in
  history_ s = ["hi"] /\
  history_index_ s = 1 /\
  input_buffer_ s = EmptyString /\
  is_running_ s = true /\
  writes (trace s)
  = [(STDOUT_FILENO, "h"); (3, "h"); (STDOUT_FILENO, "i"); (3, "i");
     (3, str_newline); (STDOUT_FILENO, str_newline)].
Proof. repeat split; reflexivity. Qed.

(** History "ls", "pwd" with the cursor at 2: the up arrow twice recalls
    "pwd" and then "ls". *)
Example scenario_up_arrow_twice :
  let up := String ESC (String LBRACKET (String "A" EmptyString)) in
  let s1 := snd (readUserInput kill_succeeds write_succeeds (ReadBytes up)
                   (session "" ["ls"; "pwd"] 2 "")) in
  let s2 := snd (readUserInput kill_succeeds write_succeeds (ReadBytes up) s1) in
  history_index_ s1 = 1 /\ input_buffer_ s1 = "pwd" /\
  history_index_ s2 = 0 /\ input_buffer_ s2 = "ls".
Proof. repeat split; reflexivity. Qed.

(** A whole run: start-up succeeds, the user types "exit" and CR; [main]
    returns 0 and the terminal settings applied are the raw ones and then
    the original ones. *)
Example scenario_exit_run :
  let env :=
    {| tcgetattr_result := Some sample_termios;
       tcsetattr_raw_ok := true;
       winsize_result := None;
       forkpty_result :=
         {| fork_ret := 100; fork_master := 3;
            slave_termios := sample_termios; exec_ok := true |};
       tcsetattr_restore_ok := true |} in
  let r := main kill_succeeds write_succeeds (TC := linux_termios) env
             [PollReady (Some (ReadBytes "exit")) None;
              PollReady (Some (ReadBytes (String CR EmptyString))) None]
             (initial_state sample_termios) in
  fst r = Returned 0 /\
  settings_applied (trace (snd r))
  = [raw_termios (TC := linux_termios) sample_termios; sample_termios] /\
  kills (trace (snd r)) = [(100, SIGTERM)].
Proof. repeat split; reflexivity. Qed.

(** ** The further properties at concrete sessions *)

Lemma backspace_on_empty_line_witness :
  input_buffer_ (session "" ["ls"] 1 str_ESC) = EmptyString /\
  processInput kill_succeeds write_succeeds DEL (session "" ["ls"] 1 str_ESC)
  = (true, session "" ["ls"] 1 str_ESC).
Proof.
  split; [reflexivity|].
  apply (backspace_on_empty_line_is_noop kill_succeeds write_succeeds).
  reflexivity.
Defined.

Lemma backspace_erases_witness :
  input_buffer_ (session "ls" [] 0 "") <> EmptyString /\
  input_buffer_ (snd (processInput kill_succeeds write_succeeds DEL
                        (session "ls" [] 0 ""))) = "l".
Proof.
  assert (H : input_buffer_ (session "ls" [] 0 "") <> EmptyString)
    by (cbn; discriminate).
  split; [exact H|].
  destruct (backspace_erases_last_character kill_succeeds write_succeeds
              (session "ls" [] 0 "") H) as (_ & Hb & _).
  rewrite Hb. reflexivity.
Defined.

Lemma type_then_backspace_witness :
  ordinary "a" = true /\
  escape_sequence (session "ls" [] 0 "") = EmptyString /\
  input_buffer_
    (snd (processInput kill_succeeds write_succeeds DEL
            (snd (processInput kill_succeeds write_succeeds "a"
                    (session "ls" [] 0 ""))))) = "ls".
Proof.
  split; [reflexivity|]. split; [reflexivity|].
  destruct (type_then_backspace_restores_line kill_succeeds write_succeeds
              (session "ls" [] 0 "") "a" eq_refl eq_refl) as (Hb & _).
  rewrite Hb. reflexivity.
Defined.

Lemma typing_ordinary_bytes_witness :
  all_ordinary "pwd" = true /\
  escape_sequence (session "ls " [] 0 "") = EmptyString /\
  input_buffer_ (snd (processBytes kill_succeeds write_succeeds "pwd"
                        (session "ls " [] 0 ""))) = "ls pwd".
Proof.
  split; [reflexivity|]. split; [reflexivity|].
  destruct (typing_ordinary_bytes kill_succeeds write_succeeds "pwd"
              (session "ls " [] 0 "") eq_refl eq_refl) as (Hb & _).
  rewrite Hb. reflexivity.
Defined.

Lemma ctrl_z_witness :
  0 < child_pid_ (session "ls" [] 0 "") /\
  kills (trace (snd (processInput kill_succeeds write_succeeds CTRL_Z
                       (session "ls" [] 0 "")))) = [(100, SIGTSTP)] /\
  is_running_ (snd (processInput kill_succeeds write_succeeds CTRL_Z
                      (session "ls" [] 0 ""))) = true.
Proof.
  assert (H : 0 < child_pid_ (session "ls" [] 0 "")) by (cbn; lia).
  split; [exact H|].
  destruct (ctrl_z_suspends_child_and_keeps_session kill_succeeds
              write_succeeds (session "ls" [] 0 "") H)
    as (_ & Hk & _ & _ & _ & Hr & _).
  rewrite Hk, Hr. split; reflexivity.
Defined.

Lemma control_signal_without_child_witness :
  child_pid_ (set_child_pid_ (-1) (session "ls" [] 0 "")) <= 0 /\
  processInput kill_succeeds write_succeeds CTRL_C
    (set_child_pid_ (-1) (session "ls" [] 0 ""))
  = (true, set_child_pid_ (-1) (session "ls" [] 0 "")).
Proof.
  assert (H : child_pid_ (set_child_pid_ (-1) (session "ls" [] 0 "")) <= 0)
    by (cbn; lia).
  split; [exact H|].
  apply (control_signal_without_child_is_noop kill_succeeds write_succeeds
           _ CTRL_C H).
  left. reflexivity.
Defined.

Lemma arrow_key_sequence_witness :
  "A"%char <> ESC /\
  input_buffer_
    (snd (processBytes kill_succeeds write_succeeds
            (String ESC (String LBRACKET (String "A" EmptyString)))
            (session "x" [] 0 ""))) = "x[" /\
  escape_sequence
    (snd (processBytes kill_succeeds write_succeeds
            (String ESC (String LBRACKET (String "A" EmptyString)))
            (session "x" [] 0 ""))) = EmptyString.
Proof.
  assert (H : "A"%char <> ESC) by discriminate.
  split; [exact H|].
  destruct (arrow_key_sequence_in_one_read kill_succeeds write_succeeds
              (session "x" [] 0 "") "A" H)
    as (He & _ & Hb & _); try discriminate.
  rewrite He, Hb. split; reflexivity.
Defined.

Lemma idle_wakeups_witness :
  forallb idle [PollError true; PollReady None (Some ReadError);
                PollReady (Some (ReadBytes EmptyString)) (Some ReadError)]
  = true /\
  fst (processIO kill_succeeds write_succeeds
         [PollError true; PollReady None (Some ReadError);
          PollReady (Some (ReadBytes EmptyString)) (Some ReadError)]
         (session "ls" [] 0 "")) = LoopBlocked.
Proof.
  split; [reflexivity|].
  rewrite (idle_wakeups_keep_loop_waiting kill_succeeds write_succeeds
             [PollError true; PollReady None (Some ReadError);
              PollReady (Some (ReadBytes EmptyString)) (Some ReadError)]
             (session "ls" [] 0 "") eq_refl).
  reflexivity.
Defined.

Lemma writes_target_witness :
  -1 <= fork_ret (forkpty_result (sample_startup 100)) /\
  Forall (fun w => fst w = STDOUT_FILENO \/ fst w = 3)
    (writes
       (trace
          (snd (main kill_succeeds write_succeeds (TC := linux_termios)
                  (sample_startup 100)
                  [PollReady (Some (ReadBytes "ls")) (Some (ReadBytes "$ "))]
                  (initial_state sample_termios))))).
Proof.
  assert (H : -1 <= fork_ret (forkpty_result (sample_startup 100)))
    by (cbn; lia).
  split; [exact H|].
  apply (writes_target_terminal_or_master kill_succeeds write_succeeds
           (TC := linux_termios) (sample_startup 100) _ sample_termios H).
Defined.

Lemma completed_run_witness :
  fst (main kill_succeeds write_succeeds (TC := linux_termios)
         (sample_startup 100)
         [PollReady (Some (ReadBytes (String CTRL_D EmptyString))) None]
         (initial_state sample_termios)) = Returned 0 /\
  waits
    (trace
       (snd (main kill_succeeds write_succeeds (TC := linux_termios)
               (sample_startup 100)
               [PollReady (Some (ReadBytes (String CTRL_D EmptyString))) None]
               (initial_state sample_termios)))) = [100] /\
  closes
    (trace
       (snd (main kill_succeeds write_succeeds (TC := linux_termios)
               (sample_startup 100)
               [PollReady (Some (ReadBytes (String CTRL_D EmptyString))) None]
               (initial_state sample_termios)))) = [3].
Proof.
  assert (H : fst (main kill_succeeds write_succeeds (TC := linux_termios)
                     (sample_startup 100)
                     [PollReady (Some (ReadBytes (String CTRL_D EmptyString)))
                        None]
                     (initial_state sample_termios)) = Returned 0)
    by reflexivity.
  split; [exact H|].
  destruct (completed_run_releases_each_resource_once kill_succeeds
              write_succeeds (TC := linux_termios) (sample_startup 100)
              [PollReady (Some (ReadBytes (String CTRL_D EmptyString))) None]
              sample_termios)
    as (_ & Hw & Hc & _).
  - cbn. lia.
  - cbn. discriminate.
  - exact H.
  - split; assumption.
Defined.

Lemma forked_child_witness :
  fork_ret (forkpty_result (sample_startup 0)) = 0 /\
  fst (main kill_succeeds write_succeeds (TC := linux_termios)
         (sample_startup 0) [PollError false] (initial_state sample_termios))
  = Exited 1.
Proof.
  split; [reflexivity|].
  destruct (forked_child_only_executes_the_shell kill_succeeds write_succeeds
              (TC := linux_termios) (sample_startup 0) [PollError false]
              sample_termios sample_termios eq_refl eq_refl eq_refl)
    as (Ho & _).
  exact Ho.
Defined.

Lemma signal_handler_witness :
  instance_ (session "ls" [] 0 "") = true /\
  kills (trace (snd (handleSignal kill_succeeds SIGTERM None
                       (session "ls" [] 0 "")))) = [(100, SIGTERM)] /\
  is_running_ (snd (handleSignal kill_succeeds SIGTERM None
                      (session "ls" [] 0 ""))) = true.
Proof.
  split; [reflexivity|].
  destruct (signal_handler_forwards_and_resizes kill_succeeds SIGTERM None
              (session "ls" [] 0 "") eq_refl) as (Hs & Hk & _).
  rewrite Hk. split; [reflexivity|]. rewrite Hs. reflexivity.
Defined.

Lemma safeWrite_loop_witness :
  size "hello" < 2 ^ 64 /\
  within_request [WriteDone 2; WriteFailed true; WriteDone 0; WriteDone 3]
    (size "hello") /\
  safeWrite_calls [WriteDone 2; WriteFailed true; WriteDone 0; WriteDone 3]
    "hello"
  = (Some true, ["he"; ""; "llo"], false) /\
  join (snd (fst (safeWrite_calls
                    [WriteDone 2; WriteFailed true; WriteDone 0; WriteDone 3]
                    "hello"))) = "hello".
Proof.
  assert (Hs : size "hello" < 2 ^ 64) by (vm_compute; reflexivity).
  assert (Hw : within_request
                 [WriteDone 2; WriteFailed true; WriteDone 0; WriteDone 3]
                 (size "hello"))
    by (cbn; repeat split; lia).
  split; [exact Hs|]. split; [exact Hw|]. split; [reflexivity|].
  destruct (safeWrite_delivers_the_buffer_in_order
              [WriteDone 2; WriteFailed true; WriteDone 0; WriteDone 3]
              "hello" Hs Hw) as (Hok & _).
  apply Hok. reflexivity.
Defined.

(** ** The version of [src/unnamed/part_000] *)

Ltac run_m :=
  repeat first
    [ progress (unfold bind, get, ret, modify, emit, history_size)
    | progress cbn [fst snd
        original_termios_ master_fd_ child_pid_ is_running_
        input_buffer_ history_ history_index_ escape_sequence
        instance_ trace
        set_original_termios_ set_master_fd_ set_child_pid_
        set_is_running_ set_input_buffer_ set_history_
        set_history_index_ set_escape_sequence set_instance_
        set_trace negb andb orb empty] ].

Ltac chars_eval :=
  repeat match goal with
         | |- context [Ascii.eqb ?a ?b] =>
             let v := eval vm_compute in (Ascii.eqb a b) in
             lazymatch v with
             | true => change (Ascii.eqb a b) with true
             | false => change (Ascii.eqb a b) with false
             end
         end.

Ltac chars_neq :=
  repeat match goal with
         | H : ?c <> ?d |- context [Ascii.eqb ?c ?d] =>
             rewrite (proj2 (Ascii.eqb_neq c d) H)
         end.

Ltac state_eq s :=
  destruct s;
  cbn [original_termios_ master_fd_ child_pid_ is_running_
       input_buffer_ history_ history_index_ escape_sequence
       instance_ trace
       set_original_termios_ set_master_fd_ set_child_pid_
       set_is_running_ set_input_buffer_ set_history_
       set_history_index_ set_escape_sequence set_instance_ set_trace];
  reflexivity.

(** In the version of part_000, Ctrl-C with a tracked child only sends
    SIGINT to it: nothing is waited for or written, the child stays
    tracked, the line buffer and the running flag are as they were, and
    the session goes on. *)
Theorem Part000_ctrl_c_only_signals_child :
  forall (sys_kill : list Event -> Z -> Signal -> Z) (s : State),
    0 < child_pid_ s ->
    Part000.processInput sys_kill CTRL_C s
    = (true,
       set_trace
         (trace s
          ++ [EvKill (child_pid_ s) SIGINT
                (sys_kill (trace s) (child_pid_ s) SIGINT)]) s) /\
    is_running_
      (snd (Part000.readUserInput sys_kill
              (ReadBytes (String CTRL_C EmptyString)) s))
    = is_running_ s /\
    child_pid_
      (snd (Part000.readUserInput sys_kill
              (ReadBytes (String CTRL_C EmptyString)) s))
    = child_pid_ s.
Proof.
  intros sys_kill s Hpid.
  assert (Hstep : Part000.processInput sys_kill CTRL_C s
    = (true,
       set_trace
         (trace s
          ++ [EvKill (child_pid_ s) SIGINT
                (sys_kill (trace s) (child_pid_ s) SIGINT)]) s)).
  { unfold Part000.processInput, Part000.killChild, Part000.kill.
    chars_eval. run_m.
    replace (0 <? child_pid_ s) with true by (symmetry; apply Z.ltb_lt; lia).
    run_m. reflexivity. }
  split; [exact Hstep|].
  unfold Part000.readUserInput. cbn [bytes_read read_data].
  replace (size (String CTRL_C EmptyString) <=? 0) with false by reflexivity.
  cbn [Part000.processBytes]. unfold bind. rewrite Hstep. run_m.
  split; reflexivity.
Qed.

(** In the version of part_000, ESC followed by a byte that is neither
    '[' nor ESC nor a control byte is dropped: the accumulator is cleared
    and nothing else changes; nothing is written to the child or to the
    terminal. *)
Theorem Part000_two_byte_sequence_is_discarded :
  forall (sys_kill : list Event -> Z -> Signal -> Z) (s : State) (c : ascii),
    escape_sequence s = str_ESC ->
    c <> LBRACKET -> c <> ESC ->
    c <> CTRL_C -> c <> CTRL_Z -> c <> CTRL_D -> c <> DEL ->
    Part000.processInput sys_kill c s = (true, set_escape_sequence EmptyString s).
Proof.
  intros sys_kill s c Hesc Hlb Hc H3 H26 H4 H127.
  unfold Part000.processInput, Part000.handleEscapeSequence. chars_neq.
  run_m. rewrite Hesc. unfold str_ESC. run_m.
  cbn [push_back append size String.length Z.of_nat Pos.of_succ_nat
       Pos.succ Z.eqb Pos.eqb].
  run_m. reflexivity.
Qed.

(** In the version of part_000, the third byte of an escape sequence
    resolves the arrow key and clears the accumulator: 'A' with the cursor
    above 0 moves the cursor up by one, 'B' with the cursor below the
    length of the history moves it down by one, and in both cases the line
    buffer becomes the entry under the new cursor (empty past the end),
    the line eraser is written to standard output and then, unless it is
    empty, the new line buffer; any other final byte, and an arrow at
    either end of the history, changes nothing but the accumulator.
    Nothing of the sequence and nothing of the recalled line is sent to
    the child, no prompt is written, and no signal is sent. *)
Theorem Part000_recall_writes_to_terminal_only :
  forall (sys_kill : list Event -> Z -> Signal -> Z) (s : State) (c : ascii),
    String.length (escape_sequence s) = 2%nat ->
    c <> ESC -> c <> CTRL_C -> c <> CTRL_Z -> c <> CTRL_D -> c <> DEL ->
    let r := Part000.processInput sys_kill c s in
    let idx := history_index_ s in
    let n := Z.of_nat (List.length (history_ s)) in
    let up := (c =? "A")%char && (0 <? idx) in
    let down := (c =? "B")%char && (idx <? n) in
    let idx' := if up then size_t_wrap (idx - 1)
                else if down then size_t_wrap (idx + 1) else idx in
    let buf' := if up || down
                then if idx' <? n
                     then nth (Z.to_nat idx') (history_ s) EmptyString
                     else EmptyString
                else input_buffer_ s in
    fst r = true /\
    escape_sequence (snd r) = EmptyString /\
    history_index_ (snd r) = idx' /\
    input_buffer_ (snd r) = buf' /\
    history_ (snd r) = history_ s /\
    writes (trace (snd r))
    = (writes (trace s)
       ++ (if up || down
           then (STDOUT_FILENO, str_clear_line)
                :: (if empty buf' then [] else [(STDOUT_FILENO, buf')])
           else []))%list /\
    kills (trace (snd r)) = kills (trace s) /\
    master_fd_ (snd r) = master_fd_ s /\
    child_pid_ (snd r) = child_pid_ s /\
    is_running_ (snd r) = is_running_ s.
Proof.
  intros sys_kill s c Hlen Hc H3 H26 H4 H127 r idx n up down idx' buf'.
  subst r idx n up down idx' buf'.
  unfold Part000.processInput, Part000.handleEscapeSequence,
    Part000.handleArrowKey, Part000.showHistory, Part000.clearLine,
    Part000.write, Part000.cout_flush.
  chars_neq. run_m.
  destruct (escape_sequence s) as [|a [|b [|x rest]]] eqn:Hseq;
    try discriminate Hlen.
  run_m.
  cbn [push_back append size String.length Z.of_nat Pos.of_succ_nat
       Pos.succ Z.eqb Pos.eqb at_index String.get].
  run_m.
  destruct ((c =? "A")%char && (0 <? history_index_ s)); run_m.
  - destruct (size_t_wrap (history_index_ s - 1)
              <? Z.of_nat (Datatypes.length (history_ s))); run_m;
      [destruct (nth (Z.to_nat (size_t_wrap (history_index_ s - 1)))
                   (history_ s) EmptyString) eqn:Hn|];
      run_m; rewrite ?writes_app, ?kills_app;
      cbn [writes kills app]; rewrite ?app_nil_r, <- ?app_assoc;
      repeat split; reflexivity.
  - destruct ((c =? "B")%char
              && (history_index_ s <? Z.of_nat (Datatypes.length (history_ s))));
      run_m.
    + destruct (size_t_wrap (history_index_ s + 1)
                <? Z.of_nat (Datatypes.length (history_ s))); run_m;
        [destruct (nth (Z.to_nat (size_t_wrap (history_index_ s + 1)))
                     (history_ s) EmptyString) eqn:Hn|];
        run_m; rewrite ?writes_app, ?kills_app;
        cbn [writes kills app]; rewrite ?app_nil_r, <- ?app_assoc;
        repeat split; reflexivity.
    + rewrite app_nil_r. repeat split; reflexivity.
Qed.

(** In the version of part_000, a SIGINT that interrupts the wait is
    passed on to the tracked child and ends the session: [handleSignal]
    clears the running flag and the loop leaves without reading the
    wake-ups that follow.  SIGTERM, although a handler is installed for
    it, changes nothing and is not passed on. *)
Theorem Part000_sigint_signal_ends_session :
  forall (sys_kill : list Event -> Z -> Signal -> Z)
         (winsz : option winsize) (ws : list Wakeup) (s : State),
    instance_ s = true ->
    0 < child_pid_ s ->
    is_running_ s = true ->
    Part000.handleIO_loop sys_kill (PollSignal SIGINT winsz :: ws) s
    = (LoopExited,
       set_is_running_ false
         (set_trace
            (trace s
             ++ [EvKill (child_pid_ s) SIGINT
                   (sys_kill (trace s) (child_pid_ s) SIGINT)]) s)) /\
    Part000.handleSignal sys_kill SIGTERM winsz s = (tt, s).
Proof.
  intros sys_kill winsz ws s Hinst Hpid Hrun. split.
  - cbn [Part000.handleIO_loop].
    unfold Part000.handleSignal, Part000.kill. run_m.
    rewrite Hrun. run_m. rewrite Hinst. cbn [Signal_eqb]. run_m.
    replace (0 <? child_pid_ s) with true by (symmetry; apply Z.ltb_lt; lia).
    run_m.
    destruct ws; cbn [Part000.handleIO_loop]; run_m; reflexivity.
  - unfold Part000.handleSignal. run_m. rewrite Hinst. cbn [Signal_eqb].
    run_m. reflexivity.
Qed.


(** ** The second class of [src/terminal_emulator.cpp] *)

(** When both writes of a pair deliver everything, the pair reports no
    failure and both writes were made, in order. *)
Lemma Legacy_write_pair_complete :
  forall (sys_write : list Event -> Z -> string -> Z),
    (forall tr fd buf, sys_write tr fd buf = size buf) ->
    forall fd1 b1 fd2 b2 s,
      Legacy.write_pair_failed sys_write fd1 b1 fd2 b2 s
      = (false,
         set_trace ((trace s ++ [EvWrite fd1 b1]) ++ [EvWrite fd2 b2]) s).
Proof.
  intros sys_write Hw fd1 b1 fd2 b2 s.
  unfold Legacy.write_pair_failed, Legacy.write. run_m.
  rewrite Hw, Z.eqb_refl. run_m. rewrite Hw, Z.eqb_refl. run_m.
  reflexivity.
Qed.

Lemma Legacy_processBytes_never_throws :
  forall (sys_write : list Event -> Z -> string -> Z),
    (forall tr fd buf, sys_write tr fd buf = size buf) ->
    forall data s,
      fst (Legacy.processBytes sys_write data s) = None \/
      fst (Legacy.processBytes sys_write data s) = Some Legacy.Returned.
Proof.
  intros sys_write Hw data.
  induction data as [|c rest IH]; intros s.
  - left; reflexivity.
  - cbn [Legacy.processBytes].
    destruct (c =? CTRL_D)%char; [right; reflexivity|].
    destruct (c =? DEL)%char.
    + run_m. destruct (input_buffer_ s) eqn:Hb; run_m; [apply IH|].
      rewrite Legacy_write_pair_complete by exact Hw. apply IH.
    + destruct ((c =? CR)%char || (c =? LF)%char).
      * run_m. destruct (input_buffer_ s =? str_exit)%string;
          [right; reflexivity|].
        run_m. rewrite Legacy_write_pair_complete by exact Hw. apply IH.
      * run_m. rewrite Legacy_write_pair_complete by exact Hw. apply IH.
Qed.

(** In the second class of terminal_emulator.cpp, [handleIO] throws only
    when [poll] fails or a write comes back short: as long as every write
    delivers all its bytes and no [poll] fails, the loop returns or keeps
    waiting, and [run] reports nothing. *)
Theorem Legacy_complete_writes_never_throw :
  forall (sys_write : list Event -> Z -> string -> Z)
         (ws : list Legacy.Wakeup) (s : State),
    (forall tr fd buf, sys_write tr fd buf = size buf) ->
    Forall (fun w => w <> Legacy.PollFailed) ws ->
    (fst (Legacy.handleIO sys_write ws s) = Legacy.Returned \/
     fst (Legacy.handleIO sys_write ws s) = Legacy.Waiting) /\
    Legacy.run sys_write ws s = Legacy.handleIO sys_write ws s.
Proof.
  intros sys_write ws s Hw Hws.
  pose (P := fun st : Legacy.Status =>
               st = Legacy.Returned \/ st = Legacy.Waiting).
  assert (H : P (fst (Legacy.handleIO sys_write ws s))).
  { revert s. induction Hws as [|w ws' Hne _ IH]; intros s.
    - right; reflexivity.
    - destruct w as [|stdin_in master_in]; [congruence|].
      cbn [Legacy.handleIO]. unfold bind at 1.
      assert (Hmaster : forall s1,
        P (fst (match master_in with
                | None => Legacy.handleIO sys_write ws'
                | Some r =>
                    if bytes_read r <=? 0 then ret Legacy.Returned
                    else
                      n <- Legacy.write sys_write STDOUT_FILENO
                             (read_data r) ;;
                      if negb (n =? bytes_read r)
                      then ret (Legacy.Threw "Write error")
                      else Legacy.handleIO sys_write ws'
                end s1))).
      { intros s1. destruct master_in as [r|]; [|apply IH].
        destruct r as [|data]; cbn [bytes_read read_data].
        - left; reflexivity.
        - destruct (size data <=? 0); [left; reflexivity|].
          unfold Legacy.write. run_m. rewrite Hw, Z.eqb_refl. run_m.
          apply IH. }
      destruct stdin_in as [r|]; [|run_m; apply Hmaster].
      destruct (bytes_read r <=? 0); [left; reflexivity|].
      destruct (Legacy_processBytes_never_throws sys_write Hw (read_data r) s)
        as [Hn | Hr];
        destruct (Legacy.processBytes sys_write (read_data r) s) as [o s1];
        cbn [fst] in *; subst o.
      + exact (Hmaster s1).
      + left; reflexivity. }
  unfold P in H. clear P.
  split; [exact H|].
  unfold Legacy.run, bind.
  destruct (Legacy.handleIO sys_write ws s) as [st s1]; cbn [fst] in H.
  destruct H as [-> | ->]; reflexivity.
Qed.

(** In the second class of terminal_emulator.cpp, the end of either
    stream ends the session: a read of standard input that returns no
    byte makes [handleIO] return at once, before the master side is
    looked at, and so does such a read of the master when standard input
    had nothing.  Nothing is written or reported and the wake-ups that
    follow are not served. *)
Theorem Legacy_end_of_stream_returns :
  forall (sys_write : list Event -> Z -> string -> Z)
         (r : ReadResult) (master_in : option ReadResult)
         (ws : list Legacy.Wakeup) (s : State),
    bytes_read r <= 0 ->
    Legacy.run sys_write (Legacy.PollReady (Some r) master_in :: ws) s
    = (Legacy.Returned, s) /\
    Legacy.run sys_write (Legacy.PollReady None (Some r) :: ws) s
    = (Legacy.Returned, s).
Proof.
  intros sys_write r master_in ws s Hr.
  apply Z.leb_le in Hr.
  unfold Legacy.run. cbn [Legacy.handleIO]. run_m. rewrite Hr.
  split; reflexivity.
Qed.

(** In the second class of terminal_emulator.cpp, a short write of the
    echo of an ordinary byte stops everything: the byte has been added to
    the line buffer, but it is not forwarded to the child, the bytes
    after it are not processed, the master side is not read, and [run]
    reports the write error. *)
Theorem Legacy_short_echo_aborts_session :
  forall (sys_write : list Event -> Z -> string -> Z)
         (c : ascii) (rest : string) (master_in : option ReadResult)
         (ws : list Legacy.Wakeup) (s : State),
    c <> CTRL_D -> c <> DEL -> c <> CR -> c <> LF ->
    sys_write (trace s) STDOUT_FILENO (String c EmptyString) <> 1 ->
    Legacy.run sys_write
      (Legacy.PollReady (Some (ReadBytes (String c rest))) master_in :: ws) s
    = (Legacy.Threw "Write error",
       set_trace
         (trace s
          ++ [EvWrite STDOUT_FILENO (String c EmptyString);
              EvCerr "Error: Write error"])
         (set_input_buffer_ (push_back (input_buffer_ s) c) s)).
Proof.
  intros sys_write c rest master_in ws s H4 H127 Hcr Hlf Hshort.
  apply Z.eqb_neq in Hshort.
  unfold Legacy.run. cbn [Legacy.handleIO bytes_read read_data].
  assert (Hsz : (size (String c rest) <=? 0) = false).
  { apply Z.leb_gt. unfold size. cbn [String.length]. lia. }
  unfold bind at 2. rewrite Hsz.
  cbn [Legacy.processBytes]. chars_neq.
  unfold Legacy.write_pair_failed, Legacy.write. run_m.
  change (size (String c EmptyString)) with 1. rewrite Hshort.
  run_m. rewrite <- app_assoc. reflexivity.
Qed.


(** ** Sample runs of the other two versions *)

Lemma Part000_ctrl_c_witness :
  0 < child_pid_ (session "ls" [] 0 "") /\
  Part000.processInput kill_succeeds CTRL_C (session "ls" [] 0 "")
  = (true,
     set_trace [EvKill 100 SIGINT 0] (session "ls" [] 0 "")).
Proof.
  assert (H : 0 < child_pid_ (session "ls" [] 0 "")) by (cbn; lia).
  split; [exact H|].
  destruct (Part000_ctrl_c_only_signals_child kill_succeeds
              (session "ls" [] 0 "") H) as (Hp & _).
  rewrite Hp. reflexivity.
Defined.

Lemma Part000_two_byte_sequence_witness :
  escape_sequence (session "ls" [] 0 str_ESC) = str_ESC /\
  Part000.processInput kill_succeeds "x" (session "ls" [] 0 str_ESC)
  = (true, session "ls" [] 0 "").
Proof.
  split; [reflexivity|].
  rewrite (Part000_two_byte_sequence_is_discarded kill_succeeds
             (session "ls" [] 0 str_ESC) "x" eq_refl);
    try discriminate.
  reflexivity.
Defined.

Lemma Part000_recall_witness :
  String.length
    (escape_sequence
       (session "" ["ls"] 1 (String ESC (String LBRACKET EmptyString))))
  = 2%nat /\
  history_index_ (snd (Part000.processInput kill_succeeds "A"
                         (session "" ["ls"] 1
                            (String ESC (String LBRACKET EmptyString)))))
  = 0 /\
  input_buffer_ (snd (Part000.processInput kill_succeeds "A"
                        (session "" ["ls"] 1
                           (String ESC (String LBRACKET EmptyString)))))
  = "ls" /\
  kills (trace (snd (Part000.processInput kill_succeeds "A"
                       (session "" ["ls"] 1
                          (String ESC (String LBRACKET EmptyString))))))
  = [] /\
  writes (trace (snd (Part000.processInput kill_succeeds "A"
                        (session "" ["ls"] 1
                           (String ESC (String LBRACKET EmptyString))))))
  = [(STDOUT_FILENO, str_clear_line); (STDOUT_FILENO, "ls")].
Proof.
  split; [reflexivity|].
  destruct (Part000_recall_writes_to_terminal_only kill_succeeds
              (session "" ["ls"] 1 (String ESC (String LBRACKET EmptyString)))
              "A" eq_refl) as (_ & _ & Hi & Hb & _ & Hw & Hk & _);
    try discriminate.
  rewrite Hi, Hb, Hw, Hk. repeat split; reflexivity.
Defined.

Lemma Part000_sigint_signal_witness :
  instance_ (session "ls" [] 0 "") = true /\
  0 < child_pid_ (session "ls" [] 0 "") /\
  is_running_ (session "ls" [] 0 "") = true /\
  fst (Part000.handleIO_loop kill_succeeds
         [PollSignal SIGINT None; PollReady None None]
         (session "ls" [] 0 "")) = LoopExited.
Proof.
  assert (H : 0 < child_pid_ (session "ls" [] 0 "")) by (cbn; lia).
  split; [reflexivity|]. split; [exact H|]. split; [reflexivity|].
  destruct (Part000_sigint_signal_ends_session kill_succeeds None
              [PollReady None None] (session "ls" [] 0 "")
              eq_refl H eq_refl) as (Hl & _).
  rewrite Hl. reflexivity.
Defined.

Lemma Legacy_complete_writes_witness :
  (forall tr fd buf, write_all_bytes tr fd buf = size buf) /\
  Forall (fun w => w <> Legacy.PollFailed)
    [Legacy.PollReady (Some (ReadBytes "ls")) (Some (ReadBytes "$ "))] /\
  Legacy.run write_all_bytes
    [Legacy.PollReady (Some (ReadBytes "ls")) (Some (ReadBytes "$ "))]
    (session "" [] 0 "")
  = Legacy.handleIO write_all_bytes
      [Legacy.PollReady (Some (ReadBytes "ls")) (Some (ReadBytes "$ "))]
      (session "" [] 0 "").
Proof.
  assert (Hw : forall tr fd buf, write_all_bytes tr fd buf = size buf)
    by (intros; reflexivity).
  assert (Hws : Forall (fun w => w <> Legacy.PollFailed)
            [Legacy.PollReady (Some (ReadBytes "ls"))
               (Some (ReadBytes "$ "))])
    by (constructor; [discriminate | constructor]).
  split; [exact Hw|]. split; [exact Hws|].
  exact (proj2 (Legacy_complete_writes_never_throw write_all_bytes _
                  (session "" [] 0 "") Hw Hws)).
Defined.

Lemma Legacy_end_of_stream_witness :
  bytes_read (ReadBytes "") <= 0 /\
  Legacy.run write_all_bytes
    [Legacy.PollReady (Some (ReadBytes "")) (Some (ReadBytes "$ "))]
    (session "ls" [] 0 "")
  = (Legacy.Returned, session "ls" [] 0 "").
Proof.
  assert (H : bytes_read (ReadBytes "") <= 0) by (cbn; lia).
  split; [exact H|].
  exact (proj1 (Legacy_end_of_stream_returns write_all_bytes (ReadBytes "")
                  (Some (ReadBytes "$ ")) [] (session "ls" [] 0 "") H)).
Defined.

Lemma Legacy_short_echo_witness :
  write_nothing (trace (session "l" [] 0 "")) STDOUT_FILENO "s" <> 1 /\
  fst (Legacy.run write_nothing
         [Legacy.PollReady (Some (ReadBytes "s")) None]
         (session "l" [] 0 ""))
  = Legacy.Threw "Write error".
Proof.
  assert (H : write_nothing (trace (session "l" [] 0 "")) STDOUT_FILENO "s"
              <> 1) by (unfold write_nothing; lia).
  split; [exact H|].
  rewrite (Legacy_short_echo_aborts_session write_nothing "s" EmptyString
             None [] (session "l" [] 0 "")); try discriminate.
  reflexivity.
Defined.
